(** * Sengled Wi-Fi bulb client: a shallow embedding of [pkg/client.py]

    The development follows the Python module top to bottom: the values a
    Python program handles (JSON documents, exceptions), the bulb proxy
    [SengledBulb] with its attribute list and inbound status handler, and the
    client [SengledClient] with its session, its MQTT subscription registry and
    its device directory.  The REST backend, the MQTT broker and the library
    functions the module calls ([json.loads], [json.dumps], [urlparse],
    [time.time]) are gathered in one [environment] record, over which every
    statement is universally quantified. *)

From Stdlib Require Import ZArith Ascii String List DecimalString.
From stdpp Require Import base tactics option list strings gmap fin_maps.

Local Open Scope string_scope.
Local Open Scope Z_scope.

#[local] Set Warnings "-register-all".

(** ** Python values and exceptions *)

(** What [json.loads] returns.  [JNull] is Python's [None]; an object keeps its
    members in document order and a lookup takes the first member of a name. *)
Inductive json : Type :=
| JNull
| JBool (b : bool)
| JInt (z : Z)
| JFloat (literal : string)
| JStr (s : string)
| JArr (items : list json)
| JObj (members : list (string * json)).

Inductive exn : Type :=
| ValueError | TypeError | KeyError | AttributeError
| RuntimeError | OSError | RequestException.

Inductive outcome (A : Type) : Type :=
| Return (a : A)
| Raise (e : exn).
Arguments Return {A} a.
Arguments Raise {A} e.

(** A computation over a mutable state [S]: a raised exception keeps the state
    reached so far, as Python does. *)
Definition M (S A : Type) : Type := S -> outcome A * S.

Definition ret {S A} (a : A) : M S A := fun s => (Return a, s).
Definition raise {S A} (e : exn) : M S A := fun s => (Raise e, s).
Definition bind {S A B} (m : M S A) (k : A -> M S B) : M S B :=
  fun s => match m s with
           | (Return a, s') => k a s'
           | (Raise e, s') => (Raise e, s')
           end.
Definition get {S} : M S S := fun s => (Return s, s).
Definition put {S} (s : S) : M S unit := fun _ => (Return tt, s).
Definition modify {S} (f : S -> S) : M S unit := fun s => (Return tt, f s).
Definition lift {S A} (o : outcome A) : M S A := fun s => (o, s).

Notation "'let*' x ':=' m 'in' k" := (bind m (fun x => k))
  (at level 10, x name, m at level 100, k at level 200).
Notation "m ';;;' k" := (bind m (fun _ => k))
  (at level 100, k at level 200, right associativity).

(** ** Python operations on strings and JSON values *)

Fixpoint prefix_of (p s : string) : bool :=
  match p, s with
  | EmptyString, _ => true
  | String a p', String b s' => Ascii.eqb a b && prefix_of p' s'
  | String _ _, EmptyString => false
  end.

(** [sub in s] on two strings. *)
Fixpoint str_contains (sub s : string) : bool :=
  prefix_of sub s ||
  match s with
  | EmptyString => false
  | String _ s' => str_contains sub s'
  end.

(** [s.split(sep)] for a one-character separator. *)
Fixpoint str_split (sep : ascii) (s : string) : list string :=
  match s with
  | EmptyString => [EmptyString]
  | String c s' =>
      if Ascii.eqb c sep then EmptyString :: str_split sep s'
      else match str_split sep s' with
           | hd :: tl => String c hd :: tl
           | [] => [String c EmptyString]
           end
  end.

(** A Python [str] is a sequence of code points; a [string] here holds its
    UTF-8 encoding.  A byte from 128 to 191 continues the code point begun
    before it. *)
Definition continuation (b : N) : bool := (128 <=? b)%N && (b <? 192)%N.

(** The characters [for c in s] walks through: one string per code point. *)
Fixpoint chars_of_bytes (l : list ascii) : list string :=
  match l with
  | [] => []
  | c :: l' =>
      let rest := chars_of_bytes l' in
      if match l' with
         | c' :: _ => continuation (N_of_ascii c')
         | [] => false
         end
      then match rest with
           | hd :: tl => String c hd :: tl
           | [] => [String c EmptyString]
           end
      else String c EmptyString :: rest
  end.

Definition chars_of (s : string) : list string :=
  chars_of_bytes (list_ascii_of_string s).

(** [str(n)] for an integer. *)
Definition str_int (z : Z) : string := NilZero.string_of_int (Z.to_int z).

(** [x == s] where [s] is a [str]: only an equal string compares equal. *)
Definition json_eq_str (x : json) (s : string) : bool :=
  match x with
  | JStr t => String.eqb t s
  | _ => false
  end.

Fixpoint obj_lookup (key : string) (members : list (string * json)) : option json :=
  match members with
  | [] => None
  | (k, v) :: rest => if String.eqb k key then Some v else obj_lookup key rest
  end.

(** [key in container] for a string [key]. *)
Definition py_in (key : string) (container : json) : outcome bool :=
  match container with
  | JObj members => Return (bool_decide (is_Some (obj_lookup key members)))
  | JArr items => Return (existsb (fun x => json_eq_str x key) items)
  | JStr s => Return (str_contains key s)
  | JNull | JBool _ | JInt _ | JFloat _ => Raise TypeError
  end.

(** [container[key]] for a string [key]. *)
Definition py_getitem (container : json) (key : string) : outcome json :=
  match container with
  | JObj members =>
      match obj_lookup key members with
      | Some v => Return v
      | None => Raise KeyError
      end
  | _ => Raise TypeError
  end.

(** The values [for x in data] walks through. *)
Definition py_iter (data : json) : outcome (list json) :=
  match data with
  | JArr items => Return items
  | JObj members => Return (map (fun kv => JStr (fst kv)) members)
  | JStr s => Return (map JStr (chars_of s))
  | JNull | JBool _ | JInt _ | JFloat _ => Raise TypeError
  end.

(** *** [int(text, 10)]

    [int] reads a [str] code point by code point: the white space of
    [PyLong_FromString] (tab to carriage return, and the space) and, above
    ASCII, the Unicode white space; the decimal digits of every script; a
    sign; single underscores between digits.  The digit table is that of the
    Unicode 14 database of CPython 3.11, whose default limit of 4300 digits
    is applied as well. *)

(** The code points of a UTF-8 text; [None] stands for a byte that begins no
    well-formed sequence. *)
Fixpoint code_points (l : list N) : list (option N) :=
  match l with
  | [] => []
  | b0 :: l1 =>
      if (b0 <? 128)%N then Some b0 :: code_points l1 else
      match l1 with
      | b1 :: l2 =>
          if (194 <=? b0)%N && (b0 <? 224)%N && continuation b1
          then Some ((b0 - 192) * 64 + (b1 - 128))%N :: code_points l2 else
          match l2 with
          | b2 :: l3 =>
              let cp3 := ((b0 - 224) * 4096 + (b1 - 128) * 64 + (b2 - 128))%N in
              if (224 <=? b0)%N && (b0 <? 240)%N && continuation b1 && continuation b2
                 && (2048 <=? cp3)%N
              then Some cp3 :: code_points l3 else
              match l3 with
              | b3 :: l4 =>
                  let cp4 := ((b0 - 240) * 262144 + (b1 - 128) * 4096
                              + (b2 - 128) * 64 + (b3 - 128))%N in
                  if (240 <=? b0)%N && (b0 <? 248)%N && continuation b1
                     && continuation b2 && continuation b3
                     && (65536 <=? cp4)%N && (cp4 <? 1114112)%N
                  then Some cp4 :: code_points l4 else None :: code_points l1
              | [] => None :: code_points l1
              end
          | [] => None :: code_points l1
          end
      | [] => [None]
      end
  end.

Definition text_of (s : string) : list (option N) :=
  code_points (map N_of_ascii (list_ascii_of_string s)).

(** White space to [int]: U+0009 to U+000D and U+0020; above ASCII, U+0085,
    U+00A0, U+1680, U+2000 to U+200A, U+2028, U+2029, U+202F, U+205F and
    U+3000.  The separators U+001C to U+001F are not among them. *)
Definition is_space (c : option N) : bool :=
  match c with
  | Some cp =>
      ((9 <=? cp) && (cp <=? 13) || (cp =? 32) || (cp =? 133) || (cp =? 160)
       || (cp =? 5760) || (8192 <=? cp) && (cp <=? 8202) || (cp =? 8232)
       || (cp =? 8233) || (cp =? 8239) || (cp =? 8287) || (cp =? 12288))%N
  | None => false
  end.

(** The code point of the digit zero of each script with decimal digits; the
    nine code points after it are the digits one to nine. *)
Definition decimal_zeros : list N :=
  [ 48; 1632; 1776; 1984; 2406; 2534; 2662; 2790; 2918; 3046; 3174; 3302; 3430;
    3558; 3664; 3792; 3872; 4160; 4240; 6112; 6160; 6470; 6608; 6784; 6800;
    6992; 7088; 7232; 7248; 42528; 43216; 43264; 43472; 43504; 43600; 44016;
    65296; 66720; 68912; 69734; 69872; 69942; 70096; 70384; 70736; 70864;
    71248; 71360; 71472; 71904; 72016; 72784; 73040; 73120; 92768; 92864;
    93008; 120782; 120792; 120802; 120812; 120822; 123200; 123632; 125264;
    130032 ]%N.

Definition digit_of (c : option N) : option Z :=
  match c with
  | Some cp =>
      match find (fun zero => (zero <=? cp) && (cp <? zero + 10))%N decimal_zeros with
      | Some zero => Some (Z.of_N (cp - zero))
      | None => None
      end
  | None => None
  end.

Definition is_char (a : ascii) (c : option N) : bool :=
  match c with
  | Some cp => (cp =? N_of_ascii a)%N
  | None => false
  end.

Fixpoint lstrip (l : list (option N)) : list (option N) :=
  match l with
  | c :: l' => if is_space c then lstrip l' else l
  | [] => []
  end.

Definition strip (l : list (option N)) : list (option N) :=
  rev (lstrip (rev (lstrip l))).

(** Digits with single underscores between them; [after_digit] tells whether
    the previous character was a digit. *)
Fixpoint digits_value (acc : Z) (after_digit : bool) (l : list (option N)) : option Z :=
  match l with
  | [] => if after_digit then Some acc else None
  | c :: l' =>
      match digit_of c with
      | Some d => digits_value (10 * acc + d) true l'
      | None =>
          if is_char "_" c && after_digit
          then match l' with
               | [] => None
               | _ => digits_value acc false l'
               end
          else None
      end
  end.

(** [sys.get_int_max_str_digits()], as the interpreter starts. *)
Definition int_max_str_digits : nat := 4300.

Definition count_digits (l : list (option N)) : nat :=
  List.length (filter (fun c => bool_decide (is_Some (digit_of c))) l).

Definition unsigned_value (l : list (option N)) : option Z :=
  if (int_max_str_digits <? count_digits l)%nat then None
  else digits_value 0 false l.

Definition parse_int10 (s : string) : option Z :=
  match strip (text_of s) with
  | c :: l =>
      if is_char "-" c then Z.opp <$> unsigned_value l
      else if is_char "+" c then unsigned_value l
      else unsigned_value (c :: l)
  | [] => None
  end.

(** [int(x, 10)]: a string is parsed, anything else is a [TypeError]. *)
Definition py_int10 (x : json) : outcome Z :=
  match x with
  | JStr s =>
      match parse_int10 s with
      | Some z => Return z
      | None => Raise ValueError
      end
  | _ => Raise TypeError
  end.

(** ** The library and network surroundings of the module *)

(** One request of [requests.post(url, headers=..., json=...)]. *)
Record http_request : Type := {
  req_url : string;
  req_headers : list (string * string);
  req_json : json;
}.

(** One entry of the directory's [deviceList].  The adapter reads the device
    identifier, category and type code as strings, and the attribute list as a
    list of [{name, value}] dictionaries. *)
Record attribute : Type := {
  attr_name : string;
  attr_value : json;
}.

Record device_info : Type := {
  deviceUuid : string;
  info_category : string;
  typeCode : string;
  attributeList : list attribute;
}.

(** The decoded body [r.json()] of a response, by the fields the client reads;
    a field is [None] when the key is absent from the body. *)
Record http_body : Type := {
  body_info : option string;
  body_jsessionId : option string;
  body_inceptionAddr : option string;
  body_deviceList : option (list device_info);
}.

(** A response: its status code, and its body ([None] when the body is not
    JSON, in which case [r.json()] raises [ValueError]). *)
Record http_response : Type := {
  status_code : Z;
  resp_body : option http_body;
}.

(** The result of [urlparse], restricted to the two parts read. *)
Record url_parts : Type := {
  netloc : string;
  path : string;
}.

(** The calls made on the [paho.mqtt] client object, in order. *)
Inductive mqtt_call : Type :=
| tls_set_context
| ws_set_options (ws_path : string) (ws_headers : list (string * string))
| set_on_message
| connect (host : string) (port : Z) (keepalive : Z)
| loop_start
| loop_stop
| disconnect
| reconnect
| subscribe (topic : string)
| publish (topic : string) (payload : string).

(** What [publish] hands back, as far as the module uses it: how the call of
    [wait_for_publish] ends.  The library raises [ValueError] there when the
    message could not be queued and [RuntimeError] for any other failure of
    the publication.  The attribute [is_published] is a method; the module
    reads it and never calls it. *)
Record message_info : Type := {
  wait_for_publish : outcome unit;
}.

Definition MQTT_ERR_SUCCESS : Z := 0.

(** Everything outside the module.  The network answers may depend on all the
    calls made before, so the broker and the backend are functions of the call
    history; an answer of [None] from the backend is a transport failure, for
    which [requests.post] raises, and an answer of [None] from [urlparse]
    is an address it refuses with [ValueError] (an IPv6 literal with a
    bracket missing, for one).  [connect] and [reconnect] return or raise
    (a socket error, or [ValueError] for a host or port the library refuses).
    [subscribe] hands back a result code, and
    [publish] a message information, unless the library refuses the topic, in
    which case the call raises ([ValueError] for an empty or ill-formed topic
    filter, or a topic with a wildcard). *)
Record environment : Type := {
  requests_post : list http_request -> http_request -> option http_response;
  mqtt_connect : list mqtt_call -> outcome unit;
  mqtt_subscribe_rc : list mqtt_call -> string -> outcome Z;
  mqtt_publish_info : list mqtt_call -> string -> string -> outcome message_info;
  json_loads : string -> option json;
  json_dumps : json -> string;
  urlparse : string -> option url_parts;
  time_ms : nat -> Z;
}.

(** Whether the connection opens after the calls made so far. *)
Definition mqtt_connect_ok (E : environment) (l : list mqtt_call) : bool :=
  match mqtt_connect E l with
  | Return _ => true
  | Raise _ => false
  end.

(** ** [class SengledBulb] *)

(** The observer registered through [set_attribute_update_callback]; the module
    only ever tests it for truth and calls it. *)
Inductive callback_slot : Type :=
| Unset
| SetTo (callable : bool).

(** A value read through [getattr(self, name)]. *)
Inductive pyvalue : Type :=
| PyInt (z : Z)
| PyBool (b : bool)
| PyJson (j : json)
| PyMember (name : string).

(** The fields of a bulb; the back reference [_client] is left out, since
    the functions that need the client take it from the world they run in. *)
Record SengledBulb : Type := {
  _uuid : string;
  _category : string;
  _type_code : string;
  _attributes : list attribute;
  _attribute_update_callback : callback_slot;
}.

Definition with_attributes (attrs : list attribute) (self : SengledBulb) : SengledBulb :=
  {| _uuid := _uuid self;
     _category := _category self;
     _type_code := _type_code self;
     _attributes := attrs;
     _attribute_update_callback := _attribute_update_callback self |}.

Definition set_attribute_update_callback (callable : bool) (self : SengledBulb)
  : SengledBulb :=
  {| _uuid := _uuid self;
     _category := _category self;
     _type_code := _type_code self;
     _attributes := _attributes self;
     _attribute_update_callback := SetTo callable |}.

(** The first dictionary of the list whose ['name'] is [key]: the one the
    [for attr in self._attributes] loops of the accessors stop at. *)
Fixpoint find_attr (key : string) (attrs : list attribute) : option attribute :=
  match attrs with
  | [] => None
  | attr :: rest =>
      if String.eqb (attr_name attr) key then Some attr else find_attr key rest
  end.

(** The properties come in three shapes, which differ in how the value found
    is decoded and in what is returned when the loop finds nothing. *)
Definition int_attr (key : string) (self : SengledBulb) : outcome Z :=
  match find_attr key (_attributes self) with
  | Some attr => py_int10 (attr_value attr)
  | None => Return 0
  end.

Definition bool_attr (key : string) (self : SengledBulb) : bool :=
  match find_attr key (_attributes self) with
  | Some attr => json_eq_str (attr_value attr) "1"
  | None => false
  end.

Definition str_attr (key : string) (default : string) (self : SengledBulb) : json :=
  match find_attr key (_attributes self) with
  | Some attr => attr_value attr
  | None => JStr default
  end.

Definition brightness := int_attr "brightness".
Definition consumption_time := int_attr "consumptionTime".
Definition rssi := int_attr "deviceRssi".
Definition identify_no := str_attr "identifyNO" "".
Definition ip := str_attr "ip" "".
Definition name := str_attr "name" "".
Definition online := bool_attr "online".
Definition product_code := str_attr "product_code" "".
Definition save_flag := bool_attr "save_flag".
Definition start_time := str_attr "start_time" "".
Definition support_attributes := str_attr "support_attributes" "".
Definition switch := bool_attr "switch".
Definition time_zone := str_attr "time_zone" "".
Definition type_code (self : SengledBulb) : json :=
  str_attr "type_code" (_type_code self) self.
Definition version := str_attr "version" "".
Definition uuid (self : SengledBulb) : string := _uuid self.
Definition category (self : SengledBulb) : string := _category self.

Definition _attribute_to_property (attr : string) : string :=
  let attr_map :=
    [ ("consumptionTime", "consumption_time");
      ("deviceRssi", "rssi");
      ("identifyNO", "identify_no");
      ("productCode", "product_code");
      ("saveFlag", "save_flag");
      ("startTime", "start_time");
      ("supportAttributes", "support_attributes");
      ("timeZone", "time_zone");
      ("typeCode", "type_code") ] in
  match find (fun kv => String.eqb (fst kv) attr) attr_map with
  | Some kv => snd kv
  | None => attr
  end.

(** *** [getattr] and [hasattr] on a bulb *)

(** The names a bulb answers to besides its properties: its methods, the
    fields [__init__] assigns, and what every object of Python 3.11 carries. *)
Definition member_names : list string :=
  [ "set_attribute_update_callback"; "toggle"; "set_brightness";
    "_update_status"; "_attribute_to_property";
    "_client"; "_uuid"; "_category"; "_type_code"; "_attributes";
    "__class__"; "__delattr__"; "__dict__"; "__dir__"; "__doc__"; "__eq__";
    "__format__"; "__ge__"; "__getattribute__"; "__getstate__"; "__gt__";
    "__hash__";
    "__init__"; "__init_subclass__"; "__le__"; "__lt__"; "__module__";
    "__ne__"; "__new__"; "__reduce__"; "__reduce_ex__"; "__repr__";
    "__setattr__"; "__sizeof__"; "__str__"; "__subclasshook__";
    "__weakref__" ].

Definition map_outcome {A B} (f : A -> B) (o : outcome A) : outcome B :=
  match o with
  | Return a => Return (f a)
  | Raise e => Raise e
  end.

Definition properties : list (string * (SengledBulb -> outcome pyvalue)) :=
  [ ("brightness", fun self => map_outcome PyInt (brightness self));
    ("consumption_time", fun self => map_outcome PyInt (consumption_time self));
    ("rssi", fun self => map_outcome PyInt (rssi self));
    ("identify_no", fun self => Return (PyJson (identify_no self)));
    ("ip", fun self => Return (PyJson (ip self)));
    ("name", fun self => Return (PyJson (name self)));
    ("online", fun self => Return (PyBool (online self)));
    ("product_code", fun self => Return (PyJson (product_code self)));
    ("save_flag", fun self => Return (PyBool (save_flag self)));
    ("start_time", fun self => Return (PyJson (start_time self)));
    ("support_attributes", fun self => Return (PyJson (support_attributes self)));
    ("switch", fun self => Return (PyBool (switch self)));
    ("time_zone", fun self => Return (PyJson (time_zone self)));
    ("type_code", fun self => Return (PyJson (type_code self)));
    ("version", fun self => Return (PyJson (version self)));
    ("uuid", fun self => Return (PyJson (JStr (uuid self))));
    ("category", fun self => Return (PyJson (JStr (category self)))) ].

(** [getattr(self, name)]: a property runs its getter, which may raise. *)
Definition py_getattr (self : SengledBulb) (attr : string) : outcome pyvalue :=
  match find (fun kv => String.eqb (fst kv) attr) properties with
  | Some kv => snd kv self
  | None =>
      if existsb (String.eqb attr) member_names then Return (PyMember attr)
      else if String.eqb attr "_attribute_update_callback" then
        match _attribute_update_callback self with
        | Unset => Raise AttributeError
        | SetTo _ => Return (PyMember attr)
        end
      else Raise AttributeError
  end.

(** [hasattr(self, name)] is [getattr] with [AttributeError] turned into
    [False]; any other exception of a getter passes through. *)
Definition py_hasattr (self : SengledBulb) (attr : string) : outcome bool :=
  match py_getattr self attr with
  | Return _ => Return true
  | Raise AttributeError => Return false
  | Raise e => Raise e
  end.

(** *** The inbound status handler *)

(** A bulb together with the calls its observer has received. *)
Record bulb_state : Type := {
  bulb : SengledBulb;
  notified : list (string * pyvalue);
}.

Definition set_value (i : nat) (v : json) (st : bulb_state) : bulb_state :=
  let self := bulb st in
  {| bulb := with_attributes
               (alter (fun attr => {| attr_name := attr_name attr; attr_value := v |})
                      i (_attributes self)) self;
     notified := notified st |}.

Definition notify (prop : string) (v : pyvalue) (st : bulb_state) : bulb_state :=
  {| bulb := bulb st; notified := notified st ++ [(prop, v)] |}.

(** Reading [self._attribute_update_callback], which [__init__] leaves
    unassigned. *)
Definition read_callback : M bulb_state bool :=
  let* st := get in
  match _attribute_update_callback (bulb st) with
  | Unset => raise AttributeError
  | SetTo callable => ret callable
  end.

(** The loop [for attr in self._attributes] for one status entry; [i] is the
    position of the head of [rest] in the attribute list. *)
Fixpoint update_attr (status : json) (i : nat) (rest : list attribute)
  : M bulb_state unit :=
  match rest with
  | [] => ret tt
  | attr :: rest' =>
      let* ty := lift (py_getitem status "type") in
      if json_eq_str ty (attr_name attr) then
        let* v := lift (py_getitem status "value") in
        modify (set_value i v);;;
        let* callable := read_callback in
        if callable then
          let prop := _attribute_to_property (attr_name attr) in
          let* st := get in
          let* has := lift (py_hasattr (bulb st) prop) in
          if has then
            let* v := lift (py_getattr (bulb st) prop) in
            modify (notify prop v)
          else ret tt
        else ret tt
      else update_attr status (S i) rest'
  end.

(** The body of [for status in data]. *)
Definition update_entry (status : json) : M bulb_state unit :=
  let* has_type := lift (py_in "type" status) in
  if negb has_type then ret tt else
  let* has_dn := lift (py_in "dn" status) in
  if negb has_dn then ret tt else
  let* dn := lift (py_getitem status "dn") in
  let* st := get in
  if negb (json_eq_str dn (uuid (bulb st))) then ret tt else
  update_attr status 0 (_attributes (bulb st)).

Fixpoint for_each {S A} (body : A -> M S unit) (l : list A) : M S unit :=
  match l with
  | [] => ret tt
  | x :: l' => body x;;; for_each body l'
  end.

Definition _update_status (E : environment) (message : string) : M bulb_state unit :=
  match json_loads E message with
  | None => ret tt
  | Some data =>
      let* entries := lift (py_iter data) in
      for_each update_entry entries
  end.

(** ** [class SengledClient] *)

Record mqtt_server : Type := {
  mqtt_host : string;
  mqtt_port : Z;
  mqtt_path : string;
}.

(** The [paho.mqtt] client object: its identifier and the calls made on it. *)
Record MqttClient : Type := {
  client_id : string;
  calls : list mqtt_call;
}.

(** The callables stored in the subscription registry: the bound method
    [_update_status] of the bulb built for a device identifier. *)
Inductive handler : Type :=
| update_status_of (device : string).

Record SengledClient : Type := {
  _instance_uuid : string;
  _username : string;
  _password : string;
  _jsession_id : option string;
  _mqtt_server : mqtt_server;
  _mqtt_client : option MqttClient;
  _devices : list SengledBulb;
  _subscribed : gmap string handler;
}.

(** [SengledClient.__init__]; [instance] stands for [uuid4().hex[:-16]]. *)
Definition new_client (instance username password : string) : SengledClient :=
  {| _instance_uuid := instance;
     _username := username;
     _password := password;
     _jsession_id := None;
     _mqtt_server := {| mqtt_host := "us-mqtt.cloud.sengled.com";
                        mqtt_port := 443;
                        mqtt_path := "/mqtt" |};
     _mqtt_client := None;
     _devices := [];
     _subscribed := ∅ |}.

(** The client together with the traffic it has caused: the REST requests sent
    and the number of clock readings taken. *)
Record world : Type := {
  client : SengledClient;
  http_log : list http_request;
  clock_reads : nat;
}.

Definition on_client (f : SengledClient -> SengledClient) (w : world) : world :=
  {| client := f (client w); http_log := http_log w; clock_reads := clock_reads w |}.

Definition set_jsession_id (t : option string) (c : SengledClient) : SengledClient :=
  {| _instance_uuid := _instance_uuid c; _username := _username c;
     _password := _password c; _jsession_id := t;
     _mqtt_server := _mqtt_server c; _mqtt_client := _mqtt_client c;
     _devices := _devices c; _subscribed := _subscribed c |}.

Definition set_mqtt_server (s : mqtt_server) (c : SengledClient) : SengledClient :=
  {| _instance_uuid := _instance_uuid c; _username := _username c;
     _password := _password c; _jsession_id := _jsession_id c;
     _mqtt_server := s; _mqtt_client := _mqtt_client c;
     _devices := _devices c; _subscribed := _subscribed c |}.

Definition set_mqtt_client (m : option MqttClient) (c : SengledClient) : SengledClient :=
  {| _instance_uuid := _instance_uuid c; _username := _username c;
     _password := _password c; _jsession_id := _jsession_id c;
     _mqtt_server := _mqtt_server c; _mqtt_client := m;
     _devices := _devices c; _subscribed := _subscribed c |}.

Definition set_devices (l : list SengledBulb) (c : SengledClient) : SengledClient :=
  {| _instance_uuid := _instance_uuid c; _username := _username c;
     _password := _password c; _jsession_id := _jsession_id c;
     _mqtt_server := _mqtt_server c; _mqtt_client := _mqtt_client c;
     _devices := l; _subscribed := _subscribed c |}.

Definition set_subscribed (m : gmap string handler) (c : SengledClient) : SengledClient :=
  {| _instance_uuid := _instance_uuid c; _username := _username c;
     _password := _password c; _jsession_id := _jsession_id c;
     _mqtt_server := _mqtt_server c; _mqtt_client := _mqtt_client c;
     _devices := _devices c; _subscribed := m |}.

Definition set_host (h : string) (s : mqtt_server) : mqtt_server :=
  {| mqtt_host := h; mqtt_port := mqtt_port s; mqtt_path := mqtt_path s |}.
Definition set_port (p : Z) (s : mqtt_server) : mqtt_server :=
  {| mqtt_host := mqtt_host s; mqtt_port := p; mqtt_path := mqtt_path s |}.
Definition set_path (p : string) (s : mqtt_server) : mqtt_server :=
  {| mqtt_host := mqtt_host s; mqtt_port := mqtt_port s; mqtt_path := p |}.

(** Truth value of [self._jsession_id]: [None] and the empty string are false. *)
Definition token_set (t : option string) : bool :=
  match t with
  | Some s => negb (String.eqb s "")
  | None => false
  end.

(** ['{}'.format(self._jsession_id)]. *)
Definition format_token (t : option string) : string :=
  match t with
  | Some s => s
  | None => "None"
  end.

(** The world once a request has gone out. *)
Definition sent (req : http_request) (w : world) : world :=
  {| client := client w; http_log := http_log w ++ [req];
     clock_reads := clock_reads w |}.

(** The four requests the client sends. *)
Definition session_headers (t : option string) : list (string * string) :=
  [ ("Content-Type", "application/json");
    ("Cookie", "JSESSIONID=" ++ format_token t);
    ("sid", format_token t);
    ("X-Requested-With", "com.sengled.life2") ].

Definition login_request (c : SengledClient) : http_request :=
  {| req_url := "https://ucenter.cloud.sengled.com/user/app/customer/v2/AuthenCross.json";
     req_headers := [ ("Content-Type", "application/json") ];
     req_json := JObj [ ("uuid", JStr (_instance_uuid c));
                        ("user", JStr (_username c));
                        ("pwd", JStr (_password c));
                        ("osType", JStr "android");
                        ("productCode", JStr "life");
                        ("appCode", JStr "life") ] |}.

Definition session_timeout_request (c : SengledClient) : http_request :=
  {| req_url := "https://ucenter.cloud.sengled.com/user/app/customer/isSessionTimeout.json";
     req_headers := session_headers (_jsession_id c);
     req_json := JObj [ ("uuid", JStr (_instance_uuid c));
                        ("os_type", JStr "android");
                        ("appCode", JStr "life") ] |}.

Definition server_info_request (c : SengledClient) : http_request :=
  {| req_url := "https://life2.cloud.sengled.com/life2/server/getServerInfo.json";
     req_headers := session_headers (_jsession_id c);
     req_json := JObj [] |}.

Definition device_list_request (c : SengledClient) : http_request :=
  {| req_url := "https://life2.cloud.sengled.com/life2/device/list.json";
     req_headers := session_headers (_jsession_id c);
     req_json := JObj [] |}.

(** What [_publish_mqtt], and with it [toggle] and [set_brightness], returns:
    [False], or the bound method [is_published] of the message information.
    A bound method is true in a test, and it is not the value [True]. *)
Inductive publish_result : Type :=
| result_False
| result_is_published.

Definition truth (r : publish_result) : bool :=
  match r with
  | result_False => false
  | result_is_published => true
  end.

Section Client.

Variable E : environment.

Definition this : M world SengledClient :=
  fun w => (Return (client w), w).

Definition update (f : SengledClient -> SengledClient) : M world unit :=
  modify (on_client f).

(** [requests.post]: the request goes out, then the answer or the transport
    failure comes back. *)
Definition post (req : http_request) : M world http_response :=
  fun w =>
    match requests_post E (http_log w) req with
    | Some r => (Return r, sent req w)
    | None => (Raise RequestException, sent req w)
    end.

(** [r.json()]. *)
Definition response_json (r : http_response) : M world http_body :=
  match resp_body r with
  | Some data => ret data
  | None => raise ValueError
  end.

(** [int(time.time() * 1000)]. *)
Definition now_ms : M world Z :=
  fun w => (Return (time_ms E (clock_reads w)),
            {| client := client w; http_log := http_log w;
               clock_reads := S (clock_reads w) |}).

(** A call on [self._mqtt_client], recorded on the object. *)
Definition mqtt_do (call : mqtt_call) (m : MqttClient) : MqttClient :=
  {| client_id := client_id m; calls := calls m ++ [call] |}.

Definition _subscribe_mqtt (topic : string) (callback : handler) : M world bool :=
  let* c := this in
  match _mqtt_client c with
  | None => ret false
  | Some m =>
      update (set_mqtt_client (Some (mqtt_do (subscribe topic) m)));;;
      let* rc := lift (mqtt_subscribe_rc E (calls m) topic) in
      if negb (rc =? MQTT_ERR_SUCCESS) then ret false else
      update (fun c => set_subscribed (<[topic := callback]> (_subscribed c)) c);;;
      ret true
  end.

Definition _unsubscribe_mqtt (topic : string) (callback : handler) : M world unit :=
  let* c := this in
  if bool_decide (is_Some (_subscribed c !! topic))
  then update (set_subscribed (delete topic (_subscribed c)))
  else ret tt.

(** [except ValueError] lets every other exception through; after a wait
    that returns, what is returned is [r.is_published] itself. *)
Definition _publish_mqtt (topic payload : string) : M world publish_result :=
  let* c := this in
  match _mqtt_client c with
  | None => ret result_False
  | Some m =>
      update (set_mqtt_client (Some (mqtt_do (publish topic payload) m)));;;
      let* r := lift (mqtt_publish_info E (calls m) topic payload) in
      match wait_for_publish r with
      | Return _ => ret result_is_published
      | Raise ValueError => ret result_False
      | Raise e => raise e
      end
  end.

(** [SengledBulb.__init__]: the fields, then the subscription of the status
    topic, whose result is dropped. *)
Definition new_bulb (info : device_info) : M world SengledBulb :=
  let bulb := {| _uuid := deviceUuid info;
                 _category := info_category info;
                 _type_code := typeCode info;
                 _attributes := attributeList info;
                 _attribute_update_callback := Unset |} in
  _subscribe_mqtt ("wifielement/" ++ uuid bulb ++ "/status")
                  (update_status_of (uuid bulb));;;
  ret bulb.

Definition toggle (bulb : SengledBulb) (on : bool) : M world publish_result :=
  let* t := now_ms in
  let data := JObj [ ("dn", JStr (uuid bulb));
                     ("type", JStr "switch");
                     ("value", JStr (if on then "1" else "0"));
                     ("time", JInt t) ] in
  _publish_mqtt ("wifielement/" ++ uuid bulb ++ "/update") (json_dumps E data).

Definition set_brightness (bulb : SengledBulb) (level : Z) : M world publish_result :=
  let level := Z.max (Z.min level 100) 0 in
  let* t := now_ms in
  let data := JObj [ ("dn", JStr (uuid bulb));
                     ("type", JStr "brightness");
                     ("value", JStr (str_int level));
                     ("time", JInt t) ] in
  _publish_mqtt ("wifielement/" ++ uuid bulb ++ "/update") (json_dumps E data).

Definition _is_session_timeout : M world bool :=
  let* c := this in
  if negb (token_set (_jsession_id c)) then ret true else
  let* r := post (session_timeout_request c) in
  if negb (status_code r =? 200) then ret true else
  let* data := response_json r in
  match body_info data with
  | None => ret true
  | Some info => if negb (String.eqb info "OK") then ret true else ret false
  end.

Definition _get_server_info : M world unit :=
  let* c := this in
  if negb (token_set (_jsession_id c)) then ret tt else
  let* r := post (server_info_request c) in
  if negb (status_code r =? 200) then ret tt else
  let* data := response_json r in
  match body_inceptionAddr data with
  | None => ret tt
  | Some addr =>
      if String.eqb addr "" then ret tt else
      match urlparse E addr with
      | None => raise ValueError
      | Some url =>
          if str_contains ":" (netloc url) then
            update (fun c => set_mqtt_server
                      (set_host (nth 0 (str_split ":" (netloc url)) "")
                                (_mqtt_server c)) c);;;
            let* p := lift (py_int10 (JStr (nth 1 (str_split ":" (netloc url)) ""))) in
            update (fun c => set_mqtt_server (set_port p (_mqtt_server c)) c);;;
            update (fun c => set_mqtt_server (set_path (path url) (_mqtt_server c)) c)
          else
            update (fun c => set_mqtt_server
                      (set_host (netloc url) (_mqtt_server c)) c);;;
            update (fun c => set_mqtt_server (set_port 443 (_mqtt_server c)) c);;;
            update (fun c => set_mqtt_server (set_path (path url) (_mqtt_server c)) c)
      end
  end.

Definition get_devices (force_update : bool) : M world (list SengledBulb) :=
  let* c := this in
  if negb (token_set (_jsession_id c)) then ret (_devices c) else
  if (0 <? List.length (_devices c))%nat && negb force_update then ret (_devices c) else
  let* r := post (device_list_request c) in
  if negb (status_code r =? 200) then ret (_devices c) else
  let* data := response_json r in
  match body_deviceList data with
  | None | Some [] => ret (_devices c)
  | Some deviceList =>
      for_each
        (fun d =>
           let* c := this in
           let found := existsb (fun dev => String.eqb (uuid dev) (deviceUuid d))
                                (_devices c) in
           if negb found then
             let* bulb := new_bulb d in
             update (fun c => set_devices (_devices c ++ [bulb]) c)
           else ret tt)
        deviceList;;;
      let* c := this in
      ret (_devices c)
  end.

(** A call on the MQTT client object of the current state. *)
Definition mqtt (call : mqtt_call) : M world unit :=
  update (fun c => set_mqtt_client (mqtt_do call <$> _mqtt_client c) c).

(** [connect] and [reconnect] raise when the connection cannot be opened; on
    [None] the attribute access raises. *)
Definition mqtt_open (call : mqtt_call) : M world unit :=
  let* c := this in
  match _mqtt_client c with
  | Some m => mqtt call;;; lift (mqtt_connect E (calls m))
  | None => raise AttributeError
  end.

Definition _initialize_mqtt : M world bool :=
  let* c := this in
  if negb (token_set (_jsession_id c)) then ret false else
  update (set_mqtt_client
            (Some {| client_id := format_token (_jsession_id c) ++ "@lifeApp";
                     calls := [] |}));;;
  mqtt tls_set_context;;;
  mqtt (ws_set_options (mqtt_path (_mqtt_server c))
          [ ("Cookie", "JSESSIONID=" ++ format_token (_jsession_id c));
            ("X-Requested-With", "com.sengled.life2") ]);;;
  mqtt set_on_message;;;
  mqtt_open (connect (mqtt_host (_mqtt_server c)) (mqtt_port (_mqtt_server c)) 30);;;
  mqtt loop_start;;;
  ret true.

(** [for topic in self._subscribed]: the body assigns only keys the dictionary
    already has, so the keys visited are those present on entry. *)
Definition resubscribe_all : M world unit :=
  let* c := this in
  for_each
    (fun topic =>
       let* c := this in
       match _subscribed c !! topic with
       | Some callback => _subscribe_mqtt topic callback;;; ret tt
       | None => raise KeyError
       end)
    (map fst (map_to_list (_subscribed c))).

Definition _reinitialize_mqtt : M world bool :=
  let* c := this in
  if bool_decide (_mqtt_client c = None) || negb (token_set (_jsession_id c))
  then ret false else
  mqtt loop_stop;;;
  mqtt disconnect;;;
  mqtt (ws_set_options (mqtt_path (_mqtt_server c))
          [ ("Cookie", "JSESSIONID=" ++ format_token (_jsession_id c)) ]);;;
  mqtt_open reconnect;;;
  mqtt loop_start;;;
  resubscribe_all;;;
  ret true.

(** [login] returns [True], [False] or, through its bare [return], [None]. *)
Definition login : M world (option bool) :=
  let* c := this in
  let* valid :=
    (if token_set (_jsession_id c)
     then let* timeout := _is_session_timeout in ret (negb timeout)
     else ret false) in
  if valid then ret None else
  let* r := post (login_request c) in
  if negb (status_code r =? 200) then ret (Some false) else
  let* data := response_json r in
  match body_jsessionId data with
  | None => ret (Some false)
  | Some jsessionId =>
      if String.eqb jsessionId "" then ret (Some false) else
      update (set_jsession_id (Some jsessionId));;;
      _get_server_info;;;
      let* c := this in
      (match _mqtt_client c with
       | None => _initialize_mqtt
       | Some _ => _reinitialize_mqtt
       end);;;
      get_devices true;;;
      ret (Some true)
  end.

End Client.

(** ** Vocabulary of the statements *)

(** An attribute name is absent from a list when no entry carries it. *)
Definition absent (key : string) (attrs : list attribute) : Prop :=
  Forall (fun attr => attr_name attr <> key) attrs.

(** A bulb as the directory describes it before any status arrives. *)
Definition plain_bulb (attrs : list attribute) : SengledBulb :=
  {| _uuid := "B0CE1814039A";
     _category := "wifielement";
     _type_code := "wifia19-L";
     _attributes := attrs;
     _attribute_update_callback := Unset |}.

(** A status entry addressed to another device. *)
Definition foreign_entry (self : SengledBulb) (members : list (string * json)) : Prop :=
  exists dn, obj_lookup "dn" members = Some dn /\ dn <> JStr (uuid self).

(** A status entry naming an attribute the store does not hold. *)
Definition unknown_attribute (self : SengledBulb) (members : list (string * json)) : Prop :=
  exists ty, obj_lookup "type" members = Some ty /\
             Forall (fun attr => ty <> JStr (attr_name attr)) (_attributes self).


(** A status entry for this bulb: it carries the bulb's identifier in [dn],
    the name of an attribute of the store in [type], and possibly a [value]. *)
Definition addressed_entry (self : SengledBulb) (members : list (string * json))
           (key : string) : Prop :=
  obj_lookup "type" members = Some (JStr key) /\
  obj_lookup "dn" members = Some (JStr (uuid self)) /\
  exists attr, find_attr key (_attributes self) = Some attr.

(** The attribute list after [value] has been stored in its first entry of
    name [key], and a bulb state holding a given attribute list. *)
Fixpoint store_first (key : string) (v : json) (attrs : list attribute)
  : list attribute :=
  match attrs with
  | [] => []
  | attr :: rest =>
      if String.eqb (attr_name attr) key
      then {| attr_name := attr_name attr; attr_value := v |} :: rest
      else attr :: store_first key v rest
  end.

Definition stored (attrs : list attribute) (st : bulb_state) : bulb_state :=
  {| bulb := with_attributes attrs (bulb st); notified := notified st |}.

(** Surroundings for worked examples: a backend that answers every request
    with [answer], a broker that accepts every connection, answers each
    subscription with the code [rc] and delivers what is published, and a
    [json.loads] given by [loads]. *)
Definition example_environment (answer : http_request -> option http_response)
           (rc : string -> Z) (loads : string -> option json) : environment :=
  {| requests_post := fun _ req => answer req;
     mqtt_connect := fun _ => Return tt;
     mqtt_subscribe_rc := fun _ topic => Return (rc topic);
     mqtt_publish_info := fun _ _ _ => Return {| wait_for_publish := Return tt |};
     json_loads := loads;
     json_dumps := fun data =>
       match py_getitem data "value" with
       | Return (JStr v) => v
       | _ => ""
       end;
     urlparse := fun url =>
       match str_split "/" url with
       | _ :: _ :: authority :: rest =>
           Some {| netloc := authority;
                   path := String.concat "" (map (fun part => "/" ++ part) rest) |}
       | _ => Some {| netloc := ""; path := url |}
       end;
     time_ms := fun n => 1541376000000 + Z.of_nat n |}.

(** The bulb of the examples with its switch off, and a status message that
    addresses it without a value. *)
Definition example_bulb : SengledBulb :=
  plain_bulb [ {| attr_name := "brightness"; attr_value := JStr "40" |};
               {| attr_name := "switch"; attr_value := JStr "0" |} ].

Definition quoted (s : string) : string :=
  String "034" (s ++ String "034" EmptyString).

Definition message_without_value : string :=
  "[{" ++ quoted "dn" ++ ": " ++ quoted "B0CE1814039A" ++ ", "
       ++ quoted "type" ++ ": " ++ quoted "switch" ++ "}]".

Definition message_switch_on : string :=
  "[{" ++ quoted "dn" ++ ": " ++ quoted "B0CE1814039A" ++ ", "
       ++ quoted "type" ++ ": " ++ quoted "switch" ++ ", "
       ++ quoted "value" ++ ": " ++ quoted "1" ++ "}]".

Definition message_for_others : string :=
  "[{" ++ quoted "dn" ++ ": " ++ quoted "B0CE18140777" ++ ", "
       ++ quoted "type" ++ ": " ++ quoted "switch" ++ ", "
       ++ quoted "value" ++ ": " ++ quoted "1" ++ "}, {"
       ++ quoted "dn" ++ ": " ++ quoted "B0CE1814039A" ++ ", "
       ++ quoted "type" ++ ": " ++ quoted "colorTemperature" ++ ", "
       ++ quoted "value" ++ ": " ++ quoted "2700" ++ "}]".

(** [json.loads] on the messages of the examples. *)
Definition example_loads (message : string) : option json :=
  if String.eqb message message_for_others then
    Some (JArr [ JObj [ ("dn", JStr "B0CE18140777"); ("type", JStr "switch");
                        ("value", JStr "1") ];
                 JObj [ ("dn", JStr "B0CE1814039A"); ("type", JStr "colorTemperature");
                        ("value", JStr "2700") ] ])
  else if String.eqb message message_without_value then
    Some (JArr [ JObj [ ("dn", JStr "B0CE1814039A"); ("type", JStr "switch") ] ])
  else if String.eqb message message_switch_on then
    Some (JArr [ JObj [ ("dn", JStr "B0CE1814039A"); ("type", JStr "switch");
                        ("value", JStr "1") ] ])
  else if String.eqb message "5" then Some (JInt 5)
  else None.

(** [c] is [x] clamped to the interval from [lo] to [hi]. *)
Definition clamped_to (lo hi x c : Z) : Prop :=
  (x < lo -> c = lo) /\ (hi < x -> c = hi) /\ (lo <= x <= hi -> c = x).

(** A client as [__init__] leaves it, once a session and an MQTT client
    object exist. *)
Definition connected_client (registry : gmap string handler) : SengledClient :=
  {| _instance_uuid := "5f0c1b7e3a9d4c26";
     _username := "user@example.org";
     _password := "secret";
     _jsession_id := Some "0123456789ABCDEF";
     _mqtt_server := {| mqtt_host := "us-mqtt.cloud.sengled.com";
                        mqtt_port := 443;
                        mqtt_path := "/mqtt" |};
     _mqtt_client := Some {| client_id := "0123456789ABCDEF@lifeApp"; calls := [] |};
     _devices := [];
     _subscribed := registry |}.

Definition world_of (c : SengledClient) : world :=
  {| client := c; http_log := []; clock_reads := 0 |}.

(** The calls [_reinitialize_mqtt] makes on the MQTT client before it walks
    through the registry. *)
Definition reconnect_calls (c : SengledClient) : list mqtt_call :=
  [ loop_stop; disconnect;
    ws_set_options (mqtt_path (_mqtt_server c))
                   [ ("Cookie", "JSESSIONID=" ++ format_token (_jsession_id c)) ];
    reconnect; loop_start ].

(** The library takes every topic of the registry of [w] as a filter:
    whatever was called before, [subscribe] hands back a result code for it
    and does not raise.  Only topics for which [subscribe] returned are ever
    recorded in the registry. *)
Definition accepts_registry (E : environment) (w : world) : Prop :=
  forall l topic,
    is_Some (_subscribed (client w) !! topic) ->
    exists rc, mqtt_subscribe_rc E l topic = Return rc.

(** How many times a topic was subscribed in a list of calls. *)
Definition is_subscribe (topic : string) (call : mqtt_call) : bool :=
  match call with
  | subscribe t => String.eqb t topic
  | _ => false
  end.

Definition subscriptions_of (topic : string) (l : list mqtt_call) : nat :=
  List.length (List.filter (is_subscribe topic) l).

(** [n] reconnections in a row. *)
Fixpoint reconnect_times (E : environment) (n : nat) : M world unit :=
  match n with
  | O => ret tt
  | S n' => _reinitialize_mqtt E;;; reconnect_times E n'
  end.

(** The world [w] after the calls [l] have been made on its MQTT client [m]. *)
Definition with_calls (l : list mqtt_call) (m : MqttClient) (w : world) : world :=
  on_client (set_mqtt_client
               (Some {| client_id := client_id m; calls := calls m ++ l |})) w.

(** A registry with the status topics of two bulbs. *)
Definition example_registry : gmap string handler :=
  <["wifielement/B0CE1814039A/status" := update_status_of "B0CE1814039A"]>
    (<["wifielement/B0CE18140777/status" := update_status_of "B0CE18140777"]> ∅).

(** A response on which endpoint resolution fails: a status other than 200, or
    a body in which [inceptionAddr] is missing or empty. *)
Definition resolution_fails (r : http_response) : Prop :=
  status_code r <> 200 \/
  exists data, resp_body r = Some data /\
               (body_inceptionAddr data = None \/ body_inceptionAddr data = Some "").

(** Answers of the backend in the examples. *)
Definition no_body : http_body :=
  {| body_info := None; body_jsessionId := None;
     body_inceptionAddr := None; body_deviceList := None |}.

Definition answer_address (addr : string) : http_response :=
  {| status_code := 200;
     resp_body := Some {| body_info := None; body_jsessionId := None;
                          body_inceptionAddr := Some addr;
                          body_deviceList := None |} |}.

Definition answer_error : http_response :=
  {| status_code := 500; resp_body := None |}.

(** The world after a sequence of calls of [get_devices], one per flag
    [force_update], whatever each call returned or raised. *)
Definition refresh_all (E : environment) (flags : list bool) (w : world) : world :=
  fold_left (fun w force_update => snd (get_devices E force_update w)) flags w.

(** The identifiers of the cached bulbs, in order. *)
Definition cached_ids (w : world) : list string :=
  map uuid (_devices (client w)).

(** The directory cache of [w'] holds one bulb per identifier and extends the
    cache of [w]. *)
Definition directory_grows (w w' : world) : Prop :=
  NoDup (cached_ids w') /\
  exists added, _devices (client w') = (_devices (client w) ++ added)%list.

(** A directory answer that lists the same device twice. *)
Definition example_device : device_info :=
  {| deviceUuid := "B0CE1814039A";
     info_category := "wifielement";
     typeCode := "wifia19-L";
     attributeList := [ {| attr_name := "brightness"; attr_value := JStr "40" |};
                        {| attr_name := "switch"; attr_value := JStr "0" |} ] |}.

Definition answer_devices (l : list device_info) : http_response :=
  {| status_code := 200;
     resp_body := Some {| body_info := None; body_jsessionId := None;
                          body_inceptionAddr := None;
                          body_deviceList := Some l |} |}.

(** An answer of the session probe that reports the session still valid. *)
Definition session_valid (r : http_response) : Prop :=
  status_code r = 200 /\
  exists data, resp_body r = Some data /\ body_info data = Some "OK".

Definition answer_valid : http_response :=
  {| status_code := 200;
     resp_body := Some {| body_info := Some "OK"; body_jsessionId := None;
                          body_inceptionAddr := None; body_deviceList := None |} |}.

(** A backend that answers each of the four endpoints in the expected way. *)
Definition example_backend (req : http_request) : option http_response :=
  if str_contains "AuthenCross" (req_url req) then
    Some {| status_code := 200;
            resp_body := Some {| body_info := None;
                                 body_jsessionId := Some "0123456789ABCDEF";
                                 body_inceptionAddr := None;
                                 body_deviceList := None |} |}
  else if str_contains "getServerInfo" (req_url req) then
    Some (answer_address "wss://eu-mqtt.cloud.sengled.com:8883/mqtt")
  else if str_contains "device/list" (req_url req) then
    Some (answer_devices [example_device; example_device])
  else if str_contains "isSessionTimeout" (req_url req) then
    Some answer_valid
  else None.

(** Unfolding of the monad's operations. *)
Ltac run := unfold bind, lift, ret, raise, get, modify; simpl.

(** ** Vocabulary of the further statements *)

(** What the status entry [status] may have done to a bulb: nothing; stored
    its [value] under the attribute its [type] names; or stored it and called
    the observer once with the translated name and a value [pv]. *)
Inductive entry_effect (status : json) (st : bulb_state) : bulb_state -> Prop :=
| effect_none : entry_effect status st st
| effect_stored (key : string) (v : json) :
    py_getitem status "type" = Return (JStr key) ->
    py_getitem status "value" = Return v ->
    find_attr key (_attributes (bulb st)) <> None ->
    entry_effect status st (stored (store_first key v (_attributes (bulb st))) st)
| effect_notified (key : string) (v : json) (pv : pyvalue) :
    py_getitem status "type" = Return (JStr key) ->
    py_getitem status "value" = Return v ->
    find_attr key (_attributes (bulb st)) <> None ->
    _attribute_update_callback (bulb st) = SetTo true ->
    entry_effect status st
      (notify (_attribute_to_property key) pv
              (stored (store_first key v (_attributes (bulb st))) st)).

(** What a bulb keeps through any message: its identity, its observer, and
    the names and order of its attributes. *)
Definition same_shape (self self' : SengledBulb) : Prop :=
  _uuid self' = _uuid self /\
  _category self' = _category self /\
  _type_code self' = _type_code self /\
  _attribute_update_callback self' = _attribute_update_callback self /\
  map attr_name (_attributes self') = map attr_name (_attributes self).


(** The calls the observer received between two states. *)
Definition new_calls (st st' : bulb_state) (calls : list (string * pyvalue)) : Prop :=
  notified st' = (notified st ++ calls)%list.

(** No entry of the message names the attribute [other] in its [type]. *)
Definition not_named_by (E : environment) (message : string) (other : string) : Prop :=
  forall data entries,
    json_loads E message = Some data ->
    py_iter data = Return entries ->
    Forall (fun entry => py_getitem entry "type" <> Return (JStr other)) entries.

(** The outcome of the handler on an entry once it has stored the value, for a
    bulb whose observer is a callable: [st1] is the state after the store and
    [prop] the translated attribute name. *)
Definition observed (prop : string) (st1 : bulb_state) : outcome unit * bulb_state :=
  match py_getattr (bulb st1) prop with
  | Return pv => (Return tt, notify prop pv st1)
  | Raise AttributeError => (Return tt, st1)
  | Raise e => (Raise e, st1)
  end.

(** The server names whose translation is a property that reads a different
    attribute name: the translated property looks for the snake-case name in
    the store, where the entry was stored under the server's name. *)
Definition renamed_attributes : list (string * string) :=
  [ ("productCode", "product_code");
    ("saveFlag", "save_flag");
    ("startTime", "start_time");
    ("supportAttributes", "support_attributes");
    ("timeZone", "time_zone");
    ("typeCode", "type_code") ].

(** Entries of the examples, addressed to the bulb of the examples. *)
Definition entry_for (key : string) (v : json) : list (string * json) :=
  [ ("dn", JStr "B0CE1814039A"); ("type", JStr key); ("value", v) ].

Definition observed_bulb (attrs : list attribute) : bulb_state :=
  {| bulb := set_attribute_update_callback true (plain_bulb attrs); notified := [] |}.

(** The two topics of a device. *)
Definition status_topic (id : string) : string := "wifielement/" ++ id ++ "/status".
Definition update_topic (id : string) : string := "wifielement/" ++ id ++ "/update".

(** The world once the clock has been read. *)
Definition ticked (w : world) : world :=
  {| client := client w; http_log := http_log w; clock_reads := S (clock_reads w) |}.

(** How [_publish_mqtt] ends once [publish] has answered with [r]. *)
Definition publish_outcome (r : outcome message_info) : outcome publish_result :=
  match r with
  | Return info =>
      match wait_for_publish info with
      | Return _ => Return result_is_published
      | Raise ValueError => Return result_False
      | Raise e => Raise e
      end
  | Raise e => Raise e
  end.

(** A client that never connected. *)
Definition offline_client : SengledClient :=
  new_client "5f0c1b7e3a9d4c26" "user@example.org" "secret".

(** The surroundings of the examples with an MQTT library that answers a
    subscription of [topic] with [subscribed topic] and a publication on
    [topic] with [published topic]. *)
Definition broker_environment (subscribed : string -> outcome Z)
           (published : string -> outcome message_info)
           (answer : http_request -> option http_response) : environment :=
  let E := example_environment answer (fun _ => 0) example_loads in
  {| requests_post := requests_post E;
     mqtt_connect := mqtt_connect E;
     mqtt_subscribe_rc := fun _ topic => subscribed topic;
     mqtt_publish_info := fun _ topic _ => published topic;
     json_loads := json_loads E;
     json_dumps := json_dumps E;
     urlparse := urlparse E;
     time_ms := time_ms E |}.

(** A library that refuses every topic filter with a [#] inside a level. *)
Definition refuses_wildcards (topic : string) : outcome Z :=
  if str_contains "#" topic then Raise ValueError else Return MQTT_ERR_SUCCESS.

(** A device whose identifier makes an ill-formed topic filter. *)
Definition wildcard_device : device_info :=
  {| deviceUuid := "LAMP#1";
     info_category := "wifielement";
     typeCode := "wifia19-L";
     attributeList := [] |}.

(** What every operation of the client except [login] and [_initialize_mqtt]
    keeps, whether it returns or raises: the credentials and the instance
    identifier, the session token, the MQTT client object (none is created,
    an existing one keeps its identifier and only receives further calls), the
    bulbs already cached, and the requests already sent. *)
Definition steady (w w' : world) : Prop :=
  _instance_uuid (client w') = _instance_uuid (client w) /\
  _username (client w') = _username (client w) /\
  _password (client w') = _password (client w) /\
  _jsession_id (client w') = _jsession_id (client w) /\
  (_mqtt_client (client w) = None -> _mqtt_client (client w') = None) /\
  (forall m, _mqtt_client (client w) = Some m ->
     exists l, _mqtt_client (client w') =
               Some {| client_id := client_id m; calls := (calls m ++ l)%list |}) /\
  (exists added, _devices (client w') = (_devices (client w) ++ added)%list) /\
  (exists reqs, http_log w' = (http_log w ++ reqs)%list).

(** A computation related to its final state by [R] from every initial
    state. *)
Definition preserves {A} (R : world -> world -> Prop) (m : M world A) : Prop :=
  forall w, R w (snd (m w)).

(** The calls [_initialize_mqtt] makes on the new MQTT client up to and
    including [connect]. *)
Definition connect_calls (c : SengledClient) : list mqtt_call :=
  [ tls_set_context;
    ws_set_options (mqtt_path (_mqtt_server c))
                   [ ("Cookie", "JSESSIONID=" ++ format_token (_jsession_id c));
                     ("X-Requested-With", "com.sengled.life2") ];
    set_on_message;
    connect (mqtt_host (_mqtt_server c)) (mqtt_port (_mqtt_server c)) 30 ].

(** [steady] without the session token and without the clause that no MQTT
    client is created: what [login] keeps. *)
Definition grows (w w' : world) : Prop :=
  _instance_uuid (client w') = _instance_uuid (client w) /\
  _username (client w') = _username (client w) /\
  _password (client w') = _password (client w) /\
  (forall m, _mqtt_client (client w) = Some m ->
     exists l, _mqtt_client (client w') =
               Some {| client_id := client_id m; calls := (calls m ++ l)%list |}) /\
  (exists added, _devices (client w') = (_devices (client w) ++ added)%list) /\
  (exists reqs, http_log w' = (http_log w ++ reqs)%list).

(** The rest of [login] once the new token is stored. *)
Definition after_authentication (E : environment) : M world (option bool) :=
  _get_server_info E;;;
  let* c := this in
  (match _mqtt_client c with
   | None => _initialize_mqtt E
   | Some _ => _reinitialize_mqtt E
   end);;;
  get_devices E true;;;
  ret (Some true).

(** An answer of the authentication endpoint that does not log in: a status
    other than 200, or a body without a non-empty [jsessionId]. *)
Definition authentication_fails (r : http_response) : Prop :=
  status_code r <> 200 \/
  exists data, resp_body r = Some data /\
               (body_jsessionId data = None \/ body_jsessionId data = Some "").

(** An answer of the session probe that reports the session timed out: a
    status other than 200, or a body whose [info] is not ["OK"]. *)
Definition session_expired (r : http_response) : Prop :=
  status_code r <> 200 \/
  exists data, resp_body r = Some data /\ body_info data <> Some "OK".

(** [login] from the authentication request on, for the client [c] read at
    the start of the call. *)
Definition authenticate (E : environment) (c : SengledClient) : M world (option bool) :=
  let* r := post E (login_request c) in
  if negb (status_code r =? 200) then ret (Some false) else
  let* data := response_json r in
  match body_jsessionId data with
  | None => ret (Some false)
  | Some jsessionId =>
      if String.eqb jsessionId "" then ret (Some false) else
      update (set_jsession_id (Some jsessionId));;;
      after_authentication E
  end.

(** [login] has to authenticate from the world [w0]: either [w] has no token
    and [w0] is [w], or the probe was sent from [w], reported the session
    timed out, and [w0] is the world after it. *)
Definition needs_authentication (E : environment) (w w0 : world) : Prop :=
  (token_set (_jsession_id (client w)) = false /\ w0 = w) \/
  (token_set (_jsession_id (client w)) = true /\
   w0 = sent (session_timeout_request (client w)) w /\
   exists r, requests_post E (http_log w) (session_timeout_request (client w)) = Some r /\
             session_expired r).

(** The world keeps its client and only sends requests. *)
Definition only_requests (w w' : world) : Prop :=
  client w' = client w /\ exists reqs, http_log w' = (http_log w ++ reqs)%list.

(** The surroundings of the examples with a broker that refuses every
    connection. *)
Definition refusing_environment (answer : http_request -> option http_response)
  : environment :=
  let E := example_environment answer (fun _ => 0) example_loads in
  {| requests_post := requests_post E;
     mqtt_connect := fun _ => Raise OSError;
     mqtt_subscribe_rc := mqtt_subscribe_rc E;
     mqtt_publish_info := mqtt_publish_info E;
     json_loads := json_loads E;
     json_dumps := json_dumps E;
     urlparse := urlparse E;
     time_ms := time_ms E |}.

(** The bulb [SengledBulb.__init__] builds from a directory entry. *)
Definition bulb_of (info : device_info) : SengledBulb :=
  {| _uuid := deviceUuid info;
     _category := info_category info;
     _type_code := typeCode info;
     _attributes := attributeList info;
     _attribute_update_callback := Unset |}.

(** The entries of a directory answer that lead to a new bulb, given the
    identifiers already cached: the first entry of each identifier that is
    not cached yet. *)
Fixpoint fresh_entries (known : list string) (l : list device_info)
  : list device_info :=
  match l with
  | [] => []
  | d :: l' =>
      if existsb (String.eqb (deviceUuid d)) known
      then fresh_entries known l'
      else d :: fresh_entries (known ++ [deviceUuid d])%list l'
  end.

(** The library takes the status topic of every device of [l] as a filter:
    whatever was called before, [subscribe] hands back a result code for it
    and does not raise. *)
Definition takes_status_topics (E : environment) (l : list device_info) : Prop :=
  forall calls d,
    d ∈ l ->
    exists rc, mqtt_subscribe_rc E calls (status_topic (deviceUuid d)) = Return rc.

(** A directory answer on which [get_devices] keeps the cache: a status other
    than 200, or a body whose [deviceList] is missing or empty. *)
Definition directory_fails (r : http_response) : Prop :=
  status_code r <> 200 \/
  exists data, resp_body r = Some data /\
               (body_deviceList data = None \/ body_deviceList data = Some []).

(** The registry after the status handlers of the bulbs of [l] have been
    recorded, in order. *)
Definition registered (l : list device_info) (R : gmap string handler)
  : gmap string handler :=
  fold_left (fun R d => <[status_topic (deviceUuid d) := update_status_of (deviceUuid d)]> R)
            l R.

(** ** The adapter layer: [sengled_device.py], [sengled_property.py] and
    [sengled_adapter.py]

    The classes of this layer extend [Device], [Property] and [Adapter] of the
    gateway framework.  What they ask of the framework is recorded as a list
    of calls; of the framework's own state only the adapter's dictionary
    [devices] is kept, which [handle_device_added] fills under the device's
    identifier. *)

Inductive gateway_call : Type :=
| set_cached_value (device property : string) (value : pyvalue)
| notify_property_changed (device property : string)
| handle_device_added (device : string).

(** A [SengledDevice]: its identifier, name and description, and the bulb it
    wraps, which is the bulb at position [sengled_dev] of the client's cache
    (bulbs are only ever appended to the cache, so the position names the
    object). *)
Record SengledDevice : Type := {
  device_id : string;
  device_name : json;
  description : json;
  sengled_dev : nat;
}.

Record SengledAdapter : Type := {
  adapter_client : option world;
  pairing : bool;
  devices : gmap string SengledDevice;
  gateway_log : list gateway_call;
}.

Definition set_adapter_client (w : option world) (a : SengledAdapter) : SengledAdapter :=
  {| adapter_client := w; pairing := pairing a; devices := devices a;
     gateway_log := gateway_log a |}.

Definition set_pairing (b : bool) (a : SengledAdapter) : SengledAdapter :=
  {| adapter_client := adapter_client a; pairing := b; devices := devices a;
     gateway_log := gateway_log a |}.

Definition add_device (device : SengledDevice) (a : SengledAdapter) : SengledAdapter :=
  {| adapter_client := adapter_client a; pairing := pairing a;
     devices := <[device_id device := device]> (devices a);
     gateway_log := gateway_log a |}.

Definition log_gateway (calls : list gateway_call) (a : SengledAdapter) : SengledAdapter :=
  {| adapter_client := adapter_client a; pairing := pairing a; devices := devices a;
     gateway_log := (gateway_log a ++ calls)%list |}.

(** Truth value of a JSON value; [nonzero] tells whether the literal of a
    float denotes a number other than zero. *)
Definition py_truthy (nonzero : string -> bool) (x : json) : bool :=
  match x with
  | JNull => false
  | JBool b => b
  | JInt z => negb (z =? 0)
  | JFloat literal => nonzero literal
  | JStr s => negb (String.eqb s "")
  | JArr items => match items with [] => false | _ => true end
  | JObj members => match members with [] => false | _ => true end
  end.

(** [SengledDevice.update_property], the observer a device registers on its
    bulb: the gateway calls it makes for one notification. *)
Definition update_property (device : string) (name : string) (value : pyvalue)
  : list gateway_call :=
  if String.eqb name "switch" then
    [ set_cached_value device "on" value; notify_property_changed device "on" ]
  else if String.eqb name "brightness" then
    [ set_cached_value device "level" value; notify_property_changed device "level" ]
  else [].

(** A value the gateway writes to a property: a boolean for the property
    [on], declared of type boolean, an integer for [level], declared of type
    integer; [write_other] stands for a property of any other name. *)
Inductive property_write : Type :=
| write_on (value : bool)
| write_level (value : Z)
| write_other (name : string) (value : pyvalue).

Section Adapter.

Variable E : environment.
Variable nonzero : string -> bool.

(** A client operation run on [self.client]; on [None] the attribute access
    raises. *)
Definition on_adapter_client {A} (m : M world A) : M SengledAdapter A :=
  fun a =>
    match adapter_client a with
    | Some w => let (o, w') := m w in (o, set_adapter_client (Some w') a)
    | None => (Raise AttributeError, a)
    end.

(** The bulb at a position of the client's cache. *)
Definition bulb_at (i : nat) : M world SengledBulb :=
  let* c := this in
  match _devices c !! i with
  | Some dev => ret dev
  | None => raise RuntimeError
  end.

(** [sengled_dev.set_attribute_update_callback(self.update_property)] on the
    bulb at position [i]. *)
Definition register_observer (i : nat) : M world unit :=
  update (fun c => set_devices
            (alter (set_attribute_update_callback true) i (_devices c)) c).

(** [SengledProperty.set_value] of the property of a device. *)
Definition set_value_of (device : SengledDevice) (write : property_write)
  : M SengledAdapter unit :=
  match write with
  | write_on value =>
      let* dev := on_adapter_client (bulb_at (sengled_dev device)) in
      let* success := on_adapter_client (toggle E dev value) in
      if truth success then
        modify (log_gateway [ set_cached_value (device_id device) "on" (PyBool value);
                              notify_property_changed (device_id device) "on" ])
      else ret tt
  | write_level value =>
      let* dev := on_adapter_client (bulb_at (sengled_dev device)) in
      let* success := on_adapter_client (set_brightness E dev value) in
      if truth success then
        modify (log_gateway [ set_cached_value (device_id device) "level" (PyInt value);
                              notify_property_changed (device_id device) "level" ])
      else ret tt
  | write_other _ _ => ret tt
  end.

(** [SengledDevice.__init__] for the bulb at position [i]. *)
Definition new_device (_id : string) (i : nat) : M SengledAdapter SengledDevice :=
  let* dev := on_adapter_client (bulb_at i) in
  let name0 := name dev in
  let description := type_code dev in
  let name := if negb (py_truthy nonzero name0) then description else name0 in
  modify (log_gateway [ set_cached_value _id "on" (PyBool (switch dev)) ]);;;
  let* level := lift (brightness dev) in
  modify (log_gateway [ set_cached_value _id "level" (PyInt level) ]);;;
  on_adapter_client (register_observer i);;;
  ret {| device_id := _id; device_name := name; description := description;
         sengled_dev := i |}.

(** The loop [for dev in devices] of [start_pairing], over the positions of
    the list returned by [get_devices]; [break] ends it. *)
Fixpoint pair_devices (positions : list nat) : M SengledAdapter unit :=
  match positions with
  | [] => ret tt
  | i :: rest =>
      let* a := get in
      if negb (pairing a) then ret tt else
      let* dev := on_adapter_client (bulb_at i) in
      let _id := "sengled-" ++ uuid dev in
      (if negb (bool_decide (is_Some (devices a !! _id))) then
         let* device := new_device _id i in
         modify (add_device device);;;
         modify (log_gateway [ handle_device_added _id ])
       else ret tt);;;
      pair_devices rest
  end.

Definition start_pairing (timeout : Z) : M SengledAdapter unit :=
  let* a := get in
  if bool_decide (adapter_client a = None) || pairing a then ret tt else
  modify (set_pairing true);;;
  on_adapter_client (login E);;;
  let* devs := on_adapter_client (get_devices E true) in
  pair_devices (seq 0 (List.length devs));;;
  modify (set_pairing false).

Definition cancel_pairing : M SengledAdapter unit :=
  modify (set_pairing false).

End Adapter.

(** The gateway calls by which a [SengledProperty] takes a written value. *)
Definition cached (device property : string) (value : pyvalue) : list gateway_call :=
  [ set_cached_value device property value; notify_property_changed device property ].

(** How a write of a property ends once [publish] has answered with
    [answer]: [taken] is the adapter after the gateway has taken the value,
    [left] the adapter with nothing but the command sent. *)
Definition write_result (answer : outcome message_info)
           (taken left : SengledAdapter) : outcome unit * SengledAdapter :=
  match answer with
  | Return info =>
      match wait_for_publish info with
      | Return _ => (Return tt, taken)
      | Raise ValueError => (Return tt, left)
      | Raise e => (Raise e, left)
      end
  | Raise e => (Raise e, left)
  end.

(** An adapter for the examples: the given world, not pairing, no device. *)
Definition adapter_of (w : world) : SengledAdapter :=
  {| adapter_client := Some w; pairing := false; devices := ∅; gateway_log := [] |}.

(** The adapter of the examples: connected, with the bulb of the examples in
    the cache, and the device that wraps it. *)
Definition example_adapter : SengledAdapter :=
  adapter_of (on_client (set_devices [example_bulb]) (world_of (connected_client ∅))).

Definition example_wrapper : SengledDevice :=
  {| device_id := "sengled-B0CE1814039A";
     device_name := JStr "wifia19-L";
     description := JStr "wifia19-L";
     sengled_dev := 0 |}.

(** A computation of the adapter that leaves the flag [pairing] alone. *)
Definition keeps_pairing {A} (m : M SengledAdapter A) : Prop :=
  forall a, pairing (snd (m a)) = pairing a.

(** The world after the observer of a device has been registered on the bulb
    at position [i]. *)
Definition observed_at (i : nat) (w : world) : world :=
  on_client (fun c => set_devices
               (alter (set_attribute_update_callback true) i (_devices c)) c) w.

(** The device [SengledDevice.__init__] builds for the bulb [dev] at position
    [i]: its name is the bulb's name, or the type code when the name is
    false. *)
Definition device_for (nonzero : string -> bool) (_id : string) (i : nat)
           (dev : SengledBulb) : SengledDevice :=
  {| device_id := _id;
     device_name := if py_truthy nonzero (name dev) then name dev else type_code dev;
     description := type_code dev;
     sengled_dev := i |}.

(** The cache [l'] is the cache [l] in which some bulbs have had an observer
    registered and nothing else has changed. *)
Definition observers_added (l l' : list SengledBulb) : Prop :=
  Forall2 (fun dev dev' =>
             dev' = dev \/ dev' = set_attribute_update_callback true dev) l l'.

(** The gateway calls a device makes for the calls the observer of its bulb
    received: the observer is the device's [update_property]. *)
Definition gateway_reaction (device : string) (calls : list (string * pyvalue))
  : list gateway_call :=
  flat_map (fun c => update_property device (fst c) (snd c)) calls.

(** The entry names the attribute [key] in its [type]. *)
Definition names_attribute (key : string) (entry : json) : Prop :=
  py_getitem entry "type" = Return (JStr key).

(** A gateway call about the property [property] of [device]. *)
Definition concerns (device property : string) (g : gateway_call) : Prop :=
  (exists value, g = set_cached_value device property value) \/
  g = notify_property_changed device property.

(** * Properties *)

Local Open Scope list_scope.

(** ** Small facts about the Python operations *)

Lemma json_eq_str_true (x : json) (s : string) :
  json_eq_str x s = true <-> x = JStr s.
Proof.
  destruct x; simpl; try (split; [discriminate | intros H; discriminate H]).
  rewrite String.eqb_eq. split; [intros -> | intros [= ->]]; reflexivity.
Qed.

Lemma json_eq_str_false (x : json) (s : string) :
  json_eq_str x s = false <-> x <> JStr s.
Proof.
  rewrite <- json_eq_str_true. destruct (json_eq_str x s); split; congruence.
Qed.

Lemma py_in_obj (key : string) (members : list (string * json)) :
  py_in key (JObj members) =
  Return (match obj_lookup key members with Some _ => true | None => false end).
Proof. simpl. destruct (obj_lookup key members); reflexivity. Qed.

Lemma find_attr_absent (key : string) (attrs : list attribute) :
  absent key attrs <-> find_attr key attrs = None.
Proof.
  unfold absent. induction attrs as [|attr attrs IH]; simpl.
  - split; [reflexivity | constructor].
  - destruct (String.eqb_spec (attr_name attr) key) as [Heq | Hne].
    + split; [ | discriminate]. intros H. inversion H; subst. contradiction.
    + rewrite <- IH. split.
      * intros H. inversion H; assumption.
      * intros H. constructor; assumption.
Qed.

(** ** The typed accessors (C4) *)

Section Accessors.

Variable self : SengledBulb.

Lemma int_attr_default (key : string) :
  absent key (_attributes self) -> int_attr key self = Return 0.
Proof.
  intros H. apply find_attr_absent in H. unfold int_attr.
  rewrite H. reflexivity.
Qed.

Lemma bool_attr_default (key : string) :
  absent key (_attributes self) -> bool_attr key self = false.
Proof.
  intros H. apply find_attr_absent in H. unfold bool_attr.
  rewrite H. reflexivity.
Qed.

Lemma str_attr_default (key default : string) :
  absent key (_attributes self) -> str_attr key default self = JStr default.
Proof.
  intros H. apply find_attr_absent in H. unfold str_attr.
  rewrite H. reflexivity.
Qed.

(** A boolean accessor answers [True] exactly when the first entry of its
    name holds the string ["1"]. *)
Lemma bool_attr_true (key : string) :
  bool_attr key self = true <->
  exists attr, find_attr key (_attributes self) = Some attr /\
               attr_value attr = JStr "1".
Proof.
  unfold bool_attr. destruct (find_attr key (_attributes self)) as [attr|].
  - rewrite json_eq_str_true. split.
    + intros H. exists attr. split; [reflexivity | assumption].
    + intros (a & [= <-] & H). assumption.
  - split; [discriminate | intros (a & H & _); discriminate H].
Qed.

End Accessors.

(** C4, counterexample to the claim as stated: with no ["type_code"] entry in
    the attribute list, the string accessor [type_code] does not return the
    empty string; it falls back to the type code of the device record. *)
Lemma type_code_default_is_not_empty :
  absent "type_code" (_attributes (plain_bulb [])) /\
  type_code (plain_bulb []) = JStr "wifia19-L" /\
  type_code (plain_bulb []) <> JStr "".
Proof.
  split; [constructor | split; [reflexivity | discriminate]].
Qed.

(** C4, amended: when the attribute an accessor looks for is absent from the
    attribute list, the integer accessors return 0, the boolean accessors
    return false, the string accessors other than [type_code] return the empty
    string, and [type_code] returns the type code of the device record; no
    accessor fails.  A boolean accessor returns true exactly when the stored
    value is the string ["1"]. *)
Theorem accessor_defaults (self : SengledBulb) :
  let attrs := _attributes self in
  (absent "brightness" attrs -> brightness self = Return 0) /\
  (absent "consumptionTime" attrs -> consumption_time self = Return 0) /\
  (absent "deviceRssi" attrs -> rssi self = Return 0) /\
  (absent "online" attrs -> online self = false) /\
  (absent "save_flag" attrs -> save_flag self = false) /\
  (absent "switch" attrs -> switch self = false) /\
  (absent "identifyNO" attrs -> identify_no self = JStr "") /\
  (absent "ip" attrs -> ip self = JStr "") /\
  (absent "name" attrs -> name self = JStr "") /\
  (absent "product_code" attrs -> product_code self = JStr "") /\
  (absent "start_time" attrs -> start_time self = JStr "") /\
  (absent "support_attributes" attrs -> support_attributes self = JStr "") /\
  (absent "time_zone" attrs -> time_zone self = JStr "") /\
  (absent "version" attrs -> version self = JStr "") /\
  (absent "type_code" attrs -> type_code self = JStr (_type_code self)) /\
  (forall stored, find_attr "online" attrs = Some stored ->
     (online self = true <-> attr_value stored = JStr "1")) /\
  (forall stored, find_attr "save_flag" attrs = Some stored ->
     (save_flag self = true <-> attr_value stored = JStr "1")) /\
  (forall stored, find_attr "switch" attrs = Some stored ->
     (switch self = true <-> attr_value stored = JStr "1")).
Proof.
  intros attrs.
  repeat match goal with
         | |- _ /\ _ => split
         | |- absent _ _ -> _ = Return _ => apply int_attr_default
         | |- absent _ _ -> _ = false => apply bool_attr_default
         | |- absent _ _ -> _ = JStr _ => apply str_attr_default
         end;
    intros stored Hfind;
    match goal with
    | |- ?acc self = true <-> _ => unfold acc
    end;
    rewrite bool_attr_true; fold attrs in Hfind |- *; rewrite Hfind;
    (split; [intros (a & [= <-] & H); exact H | intros H; eauto]).
Qed.

Lemma accessor_defaults_witness :
  let self := plain_bulb [ {| attr_name := "switch"; attr_value := JStr "1" |} ] in
  brightness self = Return 0 /\ online self = false /\ name self = JStr "" /\
  type_code self = JStr "wifia19-L" /\ switch self = true.
Proof.
  intros self.
  destruct (accessor_defaults self)
    as (Hb & _ & _ & Ho & _ & _ & _ & _ & Hn & _ & _ & _ & _ & _ & Ht & _ & _ & Hs).
  split; [apply Hb; repeat constructor; discriminate|].
  split; [apply Ho; repeat constructor; discriminate|].
  split; [apply Hn; repeat constructor; discriminate|].
  split; [apply Ht; repeat constructor; discriminate|].
  apply (Hs {| attr_name := "switch"; attr_value := JStr "1" |}); reflexivity.
Defined.

(** ** The inbound status handler (C2, C5, C9) *)

Lemma update_attr_no_match (members : list (string * json)) (ty : json)
      (rest : list attribute) (i : nat) (st : bulb_state) :
  obj_lookup "type" members = Some ty ->
  Forall (fun attr => ty <> JStr (attr_name attr)) rest ->
  update_attr (JObj members) i rest st = (Return tt, st).
Proof.
  intros Hty. revert i.
  induction rest as [|attr rest IH]; intros i Hall; simpl; [reflexivity|].
  inversion Hall as [|? ? Hne Hrest]; subst.
  apply json_eq_str_false in Hne.
  run. rewrite Hty, Hne. apply IH. assumption.
Qed.

Lemma update_entry_ignored (st : bulb_state) (members : list (string * json)) :
  foreign_entry (bulb st) members \/ unknown_attribute (bulb st) members ->
  update_entry (JObj members) st = (Return tt, st).
Proof.
  intros H. unfold update_entry. rewrite !py_in_obj. run.
  destruct (obj_lookup "type" members) as [ty|] eqn:Hty; simpl; [|reflexivity].
  destruct (obj_lookup "dn" members) as [dn|] eqn:Hdn; simpl; [|reflexivity].
  destruct (json_eq_str dn (uuid (bulb st))) eqn:Heq; simpl; [|reflexivity].
  destruct H as [(dn' & Hdn' & Hne) | (ty' & Hty' & Hall)].
  - apply json_eq_str_false in Hne. congruence.
  - rewrite Hty in Hty'. injection Hty' as <-.
    eapply update_attr_no_match; eauto.
Qed.

Lemma for_each_skip {S A} (body : A -> M S unit) (l : list A) (s : S) :
  Forall (fun x => body x s = (Return tt, s)) l ->
  for_each body l s = (Return tt, s).
Proof.
  induction 1 as [|x l Hx _ IH]; simpl; [reflexivity|].
  unfold bind. rewrite Hx. exact IH.
Qed.

(** C5: a status entry whose [dn] differs from the bulb's identifier, or whose
    attribute name matches no attribute of the store, is processed without any
    change to the attribute store and without any call of the observer; a
    message made only of such entries leaves the bulb as it was. *)
Theorem foreign_or_unknown_entry_ignored (E : environment) (st : bulb_state) :
  (forall members,
     foreign_entry (bulb st) members \/ unknown_attribute (bulb st) members ->
     update_entry (JObj members) st = (Return tt, st)) /\
  (forall message entries,
     json_loads E message = Some (JArr entries) ->
     Forall (fun entry => exists members, entry = JObj members /\
               (foreign_entry (bulb st) members \/
                unknown_attribute (bulb st) members)) entries ->
     _update_status E message st = (Return tt, st)).
Proof.
  split.
  - intros members. apply update_entry_ignored.
  - intros message entries Hload Hall. unfold _update_status.
    rewrite Hload. run. apply for_each_skip.
    eapply Forall_impl; [exact Hall|].
    intros entry (members & -> & H). simpl. apply update_entry_ignored, H.
Qed.

Lemma foreign_or_unknown_entry_ignored_witness :
  let E := example_environment (fun _ => None) (fun _ => 0) example_loads in
  let st := {| bulb := set_attribute_update_callback true example_bulb;
               notified := [] |} in
  _update_status E message_for_others st = (Return tt, st).
Proof.
  intros E st.
  destruct (foreign_or_unknown_entry_ignored E st) as [_ H].
  apply (H message_for_others
           [ JObj [ ("dn", JStr "B0CE18140777"); ("type", JStr "switch");
                    ("value", JStr "1") ];
             JObj [ ("dn", JStr "B0CE1814039A"); ("type", JStr "colorTemperature");
                    ("value", JStr "2700") ] ]); [reflexivity|].
  constructor; [ | constructor; [ | constructor ] ].
  - eexists. split; [reflexivity|]. left.
    exists (JStr "B0CE18140777"). split; [reflexivity | discriminate].
  - eexists. split; [reflexivity|]. right.
    exists (JStr "colorTemperature"). split; [reflexivity|].
    repeat constructor; discriminate.
Defined.

Lemma set_value_stored (pre rest : list attribute) (a : attribute) (v : json)
      (st : bulb_state) :
  _attributes (bulb st) = pre ++ a :: rest ->
  set_value (List.length pre) v st =
  stored (pre ++ {| attr_name := attr_name a; attr_value := v |} :: rest) st.
Proof.
  intros Hattrs. unfold set_value, stored. rewrite Hattrs.
  replace (List.length pre) with (List.length pre + 0)%nat by lia.
  rewrite alter_app_r. reflexivity.
Qed.

(** The inner loop on a suffix [rest] of the attribute list that holds an
    attribute of the entry's name, when the entry has no value, when no
    observer was ever assigned, and when one is. *)
Section Inner_loop.

Variables (members : list (string * json)) (key : string).
Hypothesis Hty : obj_lookup "type" members = Some (JStr key).

Lemma update_attr_no_value (rest : list attribute) (i : nat) (st : bulb_state) :
  obj_lookup "value" members = None ->
  find_attr key rest <> None ->
  update_attr (JObj members) i rest st = (Raise KeyError, st).
Proof.
  intros Hv. revert i.
  induction rest as [|a rest IH]; intros i Hfind; simpl in *; [congruence|].
  run. rewrite Hty. simpl. rewrite String.eqb_sym.
  destruct (String.eqb (attr_name a) key).
  - rewrite Hv. reflexivity.
  - apply IH. assumption.
Qed.

Lemma update_attr_unset (v : json) (pre rest : list attribute) (st : bulb_state) :
  obj_lookup "value" members = Some v ->
  _attribute_update_callback (bulb st) = Unset ->
  _attributes (bulb st) = pre ++ rest ->
  find_attr key rest <> None ->
  update_attr (JObj members) (List.length pre) rest st =
  (Raise AttributeError, stored (pre ++ store_first key v rest) st).
Proof.
  intros Hv Hcb. revert pre.
  induction rest as [|a rest IH]; intros pre Hattrs Hfind; simpl in *; [congruence|].
  run. rewrite Hty. simpl. rewrite String.eqb_sym.
  destruct (String.eqb (attr_name a) key).
  - rewrite Hv. simpl. rewrite (set_value_stored pre rest a v st Hattrs).
    unfold read_callback. run. rewrite Hcb. reflexivity.
  - specialize (IH (pre ++ [a])). rewrite List.length_app in IH. simpl in IH.
    replace (List.length pre + 1)%nat with (S (List.length pre)) in IH by lia.
    rewrite IH; [ | rewrite <- app_assoc; exact Hattrs | exact Hfind ].
    rewrite <- app_assoc. reflexivity.
Qed.

End Inner_loop.

Lemma update_entry_addressed (st : bulb_state) (members : list (string * json))
      (key : string) :
  addressed_entry (bulb st) members key ->
  update_entry (JObj members) st =
  update_attr (JObj members) 0 (_attributes (bulb st)) st.
Proof.
  intros (Hty & Hdn & _). unfold update_entry. rewrite !py_in_obj. run.
  rewrite Hty, Hdn. simpl. rewrite String.eqb_refl. reflexivity.
Qed.

Lemma update_status_single (E : environment) (message : string) (entry : json)
      (st : bulb_state) (e : exn) (st' : bulb_state) :
  json_loads E message = Some (JArr [entry]) ->
  update_entry entry st = (Raise e, st') ->
  _update_status E message st = (Raise e, st').
Proof.
  intros Hload Hraise. unfold _update_status. rewrite Hload.
  cbn [py_iter lift bind for_each]. unfold bind. rewrite Hraise. reflexivity.
Qed.

(** C9: the constructor leaves [_attribute_update_callback] unassigned (it
    returns the bulb unless the subscription of the status topic raises), and
    as long as it is unassigned, a well-formed status entry that carries the
    bulb's identifier and the name of an attribute of the store makes the
    handler raise [AttributeError]: the value is stored, the observer is not
    called, and the exception leaves the handler. *)
Theorem update_without_callback_raises (E : environment) :
  (forall info w,
     match fst (new_bulb E info w) with
     | Return self => _attribute_update_callback self = Unset
     | Raise e =>
         exists m, _mqtt_client (client w) = Some m /\
                   mqtt_subscribe_rc E (calls m) (status_topic (deviceUuid info)) = Raise e
     end) /\
  (forall st members key v,
     _attribute_update_callback (bulb st) = Unset ->
     addressed_entry (bulb st) members key ->
     obj_lookup "value" members = Some v ->
     update_entry (JObj members) st =
     (Raise AttributeError,
      stored (store_first key v (_attributes (bulb st))) st)) /\
  (forall st message members key v,
     _attribute_update_callback (bulb st) = Unset ->
     json_loads E message = Some (JArr [JObj members]) ->
     addressed_entry (bulb st) members key ->
     obj_lookup "value" members = Some v ->
     _update_status E message st =
     (Raise AttributeError,
      stored (store_first key v (_attributes (bulb st))) st)).
Proof.
  assert (Hentry : forall st members key v,
     _attribute_update_callback (bulb st) = Unset ->
     addressed_entry (bulb st) members key ->
     obj_lookup "value" members = Some v ->
     update_entry (JObj members) st =
     (Raise AttributeError,
      stored (store_first key v (_attributes (bulb st))) st)).
  { intros st members key v Hcb Haddr Hv.
    rewrite (update_entry_addressed st members key Haddr).
    destruct Haddr as (Hty & _ & attr & Hfind).
    apply (update_attr_unset members key Hty v [] (_attributes (bulb st)) st);
      [assumption | assumption | reflexivity | congruence]. }
  split; [|split].
  - intros info w. unfold new_bulb, _subscribe_mqtt, update, this, status_topic. run.
    destruct (_mqtt_client (client w)) as [m|]; simpl; [|reflexivity].
    destruct (mqtt_subscribe_rc E (calls m) _) as [rc|e] eqn:Hrc; simpl.
    + destruct (negb _); reflexivity.
    + exists m. split; [reflexivity | exact Hrc].
  - exact Hentry.
  - intros st message members key v Hcb Hload Haddr Hv.
    eapply update_status_single; eauto.
Qed.

Lemma update_without_callback_raises_witness :
  let E := example_environment (fun _ => None) (fun _ => 0) example_loads in
  let st := {| bulb := example_bulb; notified := [] |} in
  _update_status E message_switch_on st =
  (Raise AttributeError,
   {| bulb := plain_bulb [ {| attr_name := "brightness"; attr_value := JStr "40" |};
                           {| attr_name := "switch"; attr_value := JStr "1" |} ];
      notified := [] |}).
Proof.
  intros E st.
  destruct (update_without_callback_raises E) as (_ & _ & H).
  apply (H st message_switch_on
           [ ("dn", JStr "B0CE1814039A"); ("type", JStr "switch"); ("value", JStr "1") ]
           "switch" (JStr "1")).
  - reflexivity.
  - reflexivity.
  - split; [reflexivity | split; [reflexivity | eexists; reflexivity]].
  - reflexivity.
Defined.

(** With an observer registered, the same message stores the value and calls
    the observer once with the property name and its decoded value. *)
Example update_with_callback_notifies :
  let E := example_environment (fun _ => None) (fun _ => 0) example_loads in
  let st := {| bulb := set_attribute_update_callback true example_bulb;
               notified := [] |} in
  let (result, st') := _update_status E message_switch_on st in
  result = Return tt /\
  switch (bulb st') = true /\
  notified st' = [ ("switch", PyBool true) ].
Proof. vm_compute. repeat split. Qed.

(** A payload that is not JSON is dropped: the handler returns and nothing
    changes. *)
Lemma unparseable_status_discarded (E : environment) (message : string)
      (st : bulb_state) :
  json_loads E message = None ->
  _update_status E message st = (Return tt, st).
Proof. intros H. unfold _update_status. rewrite H. reflexivity. Qed.

(** C2, on the code: a payload that parses but is malformed is not always
    dropped.  An entry for this bulb that names one of its attributes and has
    no [value] makes the handler raise [KeyError]; a payload that is a number
    makes it raise [TypeError]. *)
Theorem malformed_status_raises (E : environment) (message : string)
        (st : bulb_state) :
  (forall members key,
     json_loads E message = Some (JArr [JObj members]) ->
     addressed_entry (bulb st) members key ->
     obj_lookup "value" members = None ->
     _update_status E message st = (Raise KeyError, st)) /\
  (forall z,
     json_loads E message = Some (JInt z) ->
     _update_status E message st = (Raise TypeError, st)).
Proof.
  split.
  - intros members key Hload Haddr Hv.
    eapply update_status_single; [exact Hload|].
    rewrite (update_entry_addressed st members key Haddr).
    destruct Haddr as (Hty & _ & attr & Hfind).
    apply (update_attr_no_value members key Hty); [assumption | congruence].
  - intros z Hload. unfold _update_status. rewrite Hload. reflexivity.
Qed.

Lemma malformed_status_raises_witness :
  let E := example_environment (fun _ => None) (fun _ => 0) example_loads in
  let st := {| bulb := set_attribute_update_callback true example_bulb;
               notified := [] |} in
  _update_status E message_without_value st = (Raise KeyError, st) /\
  _update_status E "5" st = (Raise TypeError, st).
Proof.
  intros E st. split.
  - destruct (malformed_status_raises E message_without_value st) as [H _].
    apply (H [ ("dn", JStr "B0CE1814039A"); ("type", JStr "switch") ] "switch").
    + reflexivity.
    + split; [reflexivity | split; [reflexivity | eexists; reflexivity]].
    + reflexivity.
  - destruct (malformed_status_raises E "5" st) as [_ H].
    apply (H 5). reflexivity.
Defined.

(** ** Commands (C3) *)

(** [str] of a level in range is its decimal text: [int] reads it back. *)
Lemma str_int_decimal (c : Z) :
  0 <= c <= 100 -> parse_int10 (str_int c) = Some c.
Proof.
  intros Hc.
  assert (Hall : forallb (fun n => match parse_int10 (str_int (Z.of_nat n)) with
                                   | Some z => z =? Z.of_nat n
                                   | None => false
                                   end) (seq 0 101) = true)
    by (vm_compute; reflexivity).
  rewrite forallb_forall in Hall.
  specialize (Hall (Z.to_nat c)). rewrite Z2Nat.id in Hall by lia.
  destruct (parse_int10 (str_int c)) as [z|].
  - f_equal. apply Z.eqb_eq. apply Hall. apply in_seq. lia.
  - discriminate Hall. apply in_seq. lia.
Qed.

(** C3, counterexample to the claim as stated: on a client that has no MQTT
    client object ([login] has not reached the MQTT set-up), [set_brightness]
    publishes nothing; it reads the clock and returns [False]. *)
Lemma set_brightness_without_client_publishes_nothing :
  set_brightness (example_environment (fun _ => None) (fun _ => 0) example_loads)
                 example_bulb 55 (world_of offline_client)
  = (Return result_False, ticked (world_of offline_client)) /\
  _mqtt_client (client (ticked (world_of offline_client))) = None.
Proof. split; reflexivity. Qed.

(** C3, amended: with an MQTT client object in place, [set_brightness level]
    calls [publish] once, on the bulb's update topic, with a command whose
    [value] is the decimal string of [level] clamped to the interval from 0
    to 100 (the text [int] reads back as that number), and makes no other
    call on the MQTT client; for the levels -10, 0, 55, 100 and 150 the
    values are "0", "0", "55", "100" and "100".  How
    the call ends is what the library makes of the publication: the bound
    method [is_published] when the wait returns, [False] when the wait raises
    [ValueError], and any other exception leaves [set_brightness]. *)
Theorem set_brightness_publishes_clamped (E : environment) (self : SengledBulb)
        (level : Z) (w : world) (m : MqttClient) :
  _mqtt_client (client w) = Some m ->
  exists c data,
    clamped_to 0 100 level c /\
    set_brightness E self level w =
      (publish_outcome (mqtt_publish_info E (calls m) (update_topic (uuid self))
                                          (json_dumps E data)),
       {| client := set_mqtt_client
                      (Some {| client_id := client_id m;
                               calls := calls m ++ [publish (update_topic (uuid self))
                                                            (json_dumps E data)] |})
                      (client w);
          http_log := http_log w;
          clock_reads := S (clock_reads w) |}) /\
    py_getitem data "dn" = Return (JStr (uuid self)) /\
    py_getitem data "type" = Return (JStr "brightness") /\
    py_getitem data "value" = Return (JStr (str_int c)) /\
    parse_int10 (str_int c) = Some c /\
    (level = -10 -> str_int c = "0") /\
    (level = 0 -> str_int c = "0") /\
    (level = 55 -> str_int c = "55") /\
    (level = 100 -> str_int c = "100") /\
    (level = 150 -> str_int c = "100").
Proof.
  intros Hm. exists (Z.max (Z.min level 100) 0).
  exists (JObj [ ("dn", JStr (uuid self));
                 ("type", JStr "brightness");
                 ("value", JStr (str_int (Z.max (Z.min level 100) 0)));
                 ("time", JInt (time_ms E (clock_reads w))) ]).
  split; [unfold clamped_to; lia|]. split.
  - unfold set_brightness, now_ms, _publish_mqtt, update, this, update_topic,
      publish_outcome. run. rewrite Hm. simpl.
    destruct (mqtt_publish_info E _ _ _) as [[[[]|e]]|e]; [| |reflexivity].
    + reflexivity.
    + destruct e; reflexivity.
  - do 3 (split; [reflexivity|]).
    split; [apply str_int_decimal; lia|].
    repeat split; intros ->; reflexivity.
Qed.

Lemma set_brightness_publishes_clamped_witness :
  let E := example_environment (fun _ => None) (fun _ => 0) example_loads in
  let w := world_of (connected_client ∅) in
  exists c w',
    clamped_to 0 100 150 c /\
    set_brightness E example_bulb 150 w = (Return result_is_published, w') /\
    (calls <$> _mqtt_client (client w')) =
      Some [publish "wifielement/B0CE1814039A/update" "100"] /\
    str_int c = "100".
Proof.
  intros E w.
  destruct (set_brightness_publishes_clamped E example_bulb 150 w
              {| client_id := "0123456789ABCDEF@lifeApp"; calls := [] |} eq_refl)
    as (c & data & Hc & Hrun & _ & _ & Hvalue & _ & _ & _ & _ & _ & H150).
  exists c. eexists. split; [exact Hc|]. split; [exact Hrun|].
  split; [|apply H150; reflexivity].
  cbn [fmap option_fmap option_map _mqtt_client client set_mqtt_client calls app].
  unfold E at 1. cbn [json_dumps example_environment]. rewrite Hvalue.
  rewrite (H150 eq_refl). reflexivity.
Defined.

(** The five levels of the specification, run against a broker that delivers
    everything and a [json.dumps] that shows the [value] member. *)
Example set_brightness_five_levels :
  let E := example_environment (fun _ => None) (fun _ => 0) example_loads in
  let w := world_of (connected_client ∅) in
  map (fun level => _mqtt_client (client (snd (set_brightness E example_bulb level w))))
      [-10; 0; 55; 100; 150] =
  map (fun v => Some {| client_id := "0123456789ABCDEF@lifeApp";
                        calls := [publish "wifielement/B0CE1814039A/update" v] |})
      ["0"; "0"; "55"; "100"; "100"].
Proof. reflexivity. Qed.

(** ** The subscription registry (C10, C6) *)

(** What [_subscribe_mqtt] does in each of its cases. *)
Lemma subscribe_without_client (E : environment) (topic : string) (callback : handler)
      (w : world) :
  _mqtt_client (client w) = None ->
  _subscribe_mqtt E topic callback w = (Return false, w).
Proof.
  intros Hm. unfold _subscribe_mqtt, this. run. rewrite Hm. reflexivity.
Qed.

Lemma subscribe_rejected (E : environment) (topic : string) (callback : handler)
      (w : world) (m : MqttClient) (rc : Z) :
  _mqtt_client (client w) = Some m ->
  mqtt_subscribe_rc E (calls m) topic = Return rc ->
  rc <> MQTT_ERR_SUCCESS ->
  _subscribe_mqtt E topic callback w =
  (Return false, on_client (set_mqtt_client (Some (mqtt_do (subscribe topic) m))) w).
Proof.
  intros Hm Hanswer Hrc. unfold _subscribe_mqtt, update, this. run. rewrite Hm. simpl.
  rewrite Hanswer. apply Z.eqb_neq in Hrc. rewrite Hrc. reflexivity.
Qed.

Lemma subscribe_accepted (E : environment) (topic : string) (callback : handler)
      (w : world) (m : MqttClient) :
  _mqtt_client (client w) = Some m ->
  mqtt_subscribe_rc E (calls m) topic = Return MQTT_ERR_SUCCESS ->
  _subscribe_mqtt E topic callback w =
  (Return true,
   on_client (fun c => set_subscribed (<[topic := callback]> (_subscribed c)) c)
     (on_client (set_mqtt_client (Some (mqtt_do (subscribe topic) m))) w)).
Proof.
  intros Hm Hrc. unfold _subscribe_mqtt, update, this. run. rewrite Hm. simpl.
  rewrite Hrc. reflexivity.
Qed.

Lemma subscribe_refused (E : environment) (topic : string) (callback : handler)
      (w : world) (m : MqttClient) (e : exn) :
  _mqtt_client (client w) = Some m ->
  mqtt_subscribe_rc E (calls m) topic = Raise e ->
  _subscribe_mqtt E topic callback w =
  (Raise e, on_client (set_mqtt_client (Some (mqtt_do (subscribe topic) m))) w).
Proof.
  intros Hm Hrc. unfold _subscribe_mqtt, update, this. run. rewrite Hm. simpl.
  rewrite Hrc. reflexivity.
Qed.

(** The four cases together. *)
Lemma subscribe_cases (E : environment) (topic : string) (callback : handler)
      (w : world) :
  (_mqtt_client (client w) = None /\
   _subscribe_mqtt E topic callback w = (Return false, w)) \/
  exists m,
    _mqtt_client (client w) = Some m /\
    let w1 := on_client (set_mqtt_client (Some (mqtt_do (subscribe topic) m))) w in
    (mqtt_subscribe_rc E (calls m) topic = Return MQTT_ERR_SUCCESS /\
     _subscribe_mqtt E topic callback w =
     (Return true,
      on_client (fun c => set_subscribed (<[topic := callback]> (_subscribed c)) c) w1)) \/
    (exists rc, mqtt_subscribe_rc E (calls m) topic = Return rc /\
                rc <> MQTT_ERR_SUCCESS /\
                _subscribe_mqtt E topic callback w = (Return false, w1)) \/
    (exists e, mqtt_subscribe_rc E (calls m) topic = Raise e /\
               _subscribe_mqtt E topic callback w = (Raise e, w1)).
Proof.
  destruct (_mqtt_client (client w)) as [m|] eqn:Hm.
  - right. exists m. split; [reflexivity|]. cbn zeta.
    destruct (mqtt_subscribe_rc E (calls m) topic) as [rc|e] eqn:Hanswer.
    + destruct (Z.eq_dec rc MQTT_ERR_SUCCESS) as [-> | Hrc].
      * left. split; [reflexivity|]. apply (subscribe_accepted E _ _ _ m Hm Hanswer).
      * right. left. exists rc. split; [reflexivity|]. split; [exact Hrc|].
        apply (subscribe_rejected E _ _ _ m rc Hm Hanswer Hrc).
    + right. right. exists e. split; [reflexivity|].
      apply (subscribe_refused E _ _ _ m e Hm Hanswer).
  - left. split; [reflexivity|]. apply (subscribe_without_client E _ _ _ Hm).
Qed.

Lemma subscribe_keeps_devices (E : environment) (topic : string)
      (callback : handler) (w : world) :
  _devices (client (snd (_subscribe_mqtt E topic callback w))) = _devices (client w).
Proof.
  destruct (subscribe_cases E topic callback w)
    as [[_ ->] | (m & _ & [[_ ->] | [(rc & _ & _ & ->) | (e & _ & ->)]])];
    reflexivity.
Qed.

(** C10: [_subscribe_mqtt] returns [True] exactly when an MQTT client exists
    and the library answers the request with [MQTT_ERR_SUCCESS]; the registry
    has then gained the entry for the topic, and nothing else has changed in
    it.  It returns [False] exactly when there is no MQTT client or the
    answer is another result code.  The only other way out is an exception of
    the library's [subscribe], which leaves the function.  Unless it returns
    [True], the registry is what it was. *)
Theorem subscribe_records_only_on_success (E : environment) (topic : string)
        (callback : handler) (w : world) :
  exists result w',
    _subscribe_mqtt E topic callback w = (result, w') /\
    (result = Return true <->
     exists m, _mqtt_client (client w) = Some m /\
               mqtt_subscribe_rc E (calls m) topic = Return MQTT_ERR_SUCCESS) /\
    (result = Return false <->
     _mqtt_client (client w) = None \/
     exists m rc, _mqtt_client (client w) = Some m /\
                  mqtt_subscribe_rc E (calls m) topic = Return rc /\
                  rc <> MQTT_ERR_SUCCESS) /\
    (forall e, result = Raise e <->
               exists m, _mqtt_client (client w) = Some m /\
                         mqtt_subscribe_rc E (calls m) topic = Raise e) /\
    (result <> Return true -> _subscribed (client w') = _subscribed (client w)) /\
    (result = Return true ->
     _subscribed (client w') = <[topic := callback]> (_subscribed (client w))).
Proof.
  destruct (subscribe_cases E topic callback w)
    as [[Hm Hrun] | (m & Hm & [[Hrc Hrun] | [(rc & Hrc & Hne & Hrun) | (e & Hrc & Hrun)]])];
    eexists _, _; (split; [exact Hrun|]).
  - split; [split; [discriminate | intros (m & H & _); congruence]|].
    split; [split; [auto | reflexivity]|].
    split; [intros e; split; [discriminate | intros (m & H & _); congruence]|].
    split; [reflexivity | discriminate].
  - split; [split; [eauto | reflexivity]|].
    split; [split; [discriminate|]|].
    { intros [H | (m' & rc & H & Hrc' & Hne)]; [congruence|].
      rewrite Hm in H. injection H as <-. rewrite Hrc in Hrc'.
      injection Hrc' as <-. contradiction. }
    split; [intros e; split; [discriminate|]|].
    { intros (m' & H & Hrc'). rewrite Hm in H. injection H as <-. congruence. }
    split; [intros H; contradiction | reflexivity].
  - split; [split; [discriminate|]|].
    { intros (m' & H & Hrc'). rewrite Hm in H. injection H as <-.
      rewrite Hrc in Hrc'. injection Hrc' as ->. contradiction. }
    split; [split; [intros _; right; eauto | reflexivity]|].
    split; [intros e; split; [discriminate|]|].
    { intros (m' & H & Hrc'). rewrite Hm in H. injection H as <-. congruence. }
    split; [reflexivity | discriminate].
  - split; [split; [discriminate|]|].
    { intros (m' & H & Hrc'). rewrite Hm in H. injection H as <-. congruence. }
    split; [split; [discriminate|]|].
    { intros [H | (m' & rc & H & Hrc' & _)]; [congruence|].
      rewrite Hm in H. injection H as <-. congruence. }
    split; [intros e'; split|].
    { intros [= <-]. eauto. }
    { intros (m' & H & Hrc'). rewrite Hm in H. injection H as <-.
      rewrite Hrc in Hrc'. injection Hrc' as ->. reflexivity. }
    split; [reflexivity | discriminate].
Qed.

Lemma subscribe_records_only_on_success_witness :
  let w := world_of (connected_client ∅) in
  (let E := example_environment (fun _ => None)
              (fun topic => if String.eqb topic "wifielement/B0CE1814039A/status"
                            then 0 else 1)
              example_loads in
   snd (_subscribe_mqtt E "wifielement/0000/status" (update_status_of "0000") w)
     = on_client (set_mqtt_client
                    (Some {| client_id := "0123456789ABCDEF@lifeApp";
                             calls := [subscribe "wifielement/0000/status"] |})) w /\
   exists w',
     _subscribe_mqtt E "wifielement/0000/status" (update_status_of "0000") w
       = (Return false, w') /\
     _subscribed (client w') = ∅) /\
  (let E := broker_environment refuses_wildcards
              (fun _ => Return {| wait_for_publish := Return tt |}) (fun _ => None) in
   exists w',
     _subscribe_mqtt E "wifielement/LAMP#1/status" (update_status_of "LAMP#1") w
       = (Raise ValueError, w') /\
     _subscribed (client w') = ∅).
Proof.
  intros w. split; intros E.
  - split; [reflexivity|].
    destruct (subscribe_records_only_on_success E "wifielement/0000/status"
                (update_status_of "0000") w)
      as (result & w' & Hrun & _ & Hfalse & _ & Hkeep & _).
    assert (Hr : result = Return false).
    { apply Hfalse. right. eexists _, 1. split; [reflexivity|].
      split; [reflexivity | discriminate]. }
    subst result. exists w'. split; [exact Hrun|]. apply Hkeep. discriminate.
  - destruct (subscribe_records_only_on_success E "wifielement/LAMP#1/status"
                (update_status_of "LAMP#1") w)
      as (result & w' & Hrun & _ & _ & Hraise & Hkeep & _).
    assert (Hr : result = Raise ValueError).
    { apply Hraise. eexists. split; reflexivity. }
    subst result. exists w'. split; [exact Hrun|]. apply Hkeep. discriminate.
Defined.

Lemma bind_return {S A B} (m : M S A) (k : A -> M S B) (s s' : S) (a : A) :
  m s = (Return a, s') -> bind m k s = k a s'.
Proof. intros H. unfold bind. rewrite H. reflexivity. Qed.

Lemma with_calls_nil (m : MqttClient) (w : world) :
  _mqtt_client (client w) = Some m -> with_calls [] m w = w.
Proof.
  intros Hm. unfold with_calls. rewrite app_nil_r.
  destruct w as [[] ? ?], m; simpl in *; subst; reflexivity.
Qed.

Lemma mqtt_step (call : mqtt_call) (l : list mqtt_call) (m : MqttClient) (w : world) :
  mqtt call (with_calls l m w) = (Return tt, with_calls (l ++ [call]) m w).
Proof.
  unfold mqtt, update, modify, with_calls, on_client, mqtt_do. simpl.
  rewrite app_assoc. reflexivity.
Qed.

Lemma mqtt_open_step (E : environment) (call : mqtt_call) (l : list mqtt_call)
      (m : MqttClient) (w : world) :
  mqtt_open E call (with_calls l m w) =
  (mqtt_connect E (calls m ++ l), with_calls (l ++ [call]) m w).
Proof.
  unfold mqtt_open. unfold bind at 1. unfold this at 1.
  cbn [client with_calls on_client set_mqtt_client _mqtt_client].
  unfold bind. fold (with_calls l m w). rewrite mqtt_step. reflexivity.
Qed.

Lemma mqtt_connect_opens (E : environment) (l : list mqtt_call) :
  mqtt_connect_ok E l = true -> mqtt_connect E l = Return tt.
Proof.
  unfold mqtt_connect_ok. destruct (mqtt_connect E l) as [[]|e];
    [reflexivity | discriminate].
Qed.

(** One step of the loop of [_reinitialize_mqtt] on a registered topic: one
    [subscribe] call more on the MQTT client, and the same registry. *)
Lemma resubscribe_step (E : environment) (topic : string) (callback : handler)
      (l : list mqtt_call) (m : MqttClient) (w : world) :
  _subscribed (client w) !! topic = Some callback ->
  (exists rc, mqtt_subscribe_rc E (calls m ++ l) topic = Return rc) ->
  exists flag,
    _subscribe_mqtt E topic callback (with_calls l m w) =
    (Return flag, with_calls (l ++ [subscribe topic]) m w).
Proof.
  intros Hreg [rc Hanswer].
  set (m' := {| client_id := client_id m; calls := calls m ++ l |}).
  assert (Hm' : _mqtt_client (client (with_calls l m w)) = Some m') by reflexivity.
  assert (Hnext : on_client (set_mqtt_client (Some (mqtt_do (subscribe topic) m')))
                            (with_calls l m w)
                  = with_calls (l ++ [subscribe topic]) m w).
  { unfold with_calls, on_client, mqtt_do, m'. simpl. rewrite app_assoc. reflexivity. }
  destruct (Z.eq_dec rc MQTT_ERR_SUCCESS) as [-> | Hrc].
  - exists true. rewrite (subscribe_accepted E _ _ _ m' Hm' Hanswer). rewrite Hnext.
    f_equal. unfold on_client at 1. simpl.
    rewrite (insert_id _ _ _ Hreg). destruct w as [[] ? ?]; reflexivity.
  - exists false. rewrite (subscribe_rejected E _ _ _ m' rc Hm' Hanswer Hrc).
    rewrite Hnext. reflexivity.
Qed.

Lemma resubscribe_loop (E : environment) (topics : list string) (l : list mqtt_call)
      (m : MqttClient) (w : world) :
  Forall (fun topic => is_Some (_subscribed (client w) !! topic)) topics ->
  accepts_registry E w ->
  for_each
    (fun topic =>
       let* c := this in
       match _subscribed c !! topic with
       | Some callback => _subscribe_mqtt E topic callback;;; ret tt
       | None => raise KeyError
       end) topics (with_calls l m w) =
  (Return tt, with_calls (l ++ map subscribe topics) m w).
Proof.
  intros Hall Hacc. revert l. induction Hall as [|topic topics [callback Hreg] Hrest IH];
    intros l.
  - simpl. rewrite app_nil_r. reflexivity.
  - destruct (resubscribe_step E topic callback l m w Hreg
                (Hacc _ topic (ex_intro _ callback Hreg))) as [flag Hstep].
    cbn [for_each]. unfold bind at 1. unfold bind at 1. unfold this at 1.
    cbn [client with_calls on_client set_mqtt_client _subscribed].
    rewrite Hreg. fold (with_calls l m w).
    rewrite (bind_return _ _ _ _ _ Hstep). unfold ret at 1.
    rewrite IH.
    simpl. rewrite <- app_assoc. reflexivity.
Qed.

Lemma registry_keys (R : gmap string handler) :
  Forall (fun topic => is_Some (R !! topic)) (map fst (map_to_list R)).
Proof.
  apply Forall_forall. intros topic Hin.
  apply list_elem_of_fmap in Hin as ([t cb] & -> & Hin).
  apply elem_of_map_to_list in Hin. simpl. eauto.
Qed.

Lemma resubscribe_all_runs (E : environment) (l : list mqtt_call) (m : MqttClient)
      (w : world) :
  accepts_registry E w ->
  resubscribe_all E (with_calls l m w) =
  (Return tt,
   with_calls (l ++ map subscribe (map fst (map_to_list (_subscribed (client w))))) m w).
Proof.
  intros Hacc. unfold resubscribe_all. unfold bind at 1. unfold this at 1.
  cbn [client with_calls on_client set_mqtt_client _subscribed].
  fold (with_calls l m w). apply resubscribe_loop; [apply registry_keys | exact Hacc].
Qed.

(** [_reinitialize_mqtt] when an MQTT client and a session exist and the
    broker takes the connection back. *)
Lemma reinitialize_runs (E : environment) (w : world) (m : MqttClient) :
  _mqtt_client (client w) = Some m ->
  token_set (_jsession_id (client w)) = true ->
  mqtt_connect_ok E (calls m ++ take 3 (reconnect_calls (client w))) = true ->
  accepts_registry E w ->
  _reinitialize_mqtt E w =
  (Return true,
   with_calls (reconnect_calls (client w)
               ++ map subscribe (map fst (map_to_list (_subscribed (client w))))) m w).
Proof.
  intros Hm Htok Hok Hacc.
  unfold _reinitialize_mqtt. unfold bind at 1. unfold this at 1. cbn [client].
  rewrite Hm, Htok. rewrite bool_decide_false by discriminate. cbn [orb negb].
  rewrite <- (with_calls_nil m w Hm) at 1.
  rewrite (bind_return _ _ _ _ _ (mqtt_step _ _ _ _)).
  rewrite (bind_return _ _ _ _ _ (mqtt_step _ _ _ _)).
  rewrite (bind_return _ _ _ _ _ (mqtt_step _ _ _ _)).
  unfold bind at 1. rewrite mqtt_open_step. simpl app. simpl in Hok.
  rewrite (mqtt_connect_opens E _ Hok).
  rewrite (bind_return _ _ _ _ _ (mqtt_step _ _ _ _)).
  rewrite (bind_return _ _ _ _ _ (resubscribe_all_runs E _ _ _ Hacc)).
  reflexivity.
Qed.

Lemma subscriptions_of_app (topic : string) (l1 l2 : list mqtt_call) :
  subscriptions_of topic (l1 ++ l2) =
  (subscriptions_of topic l1 + subscriptions_of topic l2)%nat.
Proof.
  unfold subscriptions_of. rewrite List.filter_app, List.length_app. reflexivity.
Qed.

Lemma subscriptions_of_keys (topic : string) (keys : list string) :
  NoDup keys -> topic ∈ keys ->
  subscriptions_of topic (map subscribe keys) = 1%nat.
Proof.
  unfold subscriptions_of.
  induction 1 as [|key keys Hnotin Hnodup IH]; intros Hin.
  - inversion Hin.
  - simpl. destruct (String.eqb_spec key topic) as [-> | Hne].
    + simpl. f_equal.
      clear IH Hin Hnodup. induction keys as [|k keys IH]; [reflexivity|].
      simpl. destruct (String.eqb_spec k topic) as [-> | Hne].
      * exfalso. apply Hnotin. left.
      * apply IH. intros H. apply Hnotin. right. exact H.
    + apply IH. inversion Hin; subst; [contradiction | assumption].
Qed.

(** C6: when an MQTT client and a session exist, the broker takes the
    connection back and the library takes the topics of the registry as
    filters (it took each of them when it was recorded), [_reinitialize_mqtt]
    completes and returns [True]; after the calls that
    re-open the connection it issues one [subscribe] call for each topic of
    the registry and no other, and the registry afterwards is the registry
    before.  After any number [n] of reconnections in a row the registry is
    still the same and each of its topics has been subscribed [n] more
    times. *)
Theorem reconnect_resubscribes_registry (E : environment) (w : world)
        (m : MqttClient) :
  _mqtt_client (client w) = Some m ->
  token_set (_jsession_id (client w)) = true ->
  accepts_registry E w ->
  (mqtt_connect_ok E (calls m ++ take 3 (reconnect_calls (client w))) = true ->
   exists topics w',
     _reinitialize_mqtt E w = (Return true, w') /\
     _subscribed (client w') = _subscribed (client w) /\
     _mqtt_client (client w') =
       Some {| client_id := client_id m;
               calls := calls m ++ reconnect_calls (client w)
                        ++ map subscribe topics |} /\
     NoDup topics /\
     (forall topic, topic ∈ topics <-> is_Some (_subscribed (client w) !! topic))) /\
  (forall n,
     (forall l, mqtt_connect_ok E l = true) ->
     exists w' m',
       reconnect_times E n w = (Return tt, w') /\
       _subscribed (client w') = _subscribed (client w) /\
       _mqtt_client (client w') = Some m' /\
       forall topic, is_Some (_subscribed (client w) !! topic) ->
         subscriptions_of topic (calls m') =
         (subscriptions_of topic (calls m) + n)%nat).
Proof.
  intros Hm Htok Hacc.
  assert (Hkeys : forall R : gmap string handler,
            NoDup (map fst (map_to_list R)) /\
            forall topic, topic ∈ map fst (map_to_list R) <-> is_Some (R !! topic)).
  { intros R. split; [apply NoDup_fst_map_to_list|].
    intros topic. split.
    - intros Hin. apply list_elem_of_fmap in Hin as ([t cb] & -> & Hin).
      apply elem_of_map_to_list in Hin. eauto.
    - intros [cb Hcb]. apply list_elem_of_fmap. exists (topic, cb).
      split; [reflexivity | apply elem_of_map_to_list; exact Hcb]. }
  split.
  - intros Hok. eexists _, _.
    split; [apply (reinitialize_runs E w m Hm Htok Hok Hacc)|].
    split; [reflexivity|].
    split; [reflexivity|].
    apply Hkeys.
  - intros n Hok. revert w m Hm Htok Hacc.
    induction n as [|n IH]; intros w m Hm Htok Hacc.
    + exists w, m. repeat split; [assumption|]. intros topic _. lia.
    + cbn [reconnect_times].
      rewrite (bind_return _ _ _ _ _ (reinitialize_runs E w m Hm Htok (Hok _) Hacc)).
      edestruct IH as (w' & m' & Hrun & Hreg & Hm' & Hcount);
        [ | | | exists w', m'; split; [exact Hrun|]; split; [exact Hreg|];
                split; [exact Hm'|] ]; [reflexivity | exact Htok | exact Hacc |].
      intros topic Htopic. rewrite (Hcount topic Htopic).
      cbn [calls]. rewrite !subscriptions_of_app.
      rewrite (subscriptions_of_keys topic); [ | apply Hkeys | apply Hkeys, Htopic ].
      unfold subscriptions_of at 2. simpl. lia.
Qed.

Lemma reconnect_resubscribes_registry_witness :
  let E := example_environment (fun _ => None) (fun _ => 0) example_loads in
  let w := world_of (connected_client example_registry) in
  (exists topics w',
     _reinitialize_mqtt E w = (Return true, w') /\
     _subscribed (client w') = example_registry /\
     NoDup topics /\
     "wifielement/B0CE1814039A/status" ∈ topics) /\
  (exists w' m',
     reconnect_times E 3 w = (Return tt, w') /\
     _subscribed (client w') = example_registry /\
     _mqtt_client (client w') = Some m' /\
     subscriptions_of "wifielement/B0CE18140777/status" (calls m') = 3%nat).
Proof.
  intros E w.
  destruct (reconnect_resubscribes_registry E w
              {| client_id := "0123456789ABCDEF@lifeApp"; calls := [] |}
              eq_refl eq_refl (fun l topic _ => ex_intro _ 0 eq_refl))
    as [Honce Hmany].
  split.
  - destruct (Honce eq_refl) as (topics & w' & Hrun & Hreg & _ & Hnodup & Hin).
    exists topics, w'. repeat split; try assumption.
    apply Hin. eexists. apply lookup_insert_eq.
  - destruct (Hmany 3%nat (fun _ => eq_refl)) as (w' & m' & Hrun & Hreg & Hm' & Hcount).
    exists w', m'. repeat split; try assumption.
    rewrite Hcount; [reflexivity|].
    eexists. unfold w, world_of, connected_client, example_registry. simpl.
    rewrite lookup_insert_ne by discriminate. apply lookup_insert_eq.
Defined.

(** ** Endpoint resolution (C7) *)

Lemma post_answer (E : environment) (req : http_request) (w : world)
      (r : http_response) :
  requests_post E (http_log w) req = Some r ->
  post E req w = (Return r, sent req w).
Proof. intros H. unfold post. rewrite H. reflexivity. Qed.

Lemma str_contains_char (c : ascii) (s : string) :
  str_contains (String c EmptyString) s = true <-> In c (list_ascii_of_string s).
Proof.
  induction s as [|b s IH]; simpl.
  - split; [discriminate | contradiction].
  - rewrite orb_true_iff, andb_true_r, IH.
    destruct (Ascii.eqb_spec c b) as [-> | Hne].
    + split; auto.
    + split; [intros [H | H]; [discriminate | auto]
             | intros [H | H]; [congruence | auto]].
Qed.

(** C7, counterexample to the claim as stated: the address
    [wss://[1:2::3]/mqtt] names no port, but its network location, an IPv6
    literal, has colons; the test [':' in url.netloc] takes the first of them
    for the separator of a port, so the host becomes ["[1"] and the port 2,
    not 443. *)
Lemma endpoint_without_port_is_not_443 :
  _get_server_info
    (example_environment (fun _ => Some (answer_address "wss://[1:2::3]/mqtt"))
                         (fun _ => 0) example_loads)
    (world_of (connected_client ∅))
  = (Return tt,
     on_client (set_mqtt_server {| mqtt_host := "[1"; mqtt_port := 2;
                                   mqtt_path := "/mqtt" |})
       (sent (server_info_request (connected_client ∅))
             (world_of (connected_client ∅)))) /\
  urlparse (example_environment (fun _ => None) (fun _ => 0) example_loads)
           "wss://[1:2::3]/mqtt"
  = Some {| netloc := "[1:2::3]"; path := "/mqtt" |}.
Proof. split; reflexivity. Qed.

(** C7, amended: when the backend answers the resolution request with a status
    other than 200, or with a body in which [inceptionAddr] is missing or
    empty, [_get_server_info] returns and the client, hence its endpoint
    (host, port, path), is what it was.  When the answer carries an address
    that [urlparse] takes and whose network location has no colon, the host
    and path are taken from the address and the port is 443. *)
Theorem endpoint_resolution (E : environment) (w : world) (r : http_response) :
  requests_post E (http_log w) (server_info_request (client w)) = Some r ->
  (resolution_fails r ->
   exists w', _get_server_info E w = (Return tt, w') /\ client w' = client w) /\
  (forall data addr url,
     token_set (_jsession_id (client w)) = true ->
     status_code r = 200 ->
     resp_body r = Some data ->
     body_inceptionAddr data = Some addr ->
     addr <> "" ->
     urlparse E addr = Some url ->
     ~ In ":"%char (list_ascii_of_string (netloc url)) ->
     exists w',
       _get_server_info E w = (Return tt, w') /\
       _mqtt_server (client w') =
         {| mqtt_host := netloc url;
            mqtt_port := 443;
            mqtt_path := path url |}).
Proof.
  intros Hnext. split.
  - intros Hfail. unfold _get_server_info. unfold bind at 1. unfold this at 1.
    cbn [client]. destruct (token_set _); cbn [negb]; [|eexists; split; reflexivity].
    rewrite (bind_return _ _ _ _ _ (post_answer E _ w r Hnext)).
    destruct (Z.eqb_spec (status_code r) 200) as [Hok | Hne]; cbn [negb];
      [|eexists; split; reflexivity].
    destruct Hfail as [Hne | (data & Hbody & Haddr)]; [contradiction|].
    unfold response_json. rewrite Hbody.
    unfold bind at 1. unfold ret at 1.
    destruct Haddr as [-> | ->]; eexists; split; reflexivity.
  - intros data addr url Htok Hok Hbody Haddr Hne Hurl Hcolon.
    unfold _get_server_info. unfold bind at 1. unfold this at 1.
    cbn [client]. rewrite Htok. cbn [negb].
    rewrite (bind_return _ _ _ _ _ (post_answer E _ w r Hnext)).
    rewrite Hok. cbn [Z.eqb Pos.eqb negb].
    unfold response_json. rewrite Hbody.
    unfold bind at 1. unfold ret at 1. rewrite Haddr.
    apply String.eqb_neq in Hne. rewrite Hne, Hurl.
    rewrite <- str_contains_char in Hcolon.
    apply not_true_is_false in Hcolon. rewrite Hcolon.
    eexists. split; reflexivity.
Qed.

Lemma endpoint_resolution_witness :
  let w := world_of (connected_client ∅) in
  (let E := example_environment (fun _ => Some answer_error) (fun _ => 0)
                                example_loads in
   exists w', _get_server_info E w = (Return tt, w') /\ client w' = client w) /\
  (let E := example_environment
              (fun _ => Some (answer_address "wss://jp-mqtt.cloud.sengled.com/mqtt"))
              (fun _ => 0) example_loads in
   exists w',
     _get_server_info E w = (Return tt, w') /\
     _mqtt_server (client w') =
       {| mqtt_host := "jp-mqtt.cloud.sengled.com";
          mqtt_port := 443;
          mqtt_path := "/mqtt" |}).
Proof.
  intros w. split.
  - intros E.
    destruct (endpoint_resolution E w answer_error eq_refl) as [Hfail _].
    apply Hfail. left. discriminate.
  - intros E.
    destruct (endpoint_resolution E w
                (answer_address "wss://jp-mqtt.cloud.sengled.com/mqtt")
                eq_refl) as [_ Hok].
    eapply (Hok _ "wss://jp-mqtt.cloud.sengled.com/mqtt"
                  {| netloc := "jp-mqtt.cloud.sengled.com"; path := "/mqtt" |});
      try reflexivity; [discriminate|].
    vm_compute. intuition discriminate.
Defined.

(** An address with an explicit port: host and port come from the two sides
    of the colon. *)
Example endpoint_with_port :
  let E := example_environment
             (fun _ => Some (answer_address "wss://eu-mqtt.cloud.sengled.com:8883/mqtt"))
             (fun _ => 0) example_loads in
  _mqtt_server (client (snd (_get_server_info E (world_of (connected_client ∅))))) =
  {| mqtt_host := "eu-mqtt.cloud.sengled.com"; mqtt_port := 8883; mqtt_path := "/mqtt" |}.
Proof. reflexivity. Qed.

(** ** The device directory (C8) *)

Lemma for_each_invariant {S A} (P : S -> Prop) (body : A -> M S unit) (l : list A) :
  (forall x s, P s -> P (snd (body x s))) ->
  forall s, P s -> P (snd (for_each body l s)).
Proof.
  intros Hbody. induction l as [|x l IH]; intros s Hs; simpl; [exact Hs|].
  unfold bind. specialize (Hbody x s Hs).
  destruct (body x s) as [[[]|e] s']; simpl in *; [apply IH|]; exact Hbody.
Qed.

Lemma directory_grows_refl (w : world) :
  NoDup (cached_ids w) -> directory_grows w w.
Proof. intros H. split; [exact H | exists []; rewrite app_nil_r; reflexivity]. Qed.

Lemma directory_grows_trans (w0 w1 w2 : world) :
  directory_grows w0 w1 -> directory_grows w1 w2 -> directory_grows w0 w2.
Proof.
  intros [_ [a1 H1]] [Hnodup [a2 H2]]. split; [exact Hnodup|].
  exists (a1 ++ a2). rewrite H2, H1, app_assoc. reflexivity.
Qed.

(** The constructor of a bulb never touches the directory cache. *)
Lemma new_bulb_runs (E : environment) (info : device_info) (w : world) :
  exists result w',
    new_bulb E info w = (result, w') /\
    match result with
    | Return self => uuid self = deviceUuid info
    | Raise _ => True
    end /\
    _devices (client w') = _devices (client w).
Proof.
  unfold new_bulb.
  pose proof (subscribe_keeps_devices E
                ("wifielement/" ++ deviceUuid info ++ "/status")%string
                (update_status_of (deviceUuid info)) w) as Hdevs.
  cbn [uuid _uuid]. unfold bind.
  destruct (_subscribe_mqtt E _ _ w) as [[flag|e] w']; cbn [snd] in Hdevs;
    eexists _, _; (split; [reflexivity | split; [|exact Hdevs]]); [reflexivity | exact I].
Qed.

(** One pass of the loop of [get_devices] over a directory entry. *)
Lemma directory_entry_step (E : environment) (w0 : world) (d : device_info)
      (w : world) :
  directory_grows w0 w ->
  directory_grows w0
    (snd ((let* c := this in
           let found := existsb (fun dev => String.eqb (uuid dev) (deviceUuid d))
                                (_devices c) in
           if negb found then
             let* bulb := new_bulb E d in
             update (fun c => set_devices (_devices c ++ [bulb]) c)
           else ret tt) w)).
Proof.
  intros Hgrow. unfold bind at 1. unfold this at 1. cbn [client].
  destruct (existsb _ (_devices (client w))) eqn:Hfound; cbn [negb]; [exact Hgrow|].
  destruct (new_bulb_runs E d w) as ([self|e] & w' & Hrun & Huuid & Hdevs).
  2: { unfold bind. rewrite Hrun. cbn [snd].
       apply (directory_grows_trans w0 w); [exact Hgrow|].
       destruct Hgrow as [Hnodup _]. unfold directory_grows, cached_ids in *.
       rewrite Hdevs. split; [exact Hnodup|]. exists []. rewrite app_nil_r. reflexivity. }
  rewrite (bind_return _ _ _ _ _ Hrun).
  unfold update, modify. cbn [snd on_client client set_devices _devices].
  apply (directory_grows_trans w0 w); [exact Hgrow|].
  destruct Hgrow as [Hnodup _]. unfold directory_grows, cached_ids in *.
  simpl. rewrite Hdevs. split; [|eauto].
  rewrite map_app. cbn [map]. rewrite Huuid.
  apply NoDup_app. split; [exact Hnodup|]. split; [|apply NoDup_singleton].
  intros id Hin Hnew. apply list_elem_of_singleton in Hnew. subst id.
  apply list_elem_of_fmap in Hin as (dev & Hid & Hdev).
  apply not_true_iff_false in Hfound. apply Hfound.
  apply existsb_exists. exists dev. split; [apply list_elem_of_In; exact Hdev|].
  apply String.eqb_eq. symmetry. exact Hid.
Qed.

Lemma get_devices_grows (E : environment) (force_update : bool) (w : world) :
  NoDup (cached_ids w) ->
  directory_grows w (snd (get_devices E force_update w)).
Proof.
  intros Hnodup. pose proof (directory_grows_refl w Hnodup) as Hrefl.
  unfold get_devices. unfold bind at 1. unfold this at 1. cbn [client].
  destruct (token_set _); cbn [negb]; [|exact Hrefl].
  destruct (_ && _); [exact Hrefl|].
  unfold bind at 1. unfold post at 1.
  destruct (requests_post E (http_log w) _) as [r|]; [|exact Hrefl].
  destruct (negb _); [exact Hrefl|].
  unfold bind at 1. unfold response_json at 1.
  destruct (resp_body r) as [data|]; [|exact Hrefl].
  unfold ret at 1.
  destruct (body_deviceList data) as [[|d deviceList]|]; try exact Hrefl.
  match goal with
  | |- directory_grows w (snd (bind (for_each ?body ?l) ?k ?s)) =>
      pose proof (for_each_invariant (directory_grows w) body l
                    (directory_entry_step E w) s Hrefl) as Hloop;
      unfold bind at 1; destruct (for_each body l s) as [[[]|e] s']
  end; exact Hloop.
Qed.

(** C8: starting from a cache with one bulb per identifier (the empty cache of
    a new client is one), after any sequence of calls of [get_devices], forced
    or not and whatever the backend answers, the cache still holds at most one
    bulb per device identifier, and it is the cache before the calls followed
    by the bulbs added: no bulb is removed or replaced. *)
Theorem directory_keeps_one_bulb_per_id (E : environment) (flags : list bool)
        (w : world) :
  NoDup (cached_ids w) ->
  NoDup (cached_ids (refresh_all E flags w)) /\
  exists added,
    _devices (client (refresh_all E flags w)) = _devices (client w) ++ added.
Proof.
  revert w. unfold refresh_all.
  induction flags as [|force_update flags IH]; intros w Hnodup.
  - apply directory_grows_refl, Hnodup.
  - cbn [fold_left].
    pose proof (get_devices_grows E force_update w Hnodup) as Hstep.
    apply (directory_grows_trans w _ _ Hstep).
    apply IH. destruct Hstep as [H _]. exact H.
Qed.

Lemma directory_keeps_one_bulb_per_id_witness :
  let E := example_environment
             (fun _ => Some (answer_devices [example_device; example_device]))
             (fun _ => 0) example_loads in
  let w := world_of (connected_client ∅) in
  NoDup (cached_ids (refresh_all E [true; true] w)) /\
  exists added, _devices (client (refresh_all E [true; true] w)) = [] ++ added.
Proof.
  intros E w.
  apply (directory_keeps_one_bulb_per_id E [true; true] w). constructor.
Defined.

(** Two forced refreshes answered with the same device listed twice: one bulb,
    subscribed once. *)
Example duplicate_devices_cached_once :
  let E := example_environment
             (fun _ => Some (answer_devices [example_device; example_device]))
             (fun _ => 0) example_loads in
  let w' := refresh_all E [true; true] (world_of (connected_client ∅)) in
  _devices (client w') = [example_bulb] /\
  (calls <$> _mqtt_client (client w')) =
    Some [subscribe "wifielement/B0CE1814039A/status"].
Proof. split; reflexivity. Qed.

(** ** The session (C1) *)

Lemma session_probe_valid (E : environment) (w : world) (r : http_response) :
  token_set (_jsession_id (client w)) = true ->
  requests_post E (http_log w) (session_timeout_request (client w)) = Some r ->
  session_valid r ->
  _is_session_timeout E w =
  (Return false, sent (session_timeout_request (client w)) w).
Proof.
  intros Htok Hnext (Hstatus & data & Hbody & Hinfo).
  unfold _is_session_timeout. unfold bind at 1. unfold this at 1. cbn [client].
  rewrite Htok. cbn [negb].
  rewrite (bind_return _ _ _ _ _ (post_answer E _ w r Hnext)).
  rewrite Hstatus. cbn [Z.eqb Pos.eqb negb].
  unfold response_json. rewrite Hbody. unfold bind at 1. unfold ret at 1.
  rewrite Hinfo. reflexivity.
Qed.

Lemma login_session_valid (E : environment) (w : world) (r : http_response) :
  token_set (_jsession_id (client w)) = true ->
  requests_post E (http_log w) (session_timeout_request (client w)) = Some r ->
  session_valid r ->
  login E w = (Return None, sent (session_timeout_request (client w)) w).
Proof.
  intros Htok Hnext Hvalid.
  unfold login. unfold bind at 1. unfold this at 1. cbn [client].
  rewrite Htok. unfold bind at 1.
  rewrite (bind_return _ _ _ _ _ (session_probe_valid E w r Htok Hnext Hvalid)).
  reflexivity.
Qed.

(** C1, on the code: with a session token in place and a probe that reports
    the session valid, [login] sends the probe and nothing else and leaves the
    client (token included) untouched, and a second call right after does the
    same; but what it returns, both times, is [None], not [True]. *)
Theorem login_with_valid_session_returns_none (E : environment) (w : world)
        (r : http_response) :
  token_set (_jsession_id (client w)) = true ->
  requests_post E (http_log w) (session_timeout_request (client w)) = Some r ->
  session_valid r ->
  let probe := session_timeout_request (client w) in
  login E w = (Return None, sent probe w) /\
  client (sent probe w) = client w /\
  http_log (sent probe w) = http_log w ++ [probe] /\
  forall r',
    requests_post E (http_log w ++ [probe]) probe = Some r' ->
    session_valid r' ->
    login E (sent probe w) = (Return None, sent probe (sent probe w)).
Proof.
  intros Htok Hnext Hvalid probe.
  split; [apply (login_session_valid E w r Htok Hnext Hvalid)|].
  split; [reflexivity|]. split; [reflexivity|].
  intros r' Hnext' Hvalid'.
  apply (login_session_valid E (sent probe w) r' Htok Hnext' Hvalid').
Qed.

Lemma login_with_valid_session_returns_none_witness :
  let E := example_environment (fun _ => Some answer_valid) (fun _ => 0)
                               example_loads in
  let w := world_of (connected_client example_registry) in
  let probe := session_timeout_request (connected_client example_registry) in
  login E w = (Return None, sent probe w) /\
  login E (sent probe w) = (Return None, sent probe (sent probe w)).
Proof.
  intros E w probe.
  assert (Hvalid : session_valid answer_valid).
  { split; [reflexivity | eexists; split; reflexivity]. }
  destruct (login_with_valid_session_returns_none E w answer_valid
              eq_refl eq_refl Hvalid) as (Hfirst & _ & _ & Hsecond).
  split; [exact Hfirst | exact (Hsecond answer_valid eq_refl Hvalid)].
Defined.

(** A first login, end to end: the token is stored, the endpoint resolved, the
    MQTT connection opened, and the one device of the directory cached and
    subscribed; this path does return [True]. *)
Example first_login_end_to_end :
  let E := example_environment example_backend (fun _ => 0) example_loads in
  let (result, w) := login E (world_of (new_client "5f0c1b7e3a9d4c26"
                                                   "user@example.org" "secret")) in
  result = Return (Some true) /\
  _jsession_id (client w) = Some "0123456789ABCDEF" /\
  mqtt_port (_mqtt_server (client w)) = 8883 /\
  _devices (client w) = [example_bulb] /\
  (calls <$> _mqtt_client (client w)) =
    Some [ tls_set_context;
           ws_set_options "/mqtt" [ ("Cookie", "JSESSIONID=0123456789ABCDEF");
                                    ("X-Requested-With", "com.sengled.life2") ];
           set_on_message;
           connect "eu-mqtt.cloud.sengled.com" 8883 30;
           loop_start;
           subscribe "wifielement/B0CE1814039A/status" ] /\
  List.length (http_log w) = 3%nat.
Proof. vm_compute. repeat split. Qed.

(** * Further properties of the module *)

(** ** The attribute store under status entries *)


Lemma find_attr_store_other (key other : string) (v : json) (attrs : list attribute) :
  other <> key ->
  find_attr other (store_first key v attrs) = find_attr other attrs.
Proof.
  intros Hne. induction attrs as [|a attrs IH]; simpl; [reflexivity|].
  destruct (String.eqb_spec (attr_name a) key) as [Heq | Hk]; simpl.
  - rewrite Heq. apply String.eqb_neq in Hne. rewrite String.eqb_sym, Hne.
    destruct (String.eqb_spec key other); [congruence | reflexivity].
  - rewrite IH. reflexivity.
Qed.

Lemma store_first_names (key : string) (v : json) (attrs : list attribute) :
  map attr_name (store_first key v attrs) = map attr_name attrs.
Proof.
  induction attrs as [|a attrs IH]; simpl; [reflexivity|].
  destruct (String.eqb (attr_name a) key); simpl; [reflexivity | f_equal; exact IH].
Qed.

Lemma store_first_absent (key : string) (v : json) (attrs : list attribute) :
  find_attr key attrs = None -> store_first key v attrs = attrs.
Proof.
  induction attrs as [|a attrs IH]; simpl; [reflexivity|].
  destruct (String.eqb (attr_name a) key); [discriminate|].
  intros H. f_equal. apply IH, H.
Qed.

Lemma store_first_app (key : string) (v : json) (pre rest : list attribute) :
  find_attr key pre = None ->
  store_first key v (pre ++ rest) = pre ++ store_first key v rest.
Proof.
  induction pre as [|a pre IH]; simpl; [reflexivity|].
  destruct (String.eqb (attr_name a) key); [discriminate|].
  intros H. f_equal. apply IH, H.
Qed.

Lemma find_attr_app (key : string) (pre rest : list attribute) :
  find_attr key pre = None ->
  find_attr key (pre ++ rest) = find_attr key rest.
Proof.
  induction pre as [|a pre IH]; simpl; [reflexivity|].
  destruct (String.eqb (attr_name a) key); [discriminate | exact IH].
Qed.

Lemma find_attr_snoc (key : string) (pre : list attribute) (a : attribute) :
  find_attr key pre = None -> attr_name a <> key ->
  find_attr key (pre ++ [a]) = None.
Proof.
  intros Hpre Hne. rewrite find_attr_app by exact Hpre. simpl.
  apply String.eqb_neq in Hne. rewrite Hne. reflexivity.
Qed.

(** The loop over the attributes, for any entry and from any position: its
    effect on the bulb is one of the three of [entry_effect]. *)
Lemma update_attr_effect (status : json) (pre rest : list attribute)
      (st : bulb_state) :
  _attributes (bulb st) = pre ++ rest ->
  (forall key, py_getitem status "type" = Return (JStr key) ->
               find_attr key pre = None) ->
  entry_effect status st (snd (update_attr status (List.length pre) rest st)).
Proof.
  revert pre. induction rest as [|a rest IH]; intros pre Hattrs Hpre; simpl.
  - constructor.
  - unfold bind at 1. unfold lift at 1.
    destruct (py_getitem status "type") as [ty|e] eqn:Hty; [|constructor].
    destruct (json_eq_str ty (attr_name a)) eqn:Heq.
    + apply json_eq_str_true in Heq. subst ty.
      assert (Hfound : find_attr (attr_name a) (_attributes (bulb st)) <> None).
      { rewrite Hattrs, find_attr_app by (apply Hpre; reflexivity).
        simpl. rewrite String.eqb_refl. discriminate. }
      assert (Hstore : forall v,
                 pre ++ {| attr_name := attr_name a; attr_value := v |} :: rest
                 = store_first (attr_name a) v (_attributes (bulb st))).
      { intros v. rewrite Hattrs, store_first_app by (apply Hpre; reflexivity).
        simpl. rewrite String.eqb_refl. reflexivity. }
      unfold bind at 1. unfold lift at 1.
      destruct (py_getitem status "value") as [v|e] eqn:Hv; [|constructor].
      unfold bind at 1. unfold modify at 1.
      rewrite (set_value_stored pre rest a v st Hattrs), Hstore.
      unfold bind at 1. unfold read_callback. unfold bind at 1. unfold get at 1.
      cbn [bulb stored with_attributes _attribute_update_callback].
      destruct (_attribute_update_callback (bulb st)) as [|[|]] eqn:Hcb;
        cbn [raise ret]; try (eapply effect_stored; eauto; fail).
      unfold bind at 1. unfold get at 1. unfold bind at 1. unfold lift at 1.
      destruct (py_hasattr _ _) as [[|]|e] eqn:Hhas;
        try (eapply effect_stored; eauto; fail).
      unfold bind at 1. unfold lift at 1.
      destruct (py_getattr _ _) as [pv|e] eqn:Hget;
        [|eapply effect_stored; eauto].
      unfold modify. cbn [snd]. eapply effect_notified; eauto.
    + specialize (IH (pre ++ [a])). rewrite List.length_app in IH. simpl in IH.
      replace (List.length pre + 1)%nat with (S (List.length pre)) in IH by lia.
      apply IH; [rewrite <- app_assoc; exact Hattrs|].
      intros key Hkey. apply find_attr_snoc; [apply Hpre, Hkey|].
      intros Hname. injection Hkey as ->.
      rewrite Hname in Heq. simpl in Heq. rewrite String.eqb_refl in Heq.
      discriminate.
Qed.

Lemma update_entry_effect (status : json) (st : bulb_state) :
  entry_effect status st (snd (update_entry status st)).
Proof.
  unfold update_entry. unfold bind at 1. unfold lift at 1.
  destruct (py_in "type" status) as [[|]|e]; cbn [negb]; try constructor.
  unfold bind at 1. unfold lift at 1.
  destruct (py_in "dn" status) as [[|]|e]; cbn [negb]; try constructor.
  unfold bind at 1. unfold lift at 1.
  destruct (py_getitem status "dn") as [dn|e]; try constructor.
  unfold bind at 1. unfold get at 1.
  destruct (negb _); [constructor|].
  apply (update_attr_effect status [] (_attributes (bulb st)) st);
    [reflexivity | reflexivity].
Qed.

Lemma entry_effect_shape (status : json) (st st' : bulb_state) :
  entry_effect status st st' ->
  same_shape (bulb st) (bulb st') /\
  exists calls, new_calls st st' calls /\ (List.length calls <= 1)%nat.
Proof.
  unfold same_shape, new_calls.
  destruct 1; simpl; rewrite ?store_first_names;
    (split; [repeat split | ]).
  - exists []. rewrite app_nil_r. split; [reflexivity | simpl; lia].
  - exists []. rewrite app_nil_r. split; [reflexivity | simpl; lia].
  - eexists [_]. split; [reflexivity | simpl; lia].
Qed.

Lemma entry_effect_frame (status : json) (st st' : bulb_state) (other : string) :
  entry_effect status st st' ->
  py_getitem status "type" <> Return (JStr other) ->
  find_attr other (_attributes (bulb st')) = find_attr other (_attributes (bulb st)).
Proof.
  destruct 1 as [ | key v Hty _ _ | key v pv Hty _ _ _ ]; simpl; intros Hother;
    [reflexivity | | ];
    apply find_attr_store_other; congruence.
Qed.

Lemma same_shape_trans (a b c : SengledBulb) :
  same_shape a b -> same_shape b c -> same_shape a c.
Proof. unfold same_shape. intuition congruence. Qed.

Lemma for_each_entries_shape (entries : list json) (st : bulb_state) :
  let st' := snd (for_each update_entry entries st) in
  same_shape (bulb st) (bulb st') /\
  exists calls, new_calls st st' calls /\
                (List.length calls <= List.length entries)%nat.
Proof.
  revert st. induction entries as [|entry entries IH]; intros st; simpl.
  - split; [unfold same_shape; repeat split|].
    exists []. unfold new_calls. rewrite app_nil_r. split; [reflexivity | simpl; lia].
  - pose proof (entry_effect_shape _ _ _ (update_entry_effect entry st))
      as (Hshape & calls & Hcalls & Hlen).
    unfold bind. destruct (update_entry entry st) as [[[]|e] st1]; simpl in *.
    + destruct (IH st1) as (Hshape' & calls' & Hcalls' & Hlen').
      split; [eapply same_shape_trans; eauto|].
      exists (calls ++ calls'). unfold new_calls in *.
      rewrite Hcalls', Hcalls, app_assoc, List.length_app.
      split; [reflexivity | lia].
    + split; [exact Hshape|]. exists calls. split; [exact Hcalls | lia].
Qed.

(** X1.  The handler, whatever the message and whether it returns or raises, keeps
    the bulb's identity, its observer and the names and order of its
    attributes, and calls the observer at most once per entry of the
    message. *)
Theorem status_message_keeps_shape (E : environment) (message : string)
        (st : bulb_state) :
  let st' := snd (_update_status E message st) in
  same_shape (bulb st) (bulb st') /\
  exists calls,
    new_calls st st' calls /\
    forall data entries,
      json_loads E message = Some data ->
      py_iter data = Return entries ->
      (List.length calls <= List.length entries)%nat.
Proof.
  unfold _update_status.
  assert (Hsame : same_shape (bulb st) (bulb st) /\
                  exists calls, new_calls st st calls /\
                    forall data entries : list json,
                      (List.length calls <= List.length entries)%nat).
  { split; [unfold same_shape; repeat split|]. exists []. unfold new_calls.
    rewrite app_nil_r. split; [reflexivity | intros; simpl; lia]. }
  destruct (json_loads E message) as [data|].
  - unfold bind. unfold lift at 1.
    destruct (py_iter data) as [entries|e] eqn:Hiter.
    + destruct (for_each_entries_shape entries st) as (Hshape & calls & Hcalls & Hlen).
      split; [exact Hshape|]. exists calls. split; [exact Hcalls|].
      intros data' entries' Hd He. injection Hd as <-. rewrite Hiter in He.
      injection He as <-. exact Hlen.
    + simpl. destruct Hsame as (Hshape & calls & Hcalls & Hlen).
      split; [exact Hshape|]. exists calls. split; [exact Hcalls|].
      intros data' entries' Hd He. injection Hd as <-. rewrite Hiter in He.
      discriminate He.
  - simpl. destruct Hsame as (Hshape & calls & Hcalls & Hlen).
    split; [exact Hshape|]. exists calls. split; [exact Hcalls|]. intros ? ? [=].
Qed.

(** X2.  A status message changes only the attributes its entries name: the first
    entry of any other name in the store, hence what the accessor of that name
    returns, is the same before and after, whether the handler returns or
    raises. *)
Theorem status_message_leaves_other_attributes (E : environment) (message : string)
        (st : bulb_state) (other : string) :
  not_named_by E message other ->
  find_attr other (_attributes (bulb (snd (_update_status E message st)))) =
  find_attr other (_attributes (bulb st)).
Proof.
  unfold not_named_by, _update_status. intros Hnot.
  destruct (json_loads E message) as [data|]; [|reflexivity].
  unfold bind. unfold lift at 1.
  destruct (py_iter data) as [entries|e] eqn:Hiter; [|reflexivity].
  specialize (Hnot data entries eq_refl Hiter).
  clear Hiter. revert st.
  induction Hnot as [|entry entries Hentry _ IH]; intros st; [reflexivity|].
  simpl. unfold bind.
  pose proof (entry_effect_frame entry st _ other (update_entry_effect entry st) Hentry)
    as Hstep.
  destruct (update_entry entry st) as [[[]|e] st1]; simpl in *.
  - rewrite IH. exact Hstep.
  - exact Hstep.
Qed.

Lemma status_message_leaves_other_attributes_witness :
  let E := example_environment (fun _ => None) (fun _ => 0) example_loads in
  let st := {| bulb := set_attribute_update_callback true example_bulb;
               notified := [] |} in
  brightness (bulb (snd (_update_status E message_switch_on st))) = Return 40.
Proof.
  intros E st. unfold brightness, int_attr.
  rewrite (status_message_leaves_other_attributes E message_switch_on st "brightness").
  - reflexivity.
  - intros data entries [= <-] [= <-]. repeat constructor. discriminate.
Defined.

(** The inner loop on an entry with a value, for a bulb whose observer was
    assigned: a callable is called as [observed] tells, anything false is left
    alone. *)
Lemma update_attr_observed (members : list (string * json)) (key : string) (v : json)
      (callable : bool) (pre rest : list attribute) (st : bulb_state) :
  obj_lookup "type" members = Some (JStr key) ->
  obj_lookup "value" members = Some v ->
  _attribute_update_callback (bulb st) = SetTo callable ->
  _attributes (bulb st) = pre ++ rest ->
  find_attr key rest <> None ->
  update_attr (JObj members) (List.length pre) rest st =
  if callable
  then observed (_attribute_to_property key)
                (stored (pre ++ store_first key v rest) st)
  else (Return tt, stored (pre ++ store_first key v rest) st).
Proof.
  intros Hty Hv Hcb. revert pre.
  induction rest as [|a rest IH]; intros pre Hattrs Hfind; simpl in *; [congruence|].
  unfold bind at 1. unfold lift at 1. cbn [py_getitem]. rewrite Hty.
  cbn [json_eq_str]. rewrite String.eqb_sym.
  destruct (String.eqb_spec (attr_name a) key) as [Hname | Hne].
  - unfold bind at 1. unfold lift at 1. cbn [py_getitem]. rewrite Hv.
    unfold bind at 1. unfold modify at 1.
    rewrite (set_value_stored pre rest a v st Hattrs).
    unfold bind at 1. unfold read_callback. unfold bind at 1. unfold get at 1.
    cbn [bulb stored with_attributes _attribute_update_callback]. rewrite Hcb.
    unfold ret at 1. destruct callable; [|reflexivity].
    unfold bind at 1. unfold get at 1.
    unfold bind at 1. unfold lift at 1. unfold observed, py_hasattr. rewrite Hname.
    destruct (py_getattr _ _) as [pv|[]]; reflexivity.
  - specialize (IH (pre ++ [a])). rewrite List.length_app in IH. simpl in IH.
    replace (List.length pre + 1)%nat with (S (List.length pre)) in IH by lia.
    rewrite IH; [ | rewrite <- app_assoc; exact Hattrs | exact Hfind ].
    rewrite <- app_assoc. reflexivity.
Qed.

Lemma update_entry_observed (st : bulb_state) (members : list (string * json))
      (key : string) (v : json) (callable : bool) :
  _attribute_update_callback (bulb st) = SetTo callable ->
  addressed_entry (bulb st) members key ->
  obj_lookup "value" members = Some v ->
  update_entry (JObj members) st =
  let st1 := stored (store_first key v (_attributes (bulb st))) st in
  if callable then observed (_attribute_to_property key) st1 else (Return tt, st1).
Proof.
  intros Hcb Haddr Hv.
  rewrite (update_entry_addressed st members key Haddr).
  destruct Haddr as (Hty & _ & attr & Hfind).
  apply (update_attr_observed members key v callable [] (_attributes (bulb st)) st);
    [assumption | assumption | assumption | reflexivity | congruence].
Qed.











Lemma renamed_property_reads_elsewhere (self : SengledBulb) (key prop : string)
      (v : json) :
  In (key, prop) renamed_attributes ->
  _attribute_to_property key = prop /\
  py_getattr (with_attributes (store_first key v (_attributes self)) self) prop =
    py_getattr self prop /\
  exists pv, py_getattr self prop = Return pv.
Proof.
  unfold renamed_attributes. intros Hin.
  repeat (destruct Hin as [[= <- <-] | Hin];
          [ split; [reflexivity|];
            cbv [py_getattr properties find fst snd String.eqb Ascii.eqb Bool.eqb];
            unfold product_code, save_flag, start_time, support_attributes,
                   time_zone, type_code, str_attr, bool_attr;
            cbn [_attributes with_attributes _type_code];
            rewrite find_attr_store_other by discriminate;
            split; [reflexivity | eexists; reflexivity]
          | ]).
  destruct Hin.
Qed.

(** X6.  Six server names ([productCode], [saveFlag], [startTime],
    [supportAttributes], [timeZone], [typeCode]) are translated to a property
    that reads the snake-case name from the store.  An entry for one of them
    stores its value under the server's name, and the observer is called with
    the translated name and the value the property had before the entry: the
    value just stored is not what the observer receives. *)
Theorem status_renamed_attribute_notifies_old_value (st : bulb_state)
        (members : list (string * json)) (key prop : string) (v : json) :
  In (key, prop) renamed_attributes ->
  _attribute_update_callback (bulb st) = SetTo true ->
  addressed_entry (bulb st) members key ->
  obj_lookup "value" members = Some v ->
  exists pv,
    py_getattr (bulb st) prop = Return pv /\
    update_entry (JObj members) st =
    (Return tt, notify prop pv (stored (store_first key v (_attributes (bulb st))) st)).
Proof.
  intros Hin Hcb Haddr Hv.
  destruct (renamed_property_reads_elsewhere (bulb st) key prop v Hin)
    as (Hprop & Hsame & pv & Hpv).
  exists pv. split; [exact Hpv|].
  rewrite (update_entry_observed st members key v true Hcb Haddr Hv).
  cbn zeta. unfold observed. rewrite Hprop.
  cbn [bulb stored]. rewrite Hsame, Hpv. reflexivity.
Qed.

Lemma status_renamed_attribute_notifies_old_value_witness :
  let attrs := [ {| attr_name := "timeZone"; attr_value := JStr "UTC" |} ] in
  exists st',
    update_entry (JObj (entry_for "timeZone" (JStr "Europe/Paris"))) (observed_bulb attrs)
      = (Return tt, st') /\
    _attributes (bulb st') =
      [ {| attr_name := "timeZone"; attr_value := JStr "Europe/Paris" |} ] /\
    notified st' = [ ("time_zone", PyJson (JStr "")) ].
Proof.
  intros attrs.
  destruct (status_renamed_attribute_notifies_old_value (observed_bulb attrs)
              (entry_for "timeZone" (JStr "Europe/Paris")) "timeZone" "time_zone"
              (JStr "Europe/Paris")) as (pv & Hpv & Hrun).
  - do 4 right. left. reflexivity.
  - reflexivity.
  - split; [reflexivity | split; [reflexivity | eexists; reflexivity]].
  - reflexivity.
  - injection Hpv as <-. eexists. split; [exact Hrun|]. split; reflexivity.
Defined.

(** ** Commands and the publish channel *)

Lemma publish_without_client (E : environment) (topic payload : string) (w : world) :
  _mqtt_client (client w) = None ->
  _publish_mqtt E topic payload w = (Return result_False, w).
Proof.
  intros Hm. unfold _publish_mqtt, this. run. rewrite Hm. reflexivity.
Qed.

Lemma publish_with_client (E : environment) (topic payload : string) (w : world)
      (m : MqttClient) :
  _mqtt_client (client w) = Some m ->
  _publish_mqtt E topic payload w =
  (publish_outcome (mqtt_publish_info E (calls m) topic payload),
   with_calls [publish topic payload] m w).
Proof.
  intros Hm. unfold _publish_mqtt, update, this, publish_outcome. run. rewrite Hm. simpl.
  destruct (mqtt_publish_info E (calls m) topic payload) as [[[[]|e]]|e];
    [reflexivity | destruct e; reflexivity | reflexivity].
Qed.

Lemma commands_offline (E : environment) (self : SengledBulb) (w : world) :
  _mqtt_client (client w) = None ->
  (forall on, toggle E self on w = (Return result_False, ticked w)) /\
  (forall level, set_brightness E self level w = (Return result_False, ticked w)).
Proof.
  intros Hm. split; intros x.
  - unfold toggle. unfold bind, now_ms. fold (ticked w).
    apply publish_without_client. exact Hm.
  - unfold set_brightness. unfold bind, now_ms. fold (ticked w).
    apply publish_without_client. exact Hm.
Qed.

(** X7.  A command given before any MQTT client exists publishes nothing and
    returns [False] without raising: [toggle] and [set_brightness] only read
    the clock. *)
Theorem commands_without_client_return_false (E : environment) (self : SengledBulb)
        (w : world) :
  _mqtt_client (client w) = None ->
  (forall on, toggle E self on w = (Return result_False, ticked w)) /\
  (forall level, set_brightness E self level w = (Return result_False, ticked w)).
Proof.
  apply commands_offline.
Qed.

Lemma commands_without_client_return_false_witness :
  let E := example_environment (fun _ => None) (fun _ => 0) example_loads in
  let w := world_of offline_client in
  toggle E example_bulb true w = (Return result_False, ticked w) /\
  set_brightness E example_bulb 55 w = (Return result_False, ticked w).
Proof.
  intros E w.
  destruct (commands_without_client_return_false E example_bulb w eq_refl) as [Ht Hb].
  split; [apply Ht | apply Hb].
Defined.

(** X8.  With an MQTT client in place, [toggle] calls [publish] once, on the
    bulb's update topic, with a command for this bulb of type ["switch"] whose
    value is ["1"] to switch on and ["0"] to switch off, stamped with the
    clock, and makes no other call.  When the wait for the publication
    returns, [toggle] returns the bound method [is_published], which is true
    in a test whether or not the message was delivered; it returns [False]
    only when the wait raises [ValueError]; every other exception of the wait
    ([RuntimeError] for a failed publication) and every exception of
    [publish] itself leaves [toggle]. *)
Theorem toggle_publishes_switch (E : environment) (self : SengledBulb) (on : bool)
        (w : world) (m : MqttClient) :
  _mqtt_client (client w) = Some m ->
  exists data,
    let topic := update_topic (uuid self) in
    let answer := mqtt_publish_info E (calls m) topic (json_dumps E data) in
    snd (toggle E self on w) =
      with_calls [publish topic (json_dumps E data)] m (ticked w) /\
    py_getitem data "dn" = Return (JStr (uuid self)) /\
    py_getitem data "type" = Return (JStr "switch") /\
    py_getitem data "value" = Return (JStr (if on then "1" else "0")) /\
    py_getitem data "time" = Return (JInt (time_ms E (clock_reads w))) /\
    (forall info,
       answer = Return info ->
       (wait_for_publish info = Return tt ->
        fst (toggle E self on w) = Return result_is_published) /\
       (wait_for_publish info = Raise ValueError ->
        fst (toggle E self on w) = Return result_False) /\
       (forall e, wait_for_publish info = Raise e -> e <> ValueError ->
                  fst (toggle E self on w) = Raise e)) /\
    (forall e, answer = Raise e -> fst (toggle E self on w) = Raise e).
Proof.
  intros Hm.
  exists (JObj [ ("dn", JStr (uuid self));
                 ("type", JStr "switch");
                 ("value", JStr (if on then "1" else "0"));
                 ("time", JInt (time_ms E (clock_reads w))) ]).
  cbn zeta.
  assert (Hrun : toggle E self on w =
                 (publish_outcome
                    (mqtt_publish_info E (calls m) (update_topic (uuid self))
                       (json_dumps E (JObj [ ("dn", JStr (uuid self));
                                             ("type", JStr "switch");
                                             ("value", JStr (if on then "1" else "0"));
                                             ("time", JInt (time_ms E (clock_reads w))) ]))),
                  with_calls [publish (update_topic (uuid self))
                                (json_dumps E (JObj [ ("dn", JStr (uuid self));
                                             ("type", JStr "switch");
                                             ("value", JStr (if on then "1" else "0"));
                                             ("time", JInt (time_ms E (clock_reads w))) ]))]
                             m (ticked w))).
  { unfold toggle. unfold bind, now_ms. fold (ticked w).
    apply (publish_with_client E _ _ (ticked w) m Hm). }
  rewrite Hrun. cbn [fst snd].
  split; [reflexivity|]. do 4 (split; [reflexivity|]).
  split.
  - intros info ->. unfold publish_outcome. split; [intros ->; reflexivity|].
    split; [intros ->; reflexivity|].
    intros e -> Hne. destruct e; [contradiction | reflexivity ..].
  - intros e ->. reflexivity.
Qed.

Lemma toggle_publishes_switch_witness :
  let w := world_of (connected_client ∅) in
  (let E := example_environment (fun _ => None) (fun _ => 0) example_loads in
   exists data,
     fst (toggle E example_bulb false w) = Return result_is_published /\
     py_getitem data "value" = Return (JStr "0") /\
     (calls <$> _mqtt_client (client (snd (toggle E example_bulb false w)))) =
       Some [publish "wifielement/B0CE1814039A/update" (json_dumps E data)]) /\
  (let E := broker_environment refuses_wildcards
              (fun _ => Return {| wait_for_publish := Raise RuntimeError |})
              (fun _ => None) in
   fst (toggle E example_bulb true w) = Raise RuntimeError).
Proof.
  intros w. split; intros E.
  - destruct (toggle_publishes_switch E example_bulb false w
                {| client_id := "0123456789ABCDEF@lifeApp"; calls := [] |} eq_refl)
      as (data & Hstate & _ & _ & Hvalue & _ & Hwait & _).
    exists data. split.
    + destruct (Hwait {| wait_for_publish := Return tt |} eq_refl) as [H _].
      apply H. reflexivity.
    + split; [exact Hvalue|]. rewrite Hstate. reflexivity.
  - destruct (toggle_publishes_switch E example_bulb true w
                {| client_id := "0123456789ABCDEF@lifeApp"; calls := [] |} eq_refl)
      as (data & _ & _ & _ & _ & _ & Hwait & _).
    destruct (Hwait {| wait_for_publish := Raise RuntimeError |} eq_refl)
      as (_ & _ & H).
    apply H; [reflexivity | discriminate].
Defined.

(** ** Unsubscribing *)

Lemma unsubscribe_runs (topic : string) (callback : handler) (w : world) :
  _unsubscribe_mqtt topic callback w =
  (Return tt, on_client (set_subscribed (delete topic (_subscribed (client w)))) w).
Proof.
  unfold _unsubscribe_mqtt, update, this. run.
  destruct (bool_decide_reflect (is_Some (_subscribed (client w) !! topic)))
    as [Hsome | Hnone]; [reflexivity|].
  rewrite delete_id by (apply eq_None_not_Some, Hnone).
  destruct w as [[] ? ?]; reflexivity.
Qed.

(** X9.  [_unsubscribe_mqtt] only forgets: the registry loses the topic and keeps
    every other entry, whatever callback is passed, and no call is made on the
    MQTT client, so the broker is never told.  After a subscription of a new
    topic that the broker accepted, unsubscribing gives the registry back as
    it was, while the broker keeps the subscription; and a reconnection after
    that (one that the broker takes back, with a registry of topics the
    library takes) does not subscribe the topic again. *)
Theorem unsubscribe_only_forgets (E : environment) (topic : string)
        (callback : handler) (w : world) :
  (exists w',
     _unsubscribe_mqtt topic callback w = (Return tt, w') /\
     _subscribed (client w') !! topic = None /\
     (forall other, other <> topic ->
        _subscribed (client w') !! other = _subscribed (client w) !! other) /\
     _mqtt_client (client w') = _mqtt_client (client w)) /\
  (forall m,
     _mqtt_client (client w) = Some m ->
     _subscribed (client w) !! topic = None ->
     mqtt_subscribe_rc E (calls m) topic = Return MQTT_ERR_SUCCESS ->
     exists w1 w2,
       _subscribe_mqtt E topic callback w = (Return true, w1) /\
       _unsubscribe_mqtt topic callback w1 = (Return tt, w2) /\
       _subscribed (client w2) = _subscribed (client w) /\
       w2 = with_calls [subscribe topic] m w /\
       (token_set (_jsession_id (client w)) = true ->
        mqtt_connect_ok E (calls m ++ subscribe topic :: take 3 (reconnect_calls (client w)))
          = true ->
        accepts_registry E w ->
        exists w3 m3,
          _reinitialize_mqtt E w2 = (Return true, w3) /\
          _mqtt_client (client w3) = Some m3 /\
          subscriptions_of topic (calls m3) = S (subscriptions_of topic (calls m)))).
Proof.
  split.
  - eexists. split; [apply unsubscribe_runs|]. simpl.
    split; [apply lookup_delete_eq|]. split; [|reflexivity].
    intros other Hne. apply lookup_delete_ne. congruence.
  - intros m Hm Hfresh Hrc.
    assert (Hback : on_client (set_subscribed
                       (delete topic (<[topic := callback]> (_subscribed (client w)))))
                      (on_client (fun c => set_subscribed
                                    (<[topic := callback]> (_subscribed c)) c)
                         (on_client (set_mqtt_client
                                       (Some (mqtt_do (subscribe topic) m))) w))
                    = with_calls [subscribe topic] m w).
    { rewrite (delete_insert_id _ _ _ Hfresh).
      unfold with_calls, mqtt_do. destruct w as [[] ? ?]; reflexivity. }
    eexists _, (with_calls [subscribe topic] m w).
    split; [apply (subscribe_accepted E _ _ _ m Hm Hrc)|].
    split; [rewrite unsubscribe_runs;
            cbn [client on_client set_subscribed set_mqtt_client _subscribed];
            rewrite Hback; reflexivity|].
    split; [reflexivity|]. split; [reflexivity|].
    intros Htok Hok Hacc.
    set (m1 := {| client_id := client_id m; calls := calls m ++ [subscribe topic] |}).
    eexists _, _.
    split; [apply (reinitialize_runs E (with_calls [subscribe topic] m w) m1);
            [reflexivity | exact Htok | | exact Hacc]|].
    { cbn [calls m1]. rewrite <- app_assoc. exact Hok. }
    split; [reflexivity|].
    cbn [calls m1 client with_calls on_client set_mqtt_client _subscribed].
    rewrite !subscriptions_of_app.
    assert (Hnone : subscriptions_of topic
                      (map subscribe (map fst (map_to_list (_subscribed (client w))))) = 0%nat).
    { unfold subscriptions_of.
      assert (Hnot : topic ∉ map fst (map_to_list (_subscribed (client w)))).
      { intros Hin. apply list_elem_of_fmap in Hin as ([t cb] & -> & Hin).
        apply elem_of_map_to_list in Hin. simpl in Hfresh. congruence. }
      induction (map fst (map_to_list (_subscribed (client w)))) as [|k keys IH];
        [reflexivity|].
      simpl. destruct (String.eqb_spec k topic) as [-> | Hne].
      - exfalso. apply Hnot. left.
      - apply IH. intros H. apply Hnot. right. exact H. }
    rewrite Hnone. unfold subscriptions_of at 2 3. simpl.
    rewrite String.eqb_refl. simpl. lia.
Qed.

(** ** What the operations keep *)

Lemma steady_refl (w : world) : steady w w.
Proof.
  unfold steady. repeat split; try reflexivity.
  - auto.
  - intros m Hm. exists []. rewrite app_nil_r, Hm. destruct m; reflexivity.
  - exists []. rewrite app_nil_r. reflexivity.
  - exists []. rewrite app_nil_r. reflexivity.
Qed.

Lemma steady_trans (w1 w2 w3 : world) : steady w1 w2 -> steady w2 w3 -> steady w1 w3.
Proof.
  unfold steady.
  intros (Hi & Hu & Hp & Ht & Hn & Hm & [a Ha] & [r Hr])
         (Hi' & Hu' & Hp' & Ht' & Hn' & Hm' & [a' Ha'] & [r' Hr']).
  repeat split; try congruence.
  - auto.
  - intros m H1. destruct (Hm m H1) as [l Hl].
    destruct (Hm' _ Hl) as [l' Hl']. exists (l ++ l').
    rewrite Hl'. simpl. rewrite app_assoc. reflexivity.
  - exists (a ++ a'). rewrite Ha', Ha, app_assoc. reflexivity.
  - exists (r ++ r'). rewrite Hr', Hr, app_assoc. reflexivity.
Qed.

Section Preserves.

Variable R : world -> world -> Prop.
Hypothesis R_refl : forall w, R w w.
Hypothesis R_trans : forall w1 w2 w3, R w1 w2 -> R w2 w3 -> R w1 w3.

Lemma preserves_ret {A} (a : A) : preserves R (ret a).
Proof. intros w. apply R_refl. Qed.

Lemma preserves_raise {A} (e : exn) : preserves R (@raise world A e).
Proof. intros w. apply R_refl. Qed.

Lemma preserves_lift {A} (o : outcome A) : preserves R (lift o).
Proof. intros w. apply R_refl. Qed.

Lemma preserves_this : preserves R this.
Proof. intros w. apply R_refl. Qed.

Lemma preserves_bind {A B} (m : M world A) (k : A -> M world B) :
  preserves R m -> (forall a, preserves R (k a)) -> preserves R (bind m k).
Proof.
  intros Hm Hk w. unfold bind. specialize (Hm w).
  destruct (m w) as [[a|e] w1]; simpl in *; [|exact Hm].
  eapply R_trans; [exact Hm | apply Hk].
Qed.

Lemma preserves_for_each {A} (body : A -> M world unit) (l : list A) :
  (forall x, preserves R (body x)) -> preserves R (for_each body l).
Proof.
  intros Hbody. induction l as [|x l IH]; simpl.
  - apply preserves_ret.
  - apply preserves_bind; [apply Hbody | intros _; exact IH].
Qed.

Lemma preserves_if {A} (b : bool) (m1 m2 : M world A) :
  preserves R m1 -> preserves R m2 -> preserves R (if b then m1 else m2).
Proof. destruct b; auto. Qed.

End Preserves.

Ltac steady_frame :=
  unfold steady; cbn;
  repeat match goal with
         | |- _ /\ _ => split
         | |- _ = _ => reflexivity
         | |- _ -> _ => intro
         | |- exists l, ?x = ?x ++ l => exists []; rewrite app_nil_r; reflexivity
         | H : ?x = Some ?m |- exists l, ?x = Some _ =>
             exists []; rewrite app_nil_r, H; destruct m; reflexivity
         | H : ?x = None |- ?x = None => exact H
         end.

Lemma steady_sent (req : http_request) (w : world) : steady w (sent req w).
Proof. steady_frame. exists [req]. reflexivity. Qed.

Lemma steady_ticked (w : world) : steady w (ticked w).
Proof. steady_frame. Qed.

Lemma steady_set_subscribed (f : SengledClient -> gmap string handler) (w : world) :
  steady w (on_client (fun c => set_subscribed (f c) c) w).
Proof. steady_frame. Qed.

Lemma steady_set_server (f : SengledClient -> mqtt_server) (w : world) :
  steady w (on_client (fun c => set_mqtt_server (f c) c) w).
Proof. steady_frame. Qed.

Lemma steady_add_device (self : SengledBulb) (w : world) :
  steady w (on_client (fun c => set_devices (_devices c ++ [self]) c) w).
Proof. steady_frame. exists [self]. reflexivity. Qed.

Lemma steady_with_calls (l : list mqtt_call) (m : MqttClient) (w : world) :
  _mqtt_client (client w) = Some m -> steady w (with_calls l m w).
Proof.
  intros Hm. unfold steady, with_calls. cbn.
  repeat split; try reflexivity.
  - congruence.
  - intros m' Hm'. rewrite Hm in Hm'. injection Hm' as <-. exists l. reflexivity.
  - exists []. rewrite app_nil_r. reflexivity.
  - exists []. rewrite app_nil_r. reflexivity.
Qed.

Lemma steady_mqtt_call (call : mqtt_call) (w : world) :
  steady w (on_client (fun c => set_mqtt_client (mqtt_do call <$> _mqtt_client c) c) w).
Proof.
  destruct (_mqtt_client (client w)) as [m|] eqn:Hm.
  - replace (on_client _ w) with (with_calls [call] m w);
      [apply steady_with_calls, Hm|].
    unfold with_calls, on_client, mqtt_do. rewrite Hm. reflexivity.
  - unfold steady. cbn. rewrite Hm. cbn.
    repeat split; try reflexivity; try discriminate.
    + exists []. rewrite app_nil_r. reflexivity.
    + exists []. rewrite app_nil_r. reflexivity.
Qed.

Section Steady_operations.

Variable E : environment.

Lemma keeps_bind {A B} (m : M world A) (k : A -> M world B) :
  preserves steady m -> (forall a, preserves steady (k a)) ->
  preserves steady (bind m k).
Proof. apply preserves_bind. exact steady_trans. Qed.

Lemma keeps_ret {A} (a : A) : preserves steady (@ret world A a).
Proof. apply preserves_ret, steady_refl. Qed.

Lemma keeps_post (req : http_request) : preserves steady (post E req).
Proof.
  intros w. unfold post. destruct (requests_post E (http_log w) req);
    apply steady_sent.
Qed.

Lemma keeps_response_json (r : http_response) : preserves steady (response_json r).
Proof. intros w. unfold response_json. destruct (resp_body r); apply steady_refl. Qed.

Lemma keeps_now_ms : preserves steady (now_ms E).
Proof. intros w. apply steady_ticked. Qed.

Lemma keeps_mqtt (call : mqtt_call) : preserves steady (mqtt call).
Proof. intros w. apply steady_mqtt_call. Qed.

Lemma keeps_mqtt_open (call : mqtt_call) : preserves steady (mqtt_open E call).
Proof.
  unfold mqtt_open. apply keeps_bind; [apply preserves_this, steady_refl|].
  intros c. destruct (_mqtt_client c) as [m|]; [|apply preserves_raise, steady_refl].
  apply keeps_bind; [apply keeps_mqtt|].
  intros _. apply preserves_lift, steady_refl.
Qed.

Lemma keeps_subscribe (topic : string) (callback : handler) :
  preserves steady (_subscribe_mqtt E topic callback).
Proof.
  intros w.
  destruct (subscribe_cases E topic callback w)
    as [[Hm ->] | (m & Hm & [[_ ->] | [(rc & _ & _ & ->) | (e & _ & ->)]])];
    cbn [snd].
  - apply steady_refl.
  - eapply steady_trans; [|apply steady_set_subscribed].
    apply (steady_with_calls [subscribe topic] m w Hm).
  - apply (steady_with_calls [subscribe topic] m w Hm).
  - apply (steady_with_calls [subscribe topic] m w Hm).
Qed.

Lemma keeps_unsubscribe (topic : string) (callback : handler) :
  preserves steady (_unsubscribe_mqtt topic callback).
Proof.
  intros w. rewrite unsubscribe_runs. cbn [snd].
  apply (steady_set_subscribed (fun _ => delete topic (_subscribed (client w)))).
Qed.

Lemma keeps_publish (topic payload : string) :
  preserves steady (_publish_mqtt E topic payload).
Proof.
  intros w. destruct (_mqtt_client (client w)) as [m|] eqn:Hm.
  - rewrite (publish_with_client E _ _ _ m Hm). apply steady_with_calls, Hm.
  - rewrite (publish_without_client E _ _ _ Hm). apply steady_refl.
Qed.

Lemma keeps_new_bulb (info : device_info) : preserves steady (new_bulb E info).
Proof.
  unfold new_bulb. apply keeps_bind; [apply keeps_subscribe|].
  intros _. apply keeps_ret.
Qed.

Lemma keeps_toggle (self : SengledBulb) (on : bool) :
  preserves steady (toggle E self on).
Proof.
  unfold toggle. apply keeps_bind; [apply keeps_now_ms|].
  intros t. apply keeps_publish.
Qed.

Lemma keeps_set_brightness (self : SengledBulb) (level : Z) :
  preserves steady (set_brightness E self level).
Proof.
  unfold set_brightness. apply keeps_bind; [apply keeps_now_ms|].
  intros t. apply keeps_publish.
Qed.

Lemma keeps_is_session_timeout : preserves steady (_is_session_timeout E).
Proof.
  unfold _is_session_timeout.
  apply keeps_bind; [apply preserves_this, steady_refl|]. intros c.
  destruct (negb (token_set _)); [apply keeps_ret|].
  apply keeps_bind; [apply keeps_post|]. intros r.
  destruct (negb _); [apply keeps_ret|].
  apply keeps_bind; [apply keeps_response_json|]. intros data.
  destruct (body_info data) as [info|]; [|apply keeps_ret].
  destruct (negb _); apply keeps_ret.
Qed.

Lemma keeps_update_server (f : SengledClient -> mqtt_server) :
  preserves steady (update (fun c => set_mqtt_server (f c) c)).
Proof. intros w. apply steady_set_server. Qed.

Lemma keeps_get_server_info : preserves steady (_get_server_info E).
Proof.
  unfold _get_server_info.
  apply keeps_bind; [apply preserves_this, steady_refl|]. intros c.
  destruct (negb (token_set _)); [apply keeps_ret|].
  apply keeps_bind; [apply keeps_post|]. intros r.
  destruct (negb _); [apply keeps_ret|].
  apply keeps_bind; [apply keeps_response_json|]. intros data.
  destruct (body_inceptionAddr data) as [addr|]; [|apply keeps_ret].
  destruct (String.eqb addr ""); [apply keeps_ret|].
  destruct (urlparse E addr) as [url|]; [|apply preserves_raise, steady_refl].
  destruct (str_contains _ _).
  - apply keeps_bind; [apply keeps_update_server|]. intros _.
    apply keeps_bind; [apply preserves_lift, steady_refl|]. intros p.
    apply keeps_bind; [apply keeps_update_server|]. intros _.
    apply keeps_update_server.
  - apply keeps_bind; [apply keeps_update_server|]. intros _.
    apply keeps_bind; [apply keeps_update_server|]. intros _.
    apply keeps_update_server.
Qed.

Lemma keeps_get_devices (force_update : bool) :
  preserves steady (get_devices E force_update).
Proof.
  unfold get_devices.
  apply keeps_bind; [apply preserves_this, steady_refl|]. intros c.
  destruct (negb (token_set _)); [apply keeps_ret|].
  destruct (_ && _); [apply keeps_ret|].
  apply keeps_bind; [apply keeps_post|]. intros r.
  destruct (negb _); [apply keeps_ret|].
  apply keeps_bind; [apply keeps_response_json|]. intros data.
  destruct (body_deviceList data) as [[|d deviceList]|]; try apply keeps_ret.
  apply keeps_bind.
  - apply preserves_for_each; [exact steady_refl | exact steady_trans|].
    intros x. apply keeps_bind; [apply preserves_this, steady_refl|]. intros c'.
    destruct (negb _); [|apply keeps_ret].
    apply keeps_bind; [apply keeps_new_bulb|]. intros self.
    intros w. apply steady_add_device.
  - intros _. apply keeps_bind; [apply preserves_this, steady_refl|].
    intros c'. apply keeps_ret.
Qed.

Lemma keeps_reinitialize : preserves steady (_reinitialize_mqtt E).
Proof.
  unfold _reinitialize_mqtt.
  apply keeps_bind; [apply preserves_this, steady_refl|]. intros c.
  destruct (_ || _); [apply keeps_ret|].
  repeat (apply keeps_bind; [first [apply keeps_mqtt | apply keeps_mqtt_open]|];
          intros _).
  apply keeps_bind; [|intros _; apply keeps_ret].
  unfold resubscribe_all.
  apply keeps_bind; [apply preserves_this, steady_refl|]. intros c'.
  apply preserves_for_each; [exact steady_refl | exact steady_trans|].
  intros topic. apply keeps_bind; [apply preserves_this, steady_refl|]. intros c''.
  destruct (_ !! _); [|apply preserves_raise, steady_refl].
  apply keeps_bind; [apply keeps_subscribe|]. intros _. apply keeps_ret.
Qed.

End Steady_operations.

(** X10.  The operations of the client other than [login] and [_initialize_mqtt],
    whether they return or raise, keep the credentials and the session token,
    never create or replace the MQTT client object (an existing one keeps its
    client identifier and its past calls), never remove a cached bulb, and
    never erase a request from the record of those sent. *)
Theorem operations_are_steady (E : environment) :
  (forall force_update, preserves steady (get_devices E force_update)) /\
  preserves steady (_get_server_info E) /\
  preserves steady (_is_session_timeout E) /\
  preserves steady (_reinitialize_mqtt E) /\
  (forall topic callback, preserves steady (_subscribe_mqtt E topic callback)) /\
  (forall topic callback, preserves steady (_unsubscribe_mqtt topic callback)) /\
  (forall topic payload, preserves steady (_publish_mqtt E topic payload)) /\
  (forall self on, preserves steady (toggle E self on)) /\
  (forall self level, preserves steady (set_brightness E self level)).
Proof.
  split; [intros f; apply keeps_get_devices|].
  split; [apply keeps_get_server_info|].
  split; [apply keeps_is_session_timeout|].
  split; [apply keeps_reinitialize|].
  split; [intros; apply keeps_subscribe|].
  split; [intros; apply keeps_unsubscribe|].
  split; [intros; apply keeps_publish|].
  split; [intros; apply keeps_toggle | intros; apply keeps_set_brightness].
Qed.

(** ** Opening the MQTT connection *)

Lemma initialize_runs (E : environment) (w : world) :
  token_set (_jsession_id (client w)) = true ->
  let answer := mqtt_connect E (take 3 (connect_calls (client w))) in
  _initialize_mqtt E w =
  (match answer with Return _ => Return true | Raise e => Raise e end,
   on_client
     (set_mqtt_client
        (Some {| client_id := format_token (_jsession_id (client w)) ++ "@lifeApp";
                 calls := connect_calls (client w)
                          ++ (match answer with
                              | Return _ => [loop_start]
                              | Raise _ => []
                              end) |})) w).
Proof.
  intros Htok answer.
  set (m0 := {| client_id := (format_token (_jsession_id (client w)) ++ "@lifeApp")%string;
                calls := [] |}).
  unfold _initialize_mqtt. unfold bind at 1. unfold this at 1. cbn [client].
  rewrite Htok. cbn [negb].
  unfold bind at 1. unfold update at 1. unfold modify at 1.
  match goal with
  | |- ?f ?x = _ => change x with (with_calls [] m0 w)
  end.
  rewrite (bind_return _ _ _ _ _ (mqtt_step _ _ _ _)).
  rewrite (bind_return _ _ _ _ _ (mqtt_step _ _ _ _)).
  rewrite (bind_return _ _ _ _ _ (mqtt_step _ _ _ _)).
  unfold bind at 1. rewrite mqtt_open_step. subst answer.
  cbn [app calls m0 take connect_calls].
  destruct (mqtt_connect E _) as [[]|e].
  - rewrite (bind_return _ _ _ _ _ (mqtt_step _ _ _ _)). reflexivity.
  - reflexivity.
Qed.

(** X11.  [_initialize_mqtt] does nothing and returns [False] without a session
    token.  With one it builds a client named after the token and configures
    it for the current endpoint; when the connection opens it starts the loop
    and returns [True]; when [connect] raises, that exception leaves the
    function with the client object already assigned, so that a later [login]
    finds a client and takes the reconnection path.  [_reinitialize_mqtt]
    without a client or without a token returns [False] and does nothing. *)
Theorem mqtt_initialisation_outcomes (E : environment) (w : world) :
  (token_set (_jsession_id (client w)) = false ->
   _initialize_mqtt E w = (Return false, w) /\
   _reinitialize_mqtt E w = (Return false, w)) /\
  (_mqtt_client (client w) = None -> _reinitialize_mqtt E w = (Return false, w)) /\
  (token_set (_jsession_id (client w)) = true ->
   exists m,
     _mqtt_client (client (snd (_initialize_mqtt E w))) = Some m /\
     client_id m = (format_token (_jsession_id (client w)) ++ "@lifeApp")%string /\
     (mqtt_connect_ok E (take 3 (connect_calls (client w))) = true ->
      fst (_initialize_mqtt E w) = Return true /\
      calls m = connect_calls (client w) ++ [loop_start]) /\
     (forall e,
        mqtt_connect E (take 3 (connect_calls (client w))) = Raise e ->
        fst (_initialize_mqtt E w) = Raise e /\
        calls m = connect_calls (client w))).
Proof.
  split; [|split].
  - intros Htok. split.
    + unfold _initialize_mqtt. unfold bind at 1. unfold this at 1. cbn [client].
      rewrite Htok. reflexivity.
    + unfold _reinitialize_mqtt. unfold bind at 1. unfold this at 1. cbn [client].
      rewrite Htok. cbn [negb]. rewrite orb_true_r. reflexivity.
  - intros Hm. unfold _reinitialize_mqtt. unfold bind at 1. unfold this at 1.
    cbn [client]. rewrite Hm. rewrite bool_decide_true by reflexivity. reflexivity.
  - intros Htok. rewrite (initialize_runs E w Htok). cbn zeta. cbn [fst snd].
    eexists. split; [reflexivity|]. split; [reflexivity|].
    cbn [calls]. split.
    + intros Hok. rewrite (mqtt_connect_opens E _ Hok). split; reflexivity.
    + intros e ->. rewrite app_nil_r. split; reflexivity.
Qed.

(** ** Logging in *)

Lemma login_split (E : environment) (w : world) :
  login E w =
  (if token_set (_jsession_id (client w))
   then let* timeout := _is_session_timeout E in
        if timeout then authenticate E (client w) else ret None
   else authenticate E (client w)) w.
Proof.
  unfold login. unfold bind at 1. unfold this at 1. cbn [client].
  destruct (token_set (_jsession_id (client w))).
  - unfold bind.
    destruct (_is_session_timeout E w) as [[[|]|e] w1]; reflexivity.
  - reflexivity.
Qed.

Lemma session_probe_expired (E : environment) (w : world) (r : http_response) :
  token_set (_jsession_id (client w)) = true ->
  requests_post E (http_log w) (session_timeout_request (client w)) = Some r ->
  session_expired r ->
  _is_session_timeout E w =
  (Return true, sent (session_timeout_request (client w)) w).
Proof.
  intros Htok Hnext Hexp.
  unfold _is_session_timeout. unfold bind at 1. unfold this at 1. cbn [client].
  rewrite Htok. cbn [negb].
  rewrite (bind_return _ _ _ _ _ (post_answer E _ w r Hnext)).
  destruct (Z.eqb_spec (status_code r) 200) as [Hok | Hne]; cbn [negb];
    [|reflexivity].
  destruct Hexp as [Hne | (data & Hbody & Hinfo)]; [contradiction|].
  unfold response_json. rewrite Hbody. unfold bind at 1. unfold ret at 1.
  destruct (body_info data) as [info|]; [|reflexivity].
  destruct (String.eqb_spec info "OK") as [-> | Hne]; [congruence | reflexivity].
Qed.

Lemma login_authenticates (E : environment) (w w0 : world) :
  needs_authentication E w w0 ->
  login E w = authenticate E (client w) w0.
Proof.
  intros [[Htok ->] | (Htok & -> & r & Hnext & Hexp)]; rewrite login_split, Htok.
  - reflexivity.
  - rewrite (bind_return _ _ _ _ _ (session_probe_expired E w r Htok Hnext Hexp)).
    reflexivity.
Qed.

(** X12.  A failed authentication changes nothing.  When [login] has to
    authenticate (no token, or a token the probe reports timed out) and the
    authentication endpoint answers with a status other than 200 or without a
    non-empty [jsessionId], [login] returns [False]; the client is exactly
    what it was, a stale token included, and only the requests were sent. *)
Theorem login_failure_keeps_client (E : environment) (w w0 : world)
        (r : http_response) :
  needs_authentication E w w0 ->
  requests_post E (http_log w0) (login_request (client w)) = Some r ->
  authentication_fails r ->
  login E w = (Return (Some false), sent (login_request (client w)) w0) /\
  client (sent (login_request (client w)) w0) = client w.
Proof.
  intros Hneeds Hnext Hfail.
  assert (Hclient : client w0 = client w).
  { destruct Hneeds as [[_ ->] | (_ & -> & _)]; reflexivity. }
  split; [|exact Hclient].
  rewrite (login_authenticates E w w0 Hneeds). unfold authenticate.
  rewrite (bind_return _ _ _ _ _ (post_answer E _ w0 r Hnext)).
  destruct (Z.eqb_spec (status_code r) 200) as [Hok | Hne]; cbn [negb];
    [|reflexivity].
  destruct Hfail as [Hne | (data & Hbody & Hid)]; [contradiction|].
  unfold response_json. rewrite Hbody. unfold bind at 1. unfold ret at 1.
  destruct Hid as [-> | ->]; reflexivity.
Qed.

Lemma login_failure_keeps_client_witness :
  let E := example_environment
             (fun req => if str_contains "isSessionTimeout" (req_url req)
                         then Some {| status_code := 200; resp_body := Some no_body |}
                         else Some answer_error)
             (fun _ => 0) example_loads in
  let w := world_of (connected_client example_registry) in
  exists w',
    login E w = (Return (Some false), w') /\
    client w' = connected_client example_registry /\
    List.length (http_log w') = 2%nat.
Proof.
  intros E w.
  destruct (login_failure_keeps_client E w
              (sent (session_timeout_request (client w)) w) answer_error)
    as [Hrun Hclient].
  - right. split; [reflexivity|]. split; [reflexivity|].
    eexists. split; [reflexivity|]. right. eexists. split; [reflexivity | discriminate].
  - reflexivity.
  - left. discriminate.
  - eexists. split; [exact Hrun|]. split; [exact Hclient | reflexivity].
Defined.

Lemma grows_refl (w : world) : grows w w.
Proof.
  unfold grows. repeat split; try reflexivity.
  - intros m Hm. exists []. rewrite app_nil_r, Hm. destruct m; reflexivity.
  - exists []. rewrite app_nil_r. reflexivity.
  - exists []. rewrite app_nil_r. reflexivity.
Qed.

Lemma grows_trans (w1 w2 w3 : world) : grows w1 w2 -> grows w2 w3 -> grows w1 w3.
Proof.
  unfold grows.
  intros (Hi & Hu & Hp & Hm & [a Ha] & [r Hr])
         (Hi' & Hu' & Hp' & Hm' & [a' Ha'] & [r' Hr']).
  repeat split; try congruence.
  - intros m H1. destruct (Hm m H1) as [l Hl].
    destruct (Hm' _ Hl) as [l' Hl']. exists (l ++ l').
    rewrite Hl'. simpl. rewrite app_assoc. reflexivity.
  - exists (a ++ a'). rewrite Ha', Ha, app_assoc. reflexivity.
  - exists (r ++ r'). rewrite Hr', Hr, app_assoc. reflexivity.
Qed.

Lemma steady_grows (w w' : world) : steady w w' -> grows w w'.
Proof. unfold steady, grows. intuition. Qed.

Lemma steady_token (w w' : world) :
  steady w w' -> _jsession_id (client w') = _jsession_id (client w).
Proof. unfold steady. intuition. Qed.

Lemma steady_connected (w w' : world) :
  steady w w' -> is_Some (_mqtt_client (client w)) ->
  is_Some (_mqtt_client (client w')).
Proof.
  intros (_ & _ & _ & _ & _ & Hm & _) [m Hsome].
  destruct (Hm m Hsome) as [l Hl]. eauto.
Qed.

Lemma only_requests_refl (w : world) : only_requests w w.
Proof. split; [reflexivity | exists []; rewrite app_nil_r; reflexivity]. Qed.

Lemma only_requests_trans (w1 w2 w3 : world) :
  only_requests w1 w2 -> only_requests w2 w3 -> only_requests w1 w3.
Proof.
  intros [Hc [r Hr]] [Hc' [r' Hr']]. split; [congruence|].
  exists (r ++ r'). rewrite Hr', Hr, app_assoc. reflexivity.
Qed.

Lemma only_requests_grows (w w' : world) : only_requests w w' -> grows w w'.
Proof.
  intros [Hc Hr]. unfold grows. rewrite Hc. repeat split; try reflexivity.
  - intros m Hm. exists []. rewrite app_nil_r, Hm. destruct m; reflexivity.
  - exists []. rewrite app_nil_r. reflexivity.
  - exact Hr.
Qed.

Lemma post_only_requests (E : environment) (req : http_request) :
  preserves only_requests (post E req).
Proof.
  intros w. unfold post.
  destruct (requests_post E (http_log w) req);
    (split; [reflexivity | exists [req]; reflexivity]).
Qed.

Lemma response_json_only_requests (r : http_response) :
  preserves only_requests (response_json r).
Proof.
  intros w. unfold response_json. destruct (resp_body r); apply only_requests_refl.
Qed.

Lemma probe_only_requests (E : environment) :
  preserves only_requests (_is_session_timeout E).
Proof.
  pose proof only_requests_refl as Hrefl. pose proof only_requests_trans as Htrans.
  unfold _is_session_timeout.
  apply preserves_bind; [exact Htrans | apply preserves_this, Hrefl|]. intros c.
  destruct (negb (token_set _)); [apply preserves_ret, Hrefl|].
  apply preserves_bind; [exact Htrans | apply post_only_requests|]. intros r.
  destruct (negb _); [apply preserves_ret, Hrefl|].
  apply preserves_bind; [exact Htrans | apply response_json_only_requests|].
  intros data. destruct (body_info data) as [info|]; [|apply preserves_ret, Hrefl].
  destruct (negb _); apply preserves_ret, Hrefl.
Qed.

(** The rest of [login] once a token is stored: it returns [True] or raises,
    and either way keeps the token. *)
Lemma after_authentication_frame (E : environment) (w w' : world)
      (o : outcome (option bool)) :
  token_set (_jsession_id (client w)) = true ->
  after_authentication E w = (o, w') ->
  (o = Return (Some true) \/ exists e, o = Raise e) /\
  grows w w' /\
  _jsession_id (client w') = _jsession_id (client w) /\
  (o = Return (Some true) -> is_Some (_mqtt_client (client w'))).
Proof.
  intros Htok. unfold after_authentication. unfold bind at 1.
  pose proof (keeps_get_server_info E w) as H1.
  destruct (_get_server_info E w) as [[[]|e] w1]; cbn [snd] in H1.
  2: { intros [= <- <-]. split; [right; eauto|]. split; [apply steady_grows, H1|].
       split; [apply steady_token, H1 | discriminate]. }
  unfold bind at 1. unfold this at 1. cbn [client].
  assert (Htok1 : token_set (_jsession_id (client w1)) = true).
  { rewrite (steady_token _ _ H1). exact Htok. }
  assert (Hstep : exists o2 w2,
            (match _mqtt_client (client w1) with
             | Some _ => _reinitialize_mqtt E
             | None => _initialize_mqtt E
             end) w1 = (o2, w2) /\
            grows w1 w2 /\
            _jsession_id (client w2) = _jsession_id (client w1) /\
            (forall b, o2 = Return b -> is_Some (_mqtt_client (client w2)))).
  { destruct (_mqtt_client (client w1)) as [m|] eqn:Hm.
    - pose proof (keeps_reinitialize E w1) as H2.
      destruct (_reinitialize_mqtt E w1) as [o2 w2]. cbn [snd] in H2.
      exists o2, w2. split; [reflexivity|]. split; [apply steady_grows, H2|].
      split; [apply steady_token, H2|]. intros _ _.
      apply (steady_connected _ _ H2). exists m. exact Hm.
    - rewrite (initialize_runs E w1 Htok1). cbn zeta.
      eexists _, _. split; [reflexivity|]. split; [|split; [reflexivity|]].
      + unfold grows. cbn. rewrite Hm. repeat split; try reflexivity; try discriminate.
        * exists []. rewrite app_nil_r. reflexivity.
        * exists []. rewrite app_nil_r. reflexivity.
      + intros _ _. cbn. eauto. }
  destruct Hstep as (o2 & w2 & Hrun & Hgrow2 & Htok2 & Hconn2).
  unfold bind at 1. rewrite Hrun.
  destruct o2 as [b|e].
  2: { intros [= <- <-]. split; [right; eauto|].
       split; [eapply grows_trans; [apply steady_grows, H1 | exact Hgrow2]|].
       split; [rewrite Htok2; apply steady_token, H1 | discriminate]. }
  unfold bind at 1.
  pose proof (keeps_get_devices E true w2) as H3.
  destruct (get_devices E true w2) as [[devs|e] w3]; cbn [snd] in H3;
    intros [= <- <-].
  - split; [left; reflexivity|].
    split; [eapply grows_trans; [apply steady_grows, H1|];
            eapply grows_trans; [exact Hgrow2 | apply steady_grows, H3]|].
    split; [rewrite (steady_token _ _ H3), Htok2; apply steady_token, H1|].
    intros _. apply (steady_connected _ _ H3), (Hconn2 b eq_refl).
  - split; [right; eauto|].
    split; [eapply grows_trans; [apply steady_grows, H1|];
            eapply grows_trans; [exact Hgrow2 | apply steady_grows, H3]|].
    split; [rewrite (steady_token _ _ H3), Htok2; apply steady_token, H1|].
    discriminate.
Qed.

Lemma authenticate_frame (E : environment) (c : SengledClient) (w0 w' : world)
      (o : outcome (option bool)) :
  authenticate E c w0 = (o, w') ->
  grows w0 w' /\
  (o = Return None \/ o = Return (Some false) -> only_requests w0 w') /\
  (o = Return (Some true) ->
   token_set (_jsession_id (client w')) = true /\
   is_Some (_mqtt_client (client w'))) /\
  (_jsession_id (client w') = _jsession_id (client w0) \/
   token_set (_jsession_id (client w')) = true).
Proof.
  assert (Hquiet : forall w1, only_requests w0 w1 ->
            forall o1, (exists e, o1 = Raise e) \/ o1 = Return (Some false) ->
            grows w0 w1 /\
            (o1 = Return None \/ o1 = Return (Some false) -> only_requests w0 w1) /\
            (o1 = Return (Some true) ->
             token_set (_jsession_id (client w1)) = true /\
             is_Some (_mqtt_client (client w1))) /\
            (_jsession_id (client w1) = _jsession_id (client w0) \/
             token_set (_jsession_id (client w1)) = true)).
  { intros w1 Hreq o1 Ho1. split; [apply only_requests_grows, Hreq|].
    split; [intros _; exact Hreq|]. split.
    - intros ->. destruct Ho1 as [[e He] | He]; discriminate He.
    - left. destruct Hreq as [-> _]. reflexivity. }
  unfold authenticate. unfold bind at 1.
  pose proof (post_only_requests E (login_request c) w0) as H1.
  destruct (post E (login_request c) w0) as [[r|e] w1]; cbn [snd] in H1.
  2: { intros [= <- <-]. apply (Hquiet w1 H1). left. eauto. }
  destruct (negb _).
  { intros [= <- <-]. apply (Hquiet w1 H1). right. reflexivity. }
  unfold bind at 1. unfold response_json.
  destruct (resp_body r) as [data|].
  2: { intros [= <- <-]. apply (Hquiet w1 H1). left. eauto. }
  unfold ret at 1.
  destruct (body_jsessionId data) as [tok|].
  2: { intros [= <- <-]. apply (Hquiet w1 H1). right. reflexivity. }
  destruct (String.eqb_spec tok "") as [-> | Hne].
  { intros [= <- <-]. apply (Hquiet w1 H1). right. reflexivity. }
  unfold bind at 1. unfold update at 1. unfold modify at 1.
  intros Htail.
  assert (Htok : token_set (_jsession_id
                   (client (on_client (set_jsession_id (Some tok)) w1))) = true).
  { cbn. apply String.eqb_neq in Hne. rewrite Hne. reflexivity. }
  destruct (after_authentication_frame E _ _ _ Htok Htail)
    as (Hends & Hgrows & Hkeeps & Hconn).
  assert (Hset : grows w0 (on_client (set_jsession_id (Some tok)) w1)).
  { eapply grows_trans; [apply only_requests_grows, H1|].
    unfold grows. cbn. repeat split; try reflexivity.
    - intros m Hm. exists []. rewrite app_nil_r, Hm. destruct m; reflexivity.
    - exists []. rewrite app_nil_r. reflexivity.
    - exists []. rewrite app_nil_r. reflexivity. }
  split; [eapply grows_trans; eauto|].
  split; [intros [-> | ->]; destruct Hends as [H | [e H]]; discriminate H|].
  split; [intros Ho; split; [rewrite Hkeeps; exact Htok | apply Hconn, Ho]|].
  right. rewrite Hkeeps. exact Htok.
Qed.

(** X13.  [login] on any state and against any backend and broker, whether it
    returns or raises: the credentials are kept, an existing MQTT client
    object keeps its client identifier and its past calls, cached bulbs are
    never removed and sent requests never erased.  When it returns [None] or
    [False] the client is exactly what it was.  When it returns [True] a
    non-empty token is stored and an MQTT client object exists.  The token
    afterwards is the token before or a non-empty one. *)
Theorem login_keeps_client (E : environment) (w : world) :
  let r := login E w in
  grows w (snd r) /\
  (fst r = Return None \/ fst r = Return (Some false) -> only_requests w (snd r)) /\
  (fst r = Return (Some true) ->
   token_set (_jsession_id (client (snd r))) = true /\
   is_Some (_mqtt_client (client (snd r)))) /\
  (_jsession_id (client (snd r)) = _jsession_id (client w) \/
   token_set (_jsession_id (client (snd r))) = true).
Proof.
  intros r. subst r.
  destruct (login E w) as [o w'] eqn:Hlogin. cbn [fst snd].
  rewrite login_split in Hlogin.
  destruct (token_set (_jsession_id (client w))) eqn:Htok.
  - unfold bind in Hlogin.
    pose proof (probe_only_requests E w) as Hprobe.
    destruct (_is_session_timeout E w) as [[[|]|e] w1]; cbn [snd] in Hprobe.
    + destruct (authenticate_frame E _ _ _ _ Hlogin) as (Hg & Hq & Ht & Hk).
      split; [eapply grows_trans; [apply only_requests_grows, Hprobe | exact Hg]|].
      split; [intros Ho; eapply only_requests_trans; [exact Hprobe | apply Hq, Ho]|].
      split; [exact Ht|].
      destruct Hprobe as [Hc _]. rewrite <- Hc. exact Hk.
    + injection Hlogin as <- <-. split; [apply only_requests_grows, Hprobe|].
      split; [intros _; exact Hprobe|]. split; [discriminate|].
      left. destruct Hprobe as [-> _]. reflexivity.
    + injection Hlogin as <- <-. split; [apply only_requests_grows, Hprobe|].
      split; [intros [H | H]; discriminate H|]. split; [discriminate|].
      left. destruct Hprobe as [-> _]. reflexivity.
  - apply (authenticate_frame E _ _ _ _ Hlogin).
Qed.

Lemma login_authenticated (E : environment) (w w0 : world) (r : http_response)
      (data : http_body) (tok : string) :
  needs_authentication E w w0 ->
  requests_post E (http_log w0) (login_request (client w)) = Some r ->
  status_code r = 200 ->
  resp_body r = Some data ->
  body_jsessionId data = Some tok ->
  tok <> "" ->
  login E w =
  after_authentication E
    (on_client (set_jsession_id (Some tok)) (sent (login_request (client w)) w0)).
Proof.
  intros Hneeds Hnext Hok Hbody Htok Hne.
  rewrite (login_authenticates E w w0 Hneeds). unfold authenticate.
  rewrite (bind_return _ _ _ _ _ (post_answer E _ w0 r Hnext)).
  rewrite Hok. cbn [Z.eqb Pos.eqb negb].
  unfold response_json. rewrite Hbody. unfold bind at 1. unfold ret at 1.
  rewrite Htok. apply String.eqb_neq in Hne. rewrite Hne. reflexivity.
Qed.

(** X14.  The token is stored before anything else is set up.  When the
    authentication endpoint answers with a non-empty [jsessionId], [login]
    either returns [True] or raises, and in both cases the new token is
    stored.  If it raised (endpoint resolution, MQTT connection or directory
    refresh failed), the next [login] that finds the session valid returns
    at once and does not resume the interrupted set-up. *)
Theorem login_stores_token_first (E : environment) (w w0 : world)
        (r : http_response) (data : http_body) (tok : string) :
  needs_authentication E w w0 ->
  requests_post E (http_log w0) (login_request (client w)) = Some r ->
  status_code r = 200 ->
  resp_body r = Some data ->
  body_jsessionId data = Some tok ->
  tok <> "" ->
  forall o w',
    login E w = (o, w') ->
    _jsession_id (client w') = Some tok /\
    (o = Return (Some true) \/ exists e, o = Raise e) /\
    (forall r',
       requests_post E (http_log w') (session_timeout_request (client w')) = Some r' ->
       session_valid r' ->
       login E w' = (Return None, sent (session_timeout_request (client w')) w')).
Proof.
  intros Hneeds Hnext Hok Hbody Htok Hne o w' Hlogin.
  rewrite (login_authenticated E w w0 r data tok Hneeds Hnext Hok Hbody Htok Hne)
    in Hlogin.
  assert (Hset : token_set (_jsession_id (client
                   (on_client (set_jsession_id (Some tok))
                      (sent (login_request (client w)) w0)))) = true).
  { cbn. apply String.eqb_neq in Hne. rewrite Hne. reflexivity. }
  destruct (after_authentication_frame E _ _ _ Hset Hlogin)
    as (Hends & _ & Hkeeps & _).
  assert (Htoken : _jsession_id (client w') = Some tok) by (rewrite Hkeeps; reflexivity).
  split; [exact Htoken|]. split; [exact Hends|].
  intros r' Hnext' Hvalid. apply (login_session_valid E w' r'); [|assumption..].
  rewrite Htoken. cbn. apply String.eqb_neq in Hne. rewrite Hne. reflexivity.
Qed.

Lemma login_stores_token_first_witness :
  let E := refusing_environment example_backend in
  let w := world_of offline_client in
  let w' := snd (login E w) in
  fst (login E w) = Raise OSError /\
  _jsession_id (client w') = Some "0123456789ABCDEF" /\
  (calls <$> _mqtt_client (client w')) = Some (connect_calls (client w')) /\
  _devices (client w') = [] /\
  login E w' = (Return None, sent (session_timeout_request (client w')) w').
Proof.
  intros E w w'.
  assert (Hback : requests_post E (http_log w) (login_request (client w))
                  = example_backend (login_request (client w))) by reflexivity.
  destruct (login_stores_token_first E w w _ _ "0123456789ABCDEF"
              (or_introl (conj eq_refl eq_refl)) Hback eq_refl eq_refl eq_refl
              ltac:(discriminate) (fst (login E w)) w'
              (surjective_pairing _)) as (Htok & _ & Hnext).
  split; [reflexivity|]. split; [exact Htok|].
  split; [reflexivity|]. split; [reflexivity|].
  apply (Hnext answer_valid); [reflexivity|].
  split; [reflexivity | eexists; split; reflexivity].
Defined.

(** ** Refreshing the directory *)

Lemma subscribe_effect (E : environment) (topic : string) (callback : handler)
      (w : world) :
  (forall calls, exists rc, mqtt_subscribe_rc E calls topic = Return rc) ->
  exists flag w1,
    _subscribe_mqtt E topic callback w = (Return flag, w1) /\
    _devices (client w1) = _devices (client w) /\
    _mqtt_client (client w1) = mqtt_do (subscribe topic) <$> _mqtt_client (client w) /\
    http_log w1 = http_log w /\
    (forall m, _mqtt_client (client w) = Some m ->
       mqtt_subscribe_rc E (calls m) topic = Return MQTT_ERR_SUCCESS ->
       _subscribed (client w1) = <[topic := callback]> (_subscribed (client w))).
Proof.
  intros Htakes.
  destruct (subscribe_cases E topic callback w)
    as [[Hm Hrun] | (m & Hm & [[Hrc Hrun] | [(rc & Hrc & Hne & Hrun) | (e & Hrc & Hrun)]])].
  - eexists _, _. split; [exact Hrun|].
    rewrite Hm. repeat split; try reflexivity. intros m' [=].
  - eexists _, _. split; [exact Hrun|]. rewrite Hm. cbn. repeat split.
  - eexists _, _. split; [exact Hrun|]. rewrite Hm. cbn. repeat split.
    intros m' [= <-] Hrc'. rewrite Hrc in Hrc'. injection Hrc' as ->. contradiction.
  - destruct (Htakes (calls m)) as [rc Hrc']. congruence.
Qed.

Lemma existsb_cached (id : string) (devices : list SengledBulb) :
  existsb (fun dev => String.eqb (uuid dev) id) devices =
  existsb (String.eqb id) (map uuid devices).
Proof.
  induction devices as [|dev devices IH]; [reflexivity|].
  simpl. rewrite IH, (String.eqb_sym (uuid dev) id). reflexivity.
Qed.

(** The loop of [get_devices] over a directory answer [l]: it always runs to
    its end; the bulbs added are those of the fresh entries, in order, and
    each of them costs one [subscribe] call when an MQTT client exists. *)
Lemma directory_loop (E : environment) (l : list device_info) (w : world) :
  let fresh := fresh_entries (cached_ids w) l in
  takes_status_topics E fresh ->
  exists w',
    for_each
      (fun d =>
         let* c := this in
         let found := existsb (fun dev => String.eqb (uuid dev) (deviceUuid d))
                              (_devices c) in
         if negb found then
           let* bulb := new_bulb E d in
           update (fun c => set_devices (_devices c ++ [bulb]) c)
         else ret tt) l w = (Return tt, w') /\
    _devices (client w') = _devices (client w) ++ map bulb_of fresh /\
    _mqtt_client (client w') =
      (fun m => {| client_id := client_id m;
                   calls := calls m ++ map (fun d => subscribe (status_topic (deviceUuid d)))
                                           fresh |})
      <$> _mqtt_client (client w) /\
    http_log w' = http_log w /\
    ((forall calls topic, mqtt_subscribe_rc E calls topic = Return MQTT_ERR_SUCCESS) ->
     is_Some (_mqtt_client (client w)) ->
     _subscribed (client w') = registered fresh (_subscribed (client w))).
Proof.
  revert w. induction l as [|d l IH]; intros w; cbn zeta; intros Htakes.
  - exists w. cbn [for_each fresh_entries map]. split; [reflexivity|].
    rewrite app_nil_r. split; [reflexivity|]. split; [|split; [reflexivity|]].
    + destruct (_mqtt_client (client w)) as [[id calls]|]; cbn;
        rewrite ?app_nil_r; reflexivity.
    + intros _ _. reflexivity.
  - cbn [for_each fresh_entries]. unfold bind at 1. unfold bind at 1.
    unfold this at 1. cbn [client]. rewrite existsb_cached. fold (cached_ids w).
    destruct (existsb (String.eqb (deviceUuid d)) (cached_ids w)) eqn:Hfound;
      cbn [negb].
    + unfold ret at 1. apply IH. cbn [fresh_entries] in Htakes.
      rewrite Hfound in Htakes. exact Htakes.
    + cbn [fresh_entries] in Htakes. rewrite Hfound in Htakes.
      destruct (subscribe_effect E (status_topic (deviceUuid d))
                  (update_status_of (deviceUuid d)) w
                  (fun calls => Htakes calls d (list_elem_of_here _ _)))
        as (flag & w1 & Hsub & Hdevs & Hmqtt & Hlog & Hreg).
      unfold new_bulb. cbn [uuid _uuid]. fold (status_topic (deviceUuid d)).
      fold (bulb_of d).
      unfold bind at 1. unfold bind at 1. rewrite Hsub. unfold ret at 1.
      unfold update, modify.
      set (w2 := on_client (fun c => set_devices (_devices c ++ [bulb_of d]) c) w1).
      assert (Hids : cached_ids w2 = cached_ids w ++ [deviceUuid d]).
      { unfold cached_ids, w2. cbn. rewrite Hdevs, map_app. reflexivity. }
      destruct (IH w2) as (w' & Hrun & Hdevs' & Hmqtt' & Hlog' & Hreg').
      { rewrite Hids. intros calls d' Hd'. apply Htakes. right. exact Hd'. }
      rewrite Hids in Hdevs', Hmqtt', Hreg'.
      exists w'. split; [exact Hrun|].
      split; [rewrite Hdevs'; unfold w2; cbn; rewrite Hdevs, <- app_assoc; reflexivity|].
      split; [rewrite Hmqtt'; unfold w2; cbn; rewrite Hmqtt;
              destruct (_mqtt_client (client w)) as [[id calls]|]; cbn;
              rewrite <- ?app_assoc; reflexivity|].
      split; [rewrite Hlog'; exact Hlog|].
      intros Hacc [m Hm]. rewrite Hreg'; [|exact Hacc|].
      * unfold w2. cbn. rewrite (Hreg m Hm (Hacc _ _)). reflexivity.
      * unfold w2. cbn. rewrite Hmqtt, Hm. cbn. eauto.
Qed.

Lemma list_ascii_of_string_app (s1 s2 : string) :
  list_ascii_of_string (s1 ++ s2)%string =
  list_ascii_of_string s1 ++ list_ascii_of_string s2.
Proof.
  induction s1 as [|a s1 IH]; [reflexivity|].
  change (String a s1 ++ s2)%string with (String a (s1 ++ s2)).
  simpl. rewrite IH. reflexivity.
Qed.

Lemma string_app_inv_tail (s1 s2 t : string) :
  (s1 ++ t)%string = (s2 ++ t)%string -> s1 = s2.
Proof.
  intros H. apply (f_equal list_ascii_of_string) in H.
  rewrite !list_ascii_of_string_app in H. apply app_inv_tail in H.
  apply (f_equal string_of_list_ascii) in H.
  rewrite !string_of_list_ascii_of_string in H. exact H.
Qed.

Lemma status_topic_inj (id id' : string) :
  status_topic id = status_topic id' -> id = id'.
Proof.
  unfold status_topic. intros H. apply String.app_inj in H.
  apply string_app_inv_tail in H. exact H.
Qed.

Lemma fresh_entries_cover (known : list string) (l : list device_info)
      (d : device_info) :
  d ∈ l -> deviceUuid d ∈ known ++ map deviceUuid (fresh_entries known l).
Proof.
  revert known. induction l as [|x l IH]; intros known Hin; [inversion Hin|].
  simpl. destruct (existsb (String.eqb (deviceUuid x)) known) eqn:Hknown.
  - apply elem_of_cons in Hin as [-> | Hin]; [|apply IH, Hin].
    apply elem_of_app. left. apply existsb_exists in Hknown as (id & Hid & Heq).
    apply String.eqb_eq in Heq. subst id. apply list_elem_of_In, Hid.
  - simpl. rewrite (cons_middle (deviceUuid x)), app_assoc.
    apply elem_of_cons in Hin as [-> | Hin]; [|apply IH, Hin].
    apply elem_of_app. left. apply elem_of_app. right. left.
Qed.

Lemma fresh_entries_new (known : list string) (l : list device_info) :
  NoDup known -> NoDup (known ++ map deviceUuid (fresh_entries known l)).
Proof.
  revert known. induction l as [|x l IH]; intros known Hnodup; simpl.
  - rewrite app_nil_r. exact Hnodup.
  - destruct (existsb (String.eqb (deviceUuid x)) known) eqn:Hknown; [apply IH, Hnodup|].
    simpl. rewrite (cons_middle (deviceUuid x)), app_assoc. apply IH.
    apply NoDup_app. split; [exact Hnodup|]. split; [|apply NoDup_singleton].
    intros id Hid Hnew. apply list_elem_of_singleton in Hnew. subst id.
    apply not_true_iff_false in Hknown. apply Hknown.
    apply existsb_exists. exists (deviceUuid x).
    split; [apply list_elem_of_In, Hid | apply String.eqb_refl].
Qed.

Lemma registered_lookup (l : list device_info) (R : gmap string handler)
      (id : string) :
  id ∈ map deviceUuid l \/ R !! status_topic id = Some (update_status_of id) ->
  registered l R !! status_topic id = Some (update_status_of id).
Proof.
  unfold registered. revert R.
  induction l as [|d l IH]; intros R Hin; simpl.
  - destruct Hin as [Hin | Hin]; [inversion Hin | exact Hin].
  - apply IH. simpl in Hin.
    destruct Hin as [Hin | Hin].
    + apply elem_of_cons in Hin as [-> | Hin]; [|left; exact Hin].
      right. apply lookup_insert_eq.
    + right. destruct (decide (status_topic (deviceUuid d) = status_topic id))
        as [Heq | Hne].
      * rewrite Heq. apply status_topic_inj in Heq. rewrite Heq.
        apply lookup_insert_eq.
      * rewrite lookup_insert_ne by exact Hne. exact Hin.
Qed.

(** X15.  [get_devices] answers from the cache, without any request, when there is
    no session token or when the cache is not empty and the refresh is not
    forced.  When it does ask the backend and the answer has a status other
    than 200 or no device in it, it returns the cache as it is: one request
    was sent and nothing else changed, so bulbs the backend no longer lists
    stay cached. *)
Theorem get_devices_uses_cache (E : environment) (force_update : bool) (w : world) :
  (token_set (_jsession_id (client w)) = false \/
   (_devices (client w) <> [] /\ force_update = false) ->
   get_devices E force_update w = (Return (_devices (client w)), w)) /\
  (forall r,
     token_set (_jsession_id (client w)) = true ->
     _devices (client w) = [] \/ force_update = true ->
     requests_post E (http_log w) (device_list_request (client w)) = Some r ->
     directory_fails r ->
     get_devices E force_update w =
     (Return (_devices (client w)), sent (device_list_request (client w)) w)).
Proof.
  split.
  - intros Hcache. unfold get_devices. unfold bind at 1. unfold this at 1.
    cbn [client]. destruct (token_set _); cbn [negb]; [|reflexivity].
    destruct Hcache as [Hno | [Hdevs ->]]; [discriminate|].
    destruct (_devices (client w)); [contradiction | reflexivity].
  - intros r Htok Hask Hnext Hfail. unfold get_devices. unfold bind at 1.
    unfold this at 1. cbn [client]. rewrite Htok. cbn [negb].
    assert (Hgo : (0 <? List.length (_devices (client w)))%nat && negb force_update
                  = false).
    { destruct Hask as [-> | ->]; [reflexivity | apply andb_false_r]. }
    rewrite Hgo.
    rewrite (bind_return _ _ _ _ _ (post_answer E _ w r Hnext)).
    destruct (Z.eqb_spec (status_code r) 200) as [Hok | Hne]; cbn [negb];
      [|reflexivity].
    destruct Hfail as [Hne | (data & Hbody & Hlist)]; [contradiction|].
    unfold response_json. rewrite Hbody. unfold bind at 1. unfold ret at 1.
    destruct Hlist as [-> | ->]; reflexivity.
Qed.

Lemma get_devices_uses_cache_witness :
  let E := example_environment (fun _ => Some (answer_devices [])) (fun _ => 0)
                               example_loads in
  let w := on_client (set_devices [example_bulb]) (world_of (connected_client ∅)) in
  get_devices E false w = (Return [example_bulb], w) /\
  get_devices E true w =
    (Return [example_bulb], sent (device_list_request (client w)) w).
Proof.
  intros E w. split.
  - destruct (get_devices_uses_cache E false w) as [H _].
    apply H. right. split; [discriminate | reflexivity].
  - destruct (get_devices_uses_cache E true w) as [_ H].
    apply (H (answer_devices [])); [reflexivity | right; reflexivity | reflexivity|].
    right. eexists. split; [reflexivity | right; reflexivity].
Defined.

(** X16.  A refresh that the backend answers with devices, all with a status
    topic the library takes as a filter.  [get_devices] returns
    the cache followed by one new bulb for the first entry of each identifier
    not cached before, built from that entry with no observer assigned; after
    it every listed identifier is cached, and identifiers stay unique if they
    were.  The only request sent is the directory request, and the MQTT client,
    if there is one, receives exactly one [subscribe] call per new bulb, on
    that bulb's status topic, and none for bulbs already cached.  If the broker
    accepts every subscription, each new bulb's status topic is registered
    with that bulb's handler.  When instead the library refuses the status
    topic of the first listed device, which is not cached, the exception of
    [subscribe] leaves [get_devices]: the call was made and nothing was
    added to the cache. *)
Theorem get_devices_adds_fresh (E : environment) (force_update : bool) (w : world)
        (r : http_response) (data : http_body) (d0 : device_info)
        (l0 : list device_info) :
  token_set (_jsession_id (client w)) = true ->
  _devices (client w) = [] \/ force_update = true ->
  requests_post E (http_log w) (device_list_request (client w)) = Some r ->
  status_code r = 200 ->
  resp_body r = Some data ->
  body_deviceList data = Some (d0 :: l0) ->
  let fresh := fresh_entries (cached_ids w) (d0 :: l0) in
  (takes_status_topics E fresh ->
   exists w',
     get_devices E force_update w = (Return (_devices (client w')), w') /\
     _devices (client w') = _devices (client w) ++ map bulb_of fresh /\
     (forall d, d ∈ d0 :: l0 -> deviceUuid d ∈ cached_ids w') /\
     (NoDup (cached_ids w) -> NoDup (cached_ids w')) /\
     http_log w' = http_log w ++ [device_list_request (client w)] /\
     _mqtt_client (client w') =
       (fun m => {| client_id := client_id m;
                    calls := calls m ++ map (fun d => subscribe (status_topic (deviceUuid d)))
                                            fresh |})
       <$> _mqtt_client (client w) /\
     ((forall calls topic, mqtt_subscribe_rc E calls topic = Return MQTT_ERR_SUCCESS) ->
      is_Some (_mqtt_client (client w)) ->
      forall d, d ∈ fresh ->
        _subscribed (client w') !! status_topic (deviceUuid d) =
        Some (update_status_of (deviceUuid d)))) /\
  (forall m e,
     _mqtt_client (client w) = Some m ->
     deviceUuid d0 ∉ cached_ids w ->
     mqtt_subscribe_rc E (calls m) (status_topic (deviceUuid d0)) = Raise e ->
     get_devices E force_update w =
     (Raise e,
      {| client := set_mqtt_client
                     (Some {| client_id := client_id m;
                              calls := calls m
                                       ++ [subscribe (status_topic (deviceUuid d0))] |})
                     (client w);
         http_log := http_log w ++ [device_list_request (client w)];
         clock_reads := clock_reads w |})).
Proof.
  intros Htok Hask Hnext Hok Hbody Hlist fresh.
  assert (Hgo : (0 <? List.length (_devices (client w)))%nat && negb force_update
                = false).
  { destruct Hask as [-> | ->]; [reflexivity | apply andb_false_r]. }
  split.
  2: { intros m e Hm Hnew Hrefused.
       unfold get_devices. unfold bind at 1. unfold this at 1. cbn [client].
       rewrite Htok, Hgo. cbn [negb].
       rewrite (bind_return _ _ _ _ _ (post_answer E _ w r Hnext)).
       rewrite Hok. cbn [Z.eqb Pos.eqb negb].
       unfold response_json. rewrite Hbody. unfold bind at 1. unfold ret at 1.
       rewrite Hlist. unfold bind at 1. cbn [for_each]. unfold bind at 1.
       unfold bind at 1. unfold this at 1. cbn [client sent].
       rewrite existsb_cached. fold (cached_ids w).
       assert (Hfound : existsb (String.eqb (deviceUuid d0)) (cached_ids w) = false).
       { apply not_true_iff_false. intros H. apply Hnew.
         apply existsb_exists in H as (id & Hid & Heq).
         apply String.eqb_eq in Heq. subst id. apply list_elem_of_In, Hid. }
       rewrite Hfound. cbn [negb]. unfold bind at 1. unfold new_bulb.
       cbn [uuid _uuid]. fold (status_topic (deviceUuid d0)). unfold bind at 1.
       rewrite (subscribe_refused E _ _ (sent (device_list_request (client w)) w) m e
                  Hm Hrefused).
       reflexivity. }
  intros Htakes.
  destruct (directory_loop E (d0 :: l0) (sent (device_list_request (client w)) w)
              Htakes)
    as (w' & Hrun & Hdevs & Hmqtt & Hlog & Hreg).
  change (cached_ids (sent (device_list_request (client w)) w)) with (cached_ids w)
    in Hdevs, Hmqtt, Hreg.
  cbn [client sent] in Hdevs, Hmqtt, Hreg. cbn [http_log sent] in Hlog.
  fold fresh in Hdevs, Hmqtt, Hreg.
  assert (Hids : cached_ids w' = cached_ids w ++ map deviceUuid fresh).
  { unfold cached_ids. rewrite Hdevs, map_app, map_map. reflexivity. }
  exists w'. split.
  - unfold get_devices. unfold bind at 1. unfold this at 1. cbn [client].
    rewrite Htok, Hgo. cbn [negb].
    rewrite (bind_return _ _ _ _ _ (post_answer E _ w r Hnext)).
    rewrite Hok. cbn [Z.eqb Pos.eqb negb].
    unfold response_json. rewrite Hbody. unfold bind at 1. unfold ret at 1.
    rewrite Hlist. rewrite (bind_return _ _ _ _ _ Hrun). reflexivity.
  - split; [exact Hdevs|].
    split; [intros d Hd; rewrite Hids; apply fresh_entries_cover, Hd|].
    split; [intros Hnodup; rewrite Hids; apply fresh_entries_new, Hnodup|].
    split; [exact Hlog|]. split; [exact Hmqtt|].
    intros Hacc Hconn d Hd. rewrite (Hreg Hacc Hconn).
    apply registered_lookup. left. apply list_elem_of_fmap. eauto.
Qed.

Lemma get_devices_adds_fresh_witness :
  let w := world_of (connected_client ∅) in
  (let E := example_environment
              (fun _ => Some (answer_devices [example_device; example_device]))
              (fun _ => 0) example_loads in
   exists w',
     get_devices E true w = (Return [example_bulb], w') /\
     (calls <$> _mqtt_client (client w')) =
       Some [subscribe "wifielement/B0CE1814039A/status"] /\
     _subscribed (client w') !! "wifielement/B0CE1814039A/status" =
       Some (update_status_of "B0CE1814039A")) /\
  (let E := broker_environment refuses_wildcards
              (fun _ => Return {| wait_for_publish := Return tt |})
              (fun _ => Some (answer_devices [wildcard_device; example_device])) in
   fst (get_devices E true w) = Raise ValueError /\
   _devices (client (snd (get_devices E true w))) = [] /\
   (calls <$> _mqtt_client (client (snd (get_devices E true w)))) =
     Some [subscribe "wifielement/LAMP#1/status"]).
Proof.
  intros w. split; intros E.
  - destruct (get_devices_adds_fresh E true w
                (answer_devices [example_device; example_device]) _
                example_device [example_device]
                eq_refl (or_intror eq_refl) eq_refl eq_refl eq_refl eq_refl)
      as [Hadds _].
    destruct (Hadds (fun calls d _ => ex_intro _ 0 eq_refl))
      as (w' & Hrun & Hdevs & _ & _ & _ & Hmqtt & Hreg).
    exists w'. split; [rewrite Hrun, Hdevs; reflexivity|].
    split; [rewrite Hmqtt; reflexivity|].
    apply (Hreg (fun _ _ => eq_refl) (ex_intro _ _ eq_refl) example_device). left.
  - destruct (get_devices_adds_fresh E true w
                (answer_devices [wildcard_device; example_device]) _
                wildcard_device [example_device]
                eq_refl (or_intror eq_refl) eq_refl eq_refl eq_refl eq_refl)
      as [_ Hrefused].
    rewrite (Hrefused {| client_id := "0123456789ABCDEF@lifeApp"; calls := [] |}
               ValueError eq_refl (not_elem_of_nil _) eq_refl).
    split; [reflexivity | split; reflexivity].
Defined.

(** ** An endpoint with an explicit port *)

Lemma str_split_without (sep : ascii) (s : string) :
  ~ In sep (list_ascii_of_string s) -> str_split sep s = [s].
Proof.
  induction s as [|c s IH]; intros Hnot; [reflexivity|].
  simpl in *. destruct (Ascii.eqb_spec c sep) as [-> | Hne].
  - exfalso. apply Hnot. left. reflexivity.
  - rewrite IH; [reflexivity|]. intros H. apply Hnot. right. exact H.
Qed.

Lemma str_split_at (sep : ascii) (h t : string) :
  ~ In sep (list_ascii_of_string h) ->
  str_split sep (h ++ String sep t)%string = h :: str_split sep t.
Proof.
  induction h as [|c h IH]; intros Hnot.
  - change (("" ++ String sep t)%string) with (String sep t).
    simpl. rewrite Ascii.eqb_refl. reflexivity.
  - change ((String c h ++ String sep t)%string) with (String c (h ++ String sep t)).
    simpl in *. destruct (Ascii.eqb_spec c sep) as [-> | Hne].
    + exfalso. apply Hnot. left. reflexivity.
    + rewrite IH; [reflexivity|]. intros H. apply Hnot. right. exact H.
Qed.

(** X17.  When [urlparse] takes the address and it names a port (the network
    location is a host, a colon and a port text, neither containing a colon),
    [_get_server_info] takes the host from before the colon and parses the
    port in base 10.  If the port
    text is an integer the three parts of the endpoint are replaced.  If it is
    not, [ValueError] leaves the function after the host has been replaced:
    the endpoint is left with the new host and the old port and path. *)
Theorem endpoint_with_explicit_port (E : environment) (w : world)
        (r : http_response) (data : http_body) (addr h ptext : string)
        (url : url_parts) :
  token_set (_jsession_id (client w)) = true ->
  requests_post E (http_log w) (server_info_request (client w)) = Some r ->
  status_code r = 200 ->
  resp_body r = Some data ->
  body_inceptionAddr data = Some addr ->
  addr <> "" ->
  urlparse E addr = Some url ->
  netloc url = (h ++ String ":" ptext)%string ->
  ~ In ":"%char (list_ascii_of_string h) ->
  ~ In ":"%char (list_ascii_of_string ptext) ->
  let old := _mqtt_server (client w) in
  exists w',
    (forall p, parse_int10 ptext = Some p ->
       _get_server_info E w = (Return tt, w') /\
       _mqtt_server (client w') =
         {| mqtt_host := h; mqtt_port := p; mqtt_path := path url |}) /\
    (parse_int10 ptext = None ->
       _get_server_info E w = (Raise ValueError, w') /\
       _mqtt_server (client w') =
         {| mqtt_host := h; mqtt_port := mqtt_port old; mqtt_path := mqtt_path old |}).
Proof.
  intros Htok Hnext Hok Hbody Haddr Hne Hurl Hloc Hh Hp old.
  assert (Hsplit : str_split ":" (netloc url) = [h; ptext]).
  { rewrite Hloc, str_split_at by exact Hh. rewrite str_split_without by exact Hp.
    reflexivity. }
  assert (Hcolon : str_contains ":" (netloc url) = true).
  { apply str_contains_char. rewrite Hloc, list_ascii_of_string_app.
    apply in_or_app. right. left. reflexivity. }
  assert (Hstart : _get_server_info E w =
            (update (fun c => set_mqtt_server (set_host h (_mqtt_server c)) c);;;
             let* p := lift (py_int10 (JStr ptext)) in
             update (fun c => set_mqtt_server (set_port p (_mqtt_server c)) c);;;
             update (fun c => set_mqtt_server
                                (set_path (path url) (_mqtt_server c)) c))
              (sent (server_info_request (client w)) w)).
  { unfold _get_server_info. unfold bind at 1. unfold this at 1.
    cbn [client]. rewrite Htok. cbn [negb].
    rewrite (bind_return _ _ _ _ _ (post_answer E _ w r Hnext)).
    rewrite Hok. cbn [Z.eqb Pos.eqb negb].
    unfold response_json. rewrite Hbody. unfold bind at 1. unfold ret at 1.
    rewrite Haddr. apply String.eqb_neq in Hne. rewrite Hne, Hurl.
    rewrite Hcolon, Hsplit. reflexivity. }
  rewrite Hstart. cbn [py_int10].
  destruct (parse_int10 ptext) as [p|].
  - eexists. split; [|discriminate].
    intros p' [= <-]. split; reflexivity.
  - eexists. split; [discriminate|].
    intros _. split; reflexivity.
Qed.

Lemma endpoint_with_explicit_port_witness :
  let w := world_of (connected_client ∅) in
  (let E := example_environment
              (fun _ => Some (answer_address "wss://eu-mqtt.cloud.sengled.com:8883/mqtt"))
              (fun _ => 0) example_loads in
   exists w',
     _get_server_info E w = (Return tt, w') /\
     _mqtt_server (client w') =
       {| mqtt_host := "eu-mqtt.cloud.sengled.com"; mqtt_port := 8883;
          mqtt_path := "/mqtt" |}) /\
  (let E := example_environment
              (fun _ => Some (answer_address "wss://eu-mqtt.cloud.sengled.com:mqtt/v2"))
              (fun _ => 0) example_loads in
   exists w',
     _get_server_info E w = (Raise ValueError, w') /\
     _mqtt_server (client w') =
       {| mqtt_host := "eu-mqtt.cloud.sengled.com"; mqtt_port := 443;
          mqtt_path := "/mqtt" |}).
Proof.
  intros w.
  assert (Hhost : ~ In ":"%char (list_ascii_of_string "eu-mqtt.cloud.sengled.com")).
  { vm_compute. intuition discriminate. }
  split; intros E.
  - destruct (endpoint_with_explicit_port E w _ _
                "wss://eu-mqtt.cloud.sengled.com:8883/mqtt"
                "eu-mqtt.cloud.sengled.com" "8883"
                {| netloc := "eu-mqtt.cloud.sengled.com:8883"; path := "/mqtt" |}
                eq_refl eq_refl eq_refl eq_refl eq_refl ltac:(discriminate)
                eq_refl eq_refl Hhost) as (w' & Hok & _).
    + vm_compute. intuition discriminate.
    + exists w'. apply (Hok 8883). reflexivity.
  - destruct (endpoint_with_explicit_port E w _ _
                "wss://eu-mqtt.cloud.sengled.com:mqtt/v2"
                "eu-mqtt.cloud.sengled.com" "mqtt"
                {| netloc := "eu-mqtt.cloud.sengled.com:mqtt"; path := "/v2" |}
                eq_refl eq_refl eq_refl eq_refl eq_refl ltac:(discriminate)
                eq_refl eq_refl Hhost) as (w' & _ & Hbad).
    + vm_compute. intuition discriminate.
    + exists w'. apply Hbad. reflexivity.
Defined.

Lemma unsubscribe_only_forgets_witness :
  let E := example_environment (fun _ => None) (fun _ => 0) example_loads in
  let w := world_of (connected_client example_registry) in
  let topic := "wifielement/B0CE18140AAA/status" in
  exists w1 w2 w3 m3,
    _subscribe_mqtt E topic (update_status_of "B0CE18140AAA") w = (Return true, w1) /\
    _unsubscribe_mqtt topic (update_status_of "B0CE18140AAA") w1 = (Return tt, w2) /\
    _subscribed (client w2) = example_registry /\
    _reinitialize_mqtt E w2 = (Return true, w3) /\
    _mqtt_client (client w3) = Some m3 /\
    subscriptions_of topic (calls m3) = 1%nat.
Proof.
  intros E w topic.
  destruct (unsubscribe_only_forgets E topic (update_status_of "B0CE18140AAA") w)
    as [_ H].
  destruct (H {| client_id := "0123456789ABCDEF@lifeApp"; calls := [] |}
              eq_refl ltac:(vm_compute; reflexivity) eq_refl)
    as (w1 & w2 & Hsub & Hunsub & Hreg & _ & Hre).
  destruct (Hre eq_refl eq_refl (fun l t _ => ex_intro _ 0 eq_refl))
    as (w3 & m3 & Hrun & Hm3 & Hcount).
  exists w1, w2, w3, m3. repeat split; assumption.
Defined.

Lemma mqtt_initialisation_outcomes_witness :
  let E := refusing_environment example_backend in
  let w := on_client (set_jsession_id (Some "0123456789ABCDEF")) (world_of offline_client) in
  exists m,
    _mqtt_client (client (snd (_initialize_mqtt E w))) = Some m /\
    client_id m = "0123456789ABCDEF@lifeApp" /\
    fst (_initialize_mqtt E w) = Raise OSError /\
    calls m = [ tls_set_context;
                ws_set_options "/mqtt" [ ("Cookie", "JSESSIONID=0123456789ABCDEF");
                                         ("X-Requested-With", "com.sengled.life2") ];
                set_on_message;
                connect "us-mqtt.cloud.sengled.com" 443 30 ].
Proof.
  intros E w.
  destruct (mqtt_initialisation_outcomes E w) as (_ & _ & H).
  destruct (H eq_refl) as (m & Hm & Hid & _ & Hfail).
  destruct (Hfail OSError eq_refl) as [Hraise Hcalls].
  exists m. repeat split; assumption.
Defined.

(** * The adapter layer *)

Lemma on_adapter_client_runs {A} (m : M world A) (a : SengledAdapter) (w w' : world)
      (o : outcome A) :
  adapter_client a = Some w ->
  m w = (o, w') ->
  on_adapter_client m a = (o, set_adapter_client (Some w') a).
Proof. intros Ha Hm. unfold on_adapter_client. rewrite Ha, Hm. reflexivity. Qed.

Lemma bulb_at_found (i : nat) (w : world) (dev : SengledBulb) :
  _devices (client w) !! i = Some dev ->
  bulb_at i w = (Return dev, w).
Proof. intros H. unfold bulb_at, this. run. rewrite H. reflexivity. Qed.

Lemma set_adapter_client_same (a : SengledAdapter) (w : world) :
  adapter_client a = Some w -> set_adapter_client (Some w) a = a.
Proof. intros H. destruct a; simpl in *; subst; reflexivity. Qed.

(** X18.  Writing a property.  [set_value] sends the command for the wrapped
    bulb; a written level is published clamped to the interval from 0 to 100.
    When the wait for the publication returns, the gateway takes the value as
    written, whether or not the message was delivered: what [toggle] and
    [set_brightness] hand back then is a bound method, which is true in the
    test.  When the wait raises [ValueError], or when there is no MQTT client,
    no gateway call is made.  Any other exception of the wait, and any
    exception of [publish], leaves [set_value] without a gateway call. *)
Theorem property_write_outcomes (E : environment) (device : SengledDevice)
        (a : SengledAdapter) (w : world) (dev : SengledBulb) :
  adapter_client a = Some w ->
  _devices (client w) !! sengled_dev device = Some dev ->
  (_mqtt_client (client w) = None ->
   forall write,
     fst (set_value_of E device write a) = Return tt /\
     gateway_log (snd (set_value_of E device write a)) = gateway_log a) /\
  (forall m level,
     _mqtt_client (client w) = Some m ->
     exists data,
       py_getitem data "value" = Return (JStr (str_int (Z.max (Z.min level 100) 0))) /\
       let topic := update_topic (uuid dev) in
       let left := set_adapter_client
                     (Some (with_calls [publish topic (json_dumps E data)] m (ticked w)))
                     a in
       set_value_of E device (write_level level) a =
       write_result (mqtt_publish_info E (calls m) topic (json_dumps E data))
         (log_gateway (cached (device_id device) "level" (PyInt level)) left) left) /\
  (forall m (value : bool),
     _mqtt_client (client w) = Some m ->
     exists data,
       py_getitem data "value" = Return (JStr (if value then "1" else "0")) /\
       let topic := update_topic (uuid dev) in
       let left := set_adapter_client
                     (Some (with_calls [publish topic (json_dumps E data)] m (ticked w)))
                     a in
       set_value_of E device (write_on value) a =
       write_result (mqtt_publish_info E (calls m) topic (json_dumps E data))
         (log_gateway (cached (device_id device) "on" (PyBool value)) left) left).
Proof.
  intros Ha Hdev.
  assert (Hbulb : on_adapter_client (bulb_at (sengled_dev device)) a = (Return dev, a)).
  { rewrite (on_adapter_client_runs _ a w w _ Ha (bulb_at_found _ _ _ Hdev)).
    rewrite (set_adapter_client_same a w Ha). reflexivity. }
  split; [|split].
  - intros Hm [value | value | name value]; cbn [set_value_of];
      [| |split; reflexivity];
      rewrite (bind_return _ _ _ _ _ Hbulb); unfold bind at 1 2.
    + destruct (commands_offline E dev w Hm) as [Ht _].
      rewrite (on_adapter_client_runs _ a w _ _ Ha (Ht value)). split; reflexivity.
    + destruct (commands_offline E dev w Hm) as [_ Hb].
      rewrite (on_adapter_client_runs _ a w _ _ Ha (Hb value)). split; reflexivity.
  - intros m level Hm.
    exists (JObj [ ("dn", JStr (uuid dev)); ("type", JStr "brightness");
                   ("value", JStr (str_int (Z.max (Z.min level 100) 0)));
                   ("time", JInt (time_ms E (clock_reads w))) ]).
    split; [reflexivity|]. cbn zeta.
    cbn [set_value_of]. rewrite (bind_return _ _ _ _ _ Hbulb). unfold bind at 1.
    erewrite (on_adapter_client_runs _ a w _ _ Ha);
      [ | unfold set_brightness; unfold bind, now_ms; fold (ticked w);
          apply (publish_with_client E _ _ (ticked w) m Hm) ].
    fold (update_topic (uuid dev)). unfold publish_outcome, write_result.
    destruct (mqtt_publish_info E (calls m) _ _) as [[[[]|e]]|e];
      [reflexivity | destruct e; reflexivity | reflexivity].
  - intros m value Hm.
    exists (JObj [ ("dn", JStr (uuid dev)); ("type", JStr "switch");
                   ("value", JStr (if value then "1" else "0"));
                   ("time", JInt (time_ms E (clock_reads w))) ]).
    split; [reflexivity|]. cbn zeta.
    cbn [set_value_of]. rewrite (bind_return _ _ _ _ _ Hbulb). unfold bind at 1.
    erewrite (on_adapter_client_runs _ a w _ _ Ha);
      [ | unfold toggle; unfold bind, now_ms; fold (ticked w);
          apply (publish_with_client E _ _ (ticked w) m Hm) ].
    fold (update_topic (uuid dev)). unfold publish_outcome, write_result.
    destruct (mqtt_publish_info E (calls m) _ _) as [[[[]|e]]|e];
      [reflexivity | destruct e; reflexivity | reflexivity].
Qed.

Lemma property_write_outcomes_witness :
  (let E := example_environment (fun _ => None) (fun _ => 0) example_loads in
   exists a',
     set_value_of E example_wrapper (write_level 150) example_adapter = (Return tt, a') /\
     gateway_log a' = cached "sengled-B0CE1814039A" "level" (PyInt 150) /\
     match adapter_client a' with
     | Some w' => calls <$> _mqtt_client (client w')
     | None => None
     end = Some [publish "wifielement/B0CE1814039A/update" "100"]) /\
  (let E := broker_environment refuses_wildcards
              (fun _ => Return {| wait_for_publish := Raise RuntimeError |})
              (fun _ => None) in
   exists a',
     set_value_of E example_wrapper (write_on true) example_adapter
       = (Raise RuntimeError, a') /\
     gateway_log a' = []).
Proof.
  split; intros E.
  - destruct (property_write_outcomes E example_wrapper example_adapter _ example_bulb
                eq_refl eq_refl) as (_ & Hlevel & _).
    destruct (Hlevel {| client_id := "0123456789ABCDEF@lifeApp"; calls := [] |} 150
                eq_refl) as (data & Hvalue & Hrun).
    eexists. split; [exact Hrun|].
    cbn in Hvalue. destruct data as [| | | | |items|members]; try discriminate Hvalue.
    cbn in Hvalue |- *.
    destruct (obj_lookup "value" members) as [v|]; [|discriminate Hvalue].
    injection Hvalue as ->. split; reflexivity.
  - destruct (property_write_outcomes E example_wrapper example_adapter _ example_bulb
                eq_refl eq_refl) as (_ & _ & Hon).
    destruct (Hon {| client_id := "0123456789ABCDEF@lifeApp"; calls := [] |} true
                eq_refl) as (data & _ & Hrun).
    eexists. split; [exact Hrun | reflexivity].
Defined.

(** ** Pairing *)

Lemma keeps_pairing_bind {A B} (m : M SengledAdapter A) (k : A -> M SengledAdapter B) :
  keeps_pairing m -> (forall x, keeps_pairing (k x)) -> keeps_pairing (bind m k).
Proof.
  intros Hm Hk a. unfold bind. specialize (Hm a).
  destruct (m a) as [[x|e] a1]; simpl in *; [|exact Hm].
  rewrite Hk. exact Hm.
Qed.

Lemma keeps_pairing_ret {A} (x : A) : keeps_pairing (ret x).
Proof. intros a. reflexivity. Qed.

Lemma keeps_pairing_client {A} (m : M world A) : keeps_pairing (on_adapter_client m).
Proof.
  intros a. unfold on_adapter_client.
  destruct (adapter_client a) as [w|]; [|reflexivity].
  destruct (m w); reflexivity.
Qed.

Lemma keeps_pairing_log (calls : list gateway_call) :
  keeps_pairing (modify (log_gateway calls)).
Proof. intros a. reflexivity. Qed.

Lemma keeps_pairing_new_device (nonzero : string -> bool) (_id : string) (i : nat) :
  keeps_pairing (new_device nonzero _id i).
Proof.
  unfold new_device.
  apply keeps_pairing_bind; [apply keeps_pairing_client|]. intros dev.
  apply keeps_pairing_bind; [apply keeps_pairing_log|]. intros _.
  apply keeps_pairing_bind; [intros a; reflexivity|]. intros level.
  apply keeps_pairing_bind; [apply keeps_pairing_log|]. intros _.
  apply keeps_pairing_bind; [apply keeps_pairing_client|]. intros _.
  apply keeps_pairing_ret.
Qed.

Lemma keeps_pairing_loop (nonzero : string -> bool) (positions : list nat) :
  keeps_pairing (pair_devices nonzero positions).
Proof.
  induction positions as [|i rest IH]; [apply keeps_pairing_ret|].
  cbn [pair_devices].
  apply keeps_pairing_bind; [intros a; reflexivity|]. intros a.
  destruct (negb (pairing a)); [apply keeps_pairing_ret|].
  apply keeps_pairing_bind; [apply keeps_pairing_client|]. intros dev.
  apply keeps_pairing_bind; [|intros _; exact IH].
  destruct (negb _); [|apply keeps_pairing_ret].
  apply keeps_pairing_bind; [apply keeps_pairing_new_device|]. intros device.
  apply keeps_pairing_bind; [intros x; reflexivity|]. intros _.
  apply keeps_pairing_log.
Qed.

(** X19.  An exception during pairing leaves pairing blocked.  [start_pairing]
    sets the flag [pairing] before it logs in and clears it only at its very
    end, so when anything in between raises (the login, the directory refresh,
    the construction of a device), the flag stays set; from then on every call
    of [start_pairing] returns at once without doing anything. *)
Theorem pairing_blocked_after_exception (E : environment) (nonzero : string -> bool)
        (timeout : Z) (a a' : SengledAdapter) (e : exn) :
  pairing a = false ->
  start_pairing E nonzero timeout a = (Raise e, a') ->
  pairing a' = true /\
  forall timeout', start_pairing E nonzero timeout' a' = (Return tt, a').
Proof.
  intros Hidle Hrun.
  assert (Hset : pairing a' = true).
  { unfold start_pairing in Hrun. unfold bind at 1 in Hrun. unfold get at 1 in Hrun.
    rewrite Hidle, orb_false_r in Hrun.
    destruct (bool_decide (adapter_client a = None)); [discriminate Hrun|].
    unfold bind at 1 in Hrun. unfold modify at 1 in Hrun.
    set (a1 := set_pairing true a) in Hrun.
    unfold bind at 1 in Hrun.
    pose proof (keeps_pairing_client (login E) a1) as H1.
    destruct (on_adapter_client (login E) a1) as [[r|e1] a2]; cbn [snd] in H1.
    2: { injection Hrun as <- <-. exact H1. }
    unfold bind at 1 in Hrun.
    pose proof (keeps_pairing_client (get_devices E true) a2) as H2.
    destruct (on_adapter_client (get_devices E true) a2) as [[devs|e2] a3];
      cbn [snd] in H2.
    2: { injection Hrun as <- <-. rewrite H2. exact H1. }
    unfold bind at 1 in Hrun.
    pose proof (keeps_pairing_loop nonzero (seq 0 (List.length devs)) a3) as H3.
    destruct (pair_devices nonzero (seq 0 (List.length devs)) a3) as [[[]|e3] a4];
      cbn [snd] in H3.
    - discriminate Hrun.
    - injection Hrun as <- <-. rewrite H3, H2. exact H1. }
  split; [exact Hset|].
  intros timeout'. unfold start_pairing. unfold bind at 1. unfold get at 1.
  rewrite Hset, orb_true_r. reflexivity.
Qed.

Lemma pairing_blocked_after_exception_witness :
  let E := example_environment (fun _ => None) (fun _ => 0) example_loads in
  let a := adapter_of (world_of offline_client) in
  exists a',
    start_pairing E (fun _ => true) 3 a = (Raise RequestException, a') /\
    pairing a' = true /\
    start_pairing E (fun _ => true) 3 a' = (Return tt, a').
Proof.
  intros E a.
  destruct (start_pairing E (fun _ => true) 3 a) as [o a'] eqn:Hrun.
  assert (Ho : o = Raise RequestException).
  { apply (f_equal fst) in Hrun. exact (eq_sym Hrun). }
  subst o.
  destruct (pairing_blocked_after_exception E (fun _ => true) 3 a a' _ eq_refl Hrun)
    as [Hset Hnext].
  exists a'. split; [reflexivity|]. split; [exact Hset | apply Hnext].
Defined.

Lemma new_device_runs (nonzero : string -> bool) (_id : string) (i : nat)
      (a : SengledAdapter) (w : world) (dev : SengledBulb) :
  adapter_client a = Some w ->
  _devices (client w) !! i = Some dev ->
  new_device nonzero _id i a =
  match brightness dev with
  | Return level =>
      (Return (device_for nonzero _id i dev),
       {| adapter_client := Some (observed_at i w);
          pairing := pairing a;
          devices := devices a;
          gateway_log := gateway_log a
                         ++ [ set_cached_value _id "on" (PyBool (switch dev));
                              set_cached_value _id "level" (PyInt level) ] |})
  | Raise e =>
      (Raise e, log_gateway [ set_cached_value _id "on" (PyBool (switch dev)) ] a)
  end.
Proof.
  intros Ha Hdev. unfold new_device.
  assert (Hbulb : on_adapter_client (bulb_at i) a = (Return dev, a)).
  { rewrite (on_adapter_client_runs _ a w w _ Ha (bulb_at_found _ _ _ Hdev)).
    rewrite (set_adapter_client_same a w Ha). reflexivity. }
  rewrite (bind_return _ _ _ _ _ Hbulb).
  unfold bind at 1. unfold modify at 1. unfold bind at 1. unfold lift at 1.
  destruct (brightness dev) as [level|e]; [|reflexivity].
  unfold bind at 1. unfold modify at 1. unfold bind at 1.
  unfold on_adapter_client, register_observer, update, modify.
  cbn [adapter_client log_gateway]. rewrite Ha. cbn [ret].
  unfold device_for, observed_at, set_adapter_client, log_gateway.
  cbn [adapter_client pairing devices gateway_log].
  rewrite <- app_assoc. destruct (py_truthy nonzero (name dev)); reflexivity.
Qed.



(** ** Pairing covers the directory *)

Lemma observers_added_refl (l : list SengledBulb) : observers_added l l.
Proof. apply Forall2_same_length_lookup_2; [reflexivity|]. intros i x y H1 H2.
  left. congruence. Qed.

Lemma observers_added_trans (l1 l2 l3 : list SengledBulb) :
  observers_added l1 l2 -> observers_added l2 l3 -> observers_added l1 l3.
Proof.
  unfold observers_added. intros H12. revert l3.
  induction H12 as [|x y l1 l2 Hxy H12 IH]; intros l3 H23.
  - inversion H23. constructor.
  - inversion H23 as [|y' z l2' l3' Hyz H23']; subst. constructor; [|apply IH; exact H23'].
    destruct Hxy as [-> | ->], Hyz as [-> | ->]; auto.
Qed.

Lemma observers_added_alter (i : nat) (l : list SengledBulb) :
  observers_added l (alter (set_attribute_update_callback true) i l).
Proof.
  revert i. induction l as [|x l IH]; intros [|i]; cbn; constructor; auto;
    apply observers_added_refl || apply IH.
Qed.

Lemma observers_added_lookup (l l' : list SengledBulb) (i : nat) (dev : SengledBulb) :
  observers_added l l' -> l !! i = Some dev ->
  exists dev', l' !! i = Some dev' /\
               (dev' = dev \/ dev' = set_attribute_update_callback true dev).
Proof. intros H Hl. exact (Forall2_lookup_l _ _ _ _ _ H Hl). Qed.

Lemma on_adapter_client_inv {A} (m : M world A) (a a' : SengledAdapter) (w : world)
      (o : outcome A) :
  adapter_client a = Some w ->
  on_adapter_client m a = (o, a') ->
  exists w', m w = (o, w') /\ a' = set_adapter_client (Some w') a.
Proof.
  intros Ha. unfold on_adapter_client. rewrite Ha.
  destruct (m w) as [o' w']. intros [= <- <-]. exists w'. split; reflexivity.
Qed.

Lemma get_devices_returns_cache (E : environment) (force_update : bool) (w w' : world)
      (devs : list SengledBulb) :
  get_devices E force_update w = (Return devs, w') -> devs = _devices (client w').
Proof.
  unfold get_devices. unfold bind at 1. unfold this at 1. cbn [client].
  destruct (negb (token_set _)); [intros [= <- <-]; reflexivity|].
  destruct (_ && _); [intros [= <- <-]; reflexivity|].
  unfold bind at 1.
  pose proof (post_only_requests E (device_list_request (client w)) w) as Hpost.
  destruct (post E (device_list_request (client w)) w) as [[r|e] w1]; [|discriminate].
  cbn [snd] in Hpost. destruct Hpost as [Hc1 _].
  destruct (negb (status_code r =? 200)).
  { intros [= <- <-]. rewrite Hc1. reflexivity. }
  unfold bind at 1. unfold response_json.
  destruct (resp_body r) as [data|]; [|discriminate]. unfold ret at 1.
  destruct (body_deviceList data) as [[|d l]|].
  - intros [= <- <-]. rewrite Hc1. reflexivity.
  - unfold bind at 1.
    match goal with |- context [for_each ?body ?ds w1] =>
      destruct (for_each body ds w1) as [[[]|e] w2] end; [|discriminate].
    unfold bind, this, ret. intros [= <- <-]. reflexivity.
  - intros [= <- <-]. rewrite Hc1. reflexivity.
Qed.

Lemma pair_devices_covers (nonzero : string -> bool) (positions : list nat) :
  forall (a a' : SengledAdapter) (w : world),
    adapter_client a = Some w ->
    pairing a = true ->
    pair_devices nonzero positions a = (Return tt, a') ->
    exists w',
      adapter_client a' = Some w' /\
      observers_added (_devices (client w)) (_devices (client w')) /\
      (forall i, i ∈ positions ->
         exists dev, _devices (client w) !! i = Some dev /\
                     is_Some (devices a' !! ("sengled-" ++ uuid dev)%string)) /\
      (forall k d, devices a !! k = Some d -> devices a' !! k = Some d) /\
      (forall k d, devices a' !! k = Some d ->
         devices a !! k = Some d \/
         exists dev,
           _devices (client w') !! sengled_dev d = Some dev /\
           _attribute_update_callback dev = SetTo true /\
           k = ("sengled-" ++ uuid dev)%string /\
           d = device_for nonzero k (sengled_dev d) dev /\
           In (handle_device_added k) (gateway_log a')) /\
      (forall c, In c (gateway_log a) -> In c (gateway_log a')).
Proof.
  induction positions as [|i rest IH]; intros a a' w Ha Hp Hrun.
  - cbn [pair_devices] in Hrun. injection Hrun as <-. exists w.
    split; [exact Ha|]. split; [apply observers_added_refl|].
    split; [intros i Hi; inversion Hi|]. split; [auto|]. split; [auto | auto].
  - cbn [pair_devices] in Hrun. unfold bind at 1 in Hrun. unfold get at 1 in Hrun.
    rewrite Hp in Hrun. cbn [negb] in Hrun.
    unfold bind at 1 in Hrun.
    destruct (_devices (client w) !! i) as [dev|] eqn:Hdev.
    2: { unfold on_adapter_client, bulb_at in Hrun. rewrite Ha in Hrun.
         unfold bind, this in Hrun. rewrite Hdev in Hrun. discriminate Hrun. }
    rewrite (on_adapter_client_runs _ a w w _ Ha (bulb_at_found _ _ _ Hdev)) in Hrun.
    rewrite (set_adapter_client_same a w Ha) in Hrun.
    set (_id := ("sengled-" ++ uuid dev)%string) in *.
    unfold bind at 1 in Hrun.
    destruct (devices a !! _id) as [known|] eqn:Hknown.
    + (* the identifier is known: nothing is built *)
      rewrite bool_decide_eq_true_2 in Hrun by (exists known; reflexivity).
      cbn [negb] in Hrun. unfold ret at 1 in Hrun.
      destruct (IH a a' w Ha Hp Hrun) as (w' & Ha' & Hobs & Hcov & Hkeep & Horigin & Hlog).
      exists w'. split; [exact Ha'|]. split; [exact Hobs|].
      split; [|split; [exact Hkeep|split; [exact Horigin | exact Hlog]]].
      intros j Hj. apply elem_of_cons in Hj as [-> | Hj]; [|apply Hcov; exact Hj].
      exists dev. split; [exact Hdev|]. exists known. apply Hkeep. exact Hknown.
    + rewrite bool_decide_eq_false_2 in Hrun
        by (intros [x Hx]; discriminate Hx).
      cbn [negb] in Hrun. unfold bind at 1 in Hrun.
      rewrite (new_device_runs nonzero _id i a w dev Ha Hdev) in Hrun.
      destruct (brightness dev) as [level|e]; [|discriminate Hrun].
      unfold bind at 1 in Hrun. unfold modify at 1 in Hrun.
      unfold modify at 1 in Hrun.
      match type of Hrun with pair_devices _ _ ?x = _ => set (a3 := x) in * end.
      assert (Ha3 : adapter_client a3 = Some (observed_at i w)) by reflexivity.
      assert (Hp3 : pairing a3 = true) by exact Hp.
      assert (Hd3 : devices a3 = <[_id := device_for nonzero _id i dev]> (devices a))
        by reflexivity.
      assert (Hl3 : forall c, In c (gateway_log a) \/ c = handle_device_added _id ->
                              In c (gateway_log a3)).
      { intros c Hc. subst a3. cbn [gateway_log log_gateway add_device].
        rewrite !in_app_iff. destruct Hc as [Hc | ->]; [left; left; exact Hc|].
        right. left. reflexivity. }
      destruct (IH a3 a' _ Ha3 Hp3 Hrun)
        as (w' & Ha' & Hobs & Hcov & Hkeep & Horigin & Hlog).
      clearbody a3.
      assert (Hobs0 : observers_added (_devices (client w))
                                      (_devices (client (observed_at i w)))).
      { apply observers_added_alter. }
      exists w'. split; [exact Ha'|].
      split; [exact (observers_added_trans _ _ _ Hobs0 Hobs)|].
      split; [|split; [|split]].
      * intros j Hj. apply elem_of_cons in Hj as [-> | Hj].
        -- exists dev. split; [exact Hdev|]. eexists. apply Hkeep.
           rewrite Hd3. apply lookup_insert_eq.
        -- destruct (Hcov j Hj) as (dev' & Hdev' & Hin).
           cbn [observed_at client on_client set_devices _devices] in Hdev'.
           destruct (decide (j = i)) as [-> | Hne].
           ++ rewrite list_lookup_alter_eq, Hdev in Hdev'. injection Hdev' as <-.
              exists dev. split; [exact Hdev | exact Hin].
           ++ rewrite list_lookup_alter_ne in Hdev' by congruence.
              exists dev'. split; [exact Hdev' | exact Hin].
      * intros k d Hk. apply Hkeep. rewrite Hd3.
        rewrite lookup_insert_ne; [exact Hk|]. intros <-. congruence.
      * intros k d Hk. destruct (Horigin k d Hk) as [Hk3 | Hnew].
        -- rewrite Hd3 in Hk3. destruct (decide (_id = k)) as [<- | Hne].
           ++ rewrite lookup_insert_eq in Hk3. injection Hk3 as <-. right.
              cbn [device_for sengled_dev].
              assert (Hat : _devices (client (observed_at i w)) !! i
                            = Some (set_attribute_update_callback true dev)).
              { cbn [observed_at client on_client set_devices _devices].
                rewrite list_lookup_alter_eq, Hdev. reflexivity. }
              destruct (observers_added_lookup _ _ _ _ Hobs Hat)
                as (dev' & Hdev' & Hsame).
              assert (dev' = set_attribute_update_callback true dev) as ->.
              { destruct Hsame as [-> | ->]; reflexivity. }
              exists (set_attribute_update_callback true dev).
              split; [exact Hdev'|]. split; [reflexivity|]. split; [reflexivity|].
              split; [reflexivity|]. apply Hlog, Hl3. right. reflexivity.
           ++ rewrite lookup_insert_ne in Hk3 by exact Hne. left. exact Hk3.
        -- right. exact Hnew.
      * intros c Hc. apply Hlog, Hl3. left. exact Hc.
Qed.

(** X21.  Pairing covers the directory.  When [start_pairing] runs on an idle
    adapter with a client and returns, pairing is over and every bulb of the
    client's cache has a device named ["sengled-"] followed by its
    identifier.  Devices known before are kept as they were (a bulb whose
    device exists is not wrapped again), and each device that was added wraps
    a bulb of the cache on which its observer is registered, carries that
    bulb's name and type code, and was announced to the gateway. *)
Theorem pairing_covers_directory (E : environment) (nonzero : string -> bool)
        (timeout : Z) (a a' : SengledAdapter) :
  is_Some (adapter_client a) ->
  pairing a = false ->
  start_pairing E nonzero timeout a = (Return tt, a') ->
  pairing a' = false /\
  exists w',
    adapter_client a' = Some w' /\
    (forall dev, dev ∈ _devices (client w') ->
       is_Some (devices a' !! ("sengled-" ++ uuid dev)%string)) /\
    (forall k d, devices a !! k = Some d -> devices a' !! k = Some d) /\
    (forall k d, devices a' !! k = Some d ->
       devices a !! k = Some d \/
       exists dev,
         _devices (client w') !! sengled_dev d = Some dev /\
         _attribute_update_callback dev = SetTo true /\
         k = ("sengled-" ++ uuid dev)%string /\
         d = device_for nonzero k (sengled_dev d) dev /\
         In (handle_device_added k) (gateway_log a')).
Proof.
  intros [w Ha] Hidle Hrun.
  unfold start_pairing in Hrun. unfold bind at 1 in Hrun. unfold get at 1 in Hrun.
  rewrite Hidle, orb_false_r in Hrun.
  rewrite bool_decide_eq_false_2 in Hrun by (rewrite Ha; discriminate).
  unfold bind at 1 in Hrun. unfold modify at 1 in Hrun.
  set (a1 := set_pairing true a) in Hrun.
  assert (Ha1 : adapter_client a1 = Some w) by exact Ha.
  unfold bind at 1 in Hrun.
  destruct (on_adapter_client (login E) a1) as [[r|e1] a2] eqn:Hlogin;
    [|discriminate Hrun].
  destruct (on_adapter_client_inv _ _ _ _ _ Ha1 Hlogin) as (w2 & _ & ->).
  set (a2 := set_adapter_client (Some w2) a1) in *.
  assert (Ha2 : adapter_client a2 = Some w2) by reflexivity.
  unfold bind at 1 in Hrun.
  destruct (on_adapter_client (get_devices E true) a2) as [[devs|e2] a3] eqn:Hlist;
    [|discriminate Hrun].
  destruct (on_adapter_client_inv _ _ _ _ _ Ha2 Hlist) as (w3 & Hget & ->).
  apply get_devices_returns_cache in Hget. subst devs.
  set (a3 := set_adapter_client (Some w3) a2) in *.
  assert (Ha3 : adapter_client a3 = Some w3) by reflexivity.
  assert (Hp3 : pairing a3 = true) by reflexivity.
  unfold bind at 1 in Hrun.
  destruct (pair_devices nonzero (seq 0 (List.length (_devices (client w3)))) a3)
    as [[[]|e3] a4] eqn:Hloop; [|discriminate Hrun].
  unfold modify in Hrun. injection Hrun as <-.
  destruct (pair_devices_covers nonzero _ a3 a4 w3 Ha3 Hp3 Hloop)
    as (w' & Ha' & Hobs & Hcov & Hkeep & Horigin & _).
  split; [reflexivity|]. exists w'. cbn [set_pairing adapter_client devices gateway_log].
  split; [exact Ha'|]. split; [|split; [exact Hkeep | exact Horigin]].
  intros dev Hin. apply list_elem_of_lookup in Hin as [j Hj].
  destruct (Forall2_lookup_r _ _ _ _ _ Hobs Hj) as (dev0 & Hj0 & Hsame).
  assert (Huuid : uuid dev = uuid dev0) by (destruct Hsame as [-> | ->]; reflexivity).
  rewrite Huuid.
  assert (Hseq : j ∈ seq 0 (List.length (_devices (client w3)))).
  { apply elem_of_seq. apply lookup_lt_Some in Hj0.
    change (List.length (_devices (client w3))) with (length (_devices (client w3))).
    lia. }
  destruct (Hcov j Hseq) as (dev1 & Hj1 & Hdone).
  rewrite Hj0 in Hj1. injection Hj1 as <-. exact Hdone.
Qed.

Lemma pairing_covers_directory_witness :
  let E := example_environment example_backend (fun _ => 0) example_loads in
  let a := adapter_of (world_of offline_client) in
  exists a',
    start_pairing E (fun _ => true) 3 a = (Return tt, a') /\
    pairing a' = false /\
    is_Some (devices a' !! "sengled-B0CE1814039A").
Proof.
  intros E a.
  set (a' := snd (start_pairing E (fun _ => true) 3 a)).
  assert (Hrun : start_pairing E (fun _ => true) 3 a = (Return tt, a'))
    by (vm_compute; reflexivity).
  destruct (pairing_covers_directory E (fun _ => true) 3 a a'
              (ex_intro _ _ eq_refl) eq_refl Hrun)
    as (Hover & w' & Ha' & Hcov & _ & _).
  exists a'. split; [exact Hrun|]. split; [exact Hover|].
  assert (Hw : adapter_client a' = Some w') by exact Ha'.
  vm_compute in Hw. injection Hw as Hw.
  apply (Hcov (set_attribute_update_callback true example_bulb)).
  rewrite <- Hw. cbn [_devices client]. apply elem_of_cons. left. reflexivity.
Defined.

(** ** From a status message to the gateway *)

Lemma attribute_to_property_plain (key name : string) :
  ~ In name [ "consumption_time"; "rssi"; "identify_no"; "product_code"; "save_flag";
              "start_time"; "support_attributes"; "time_zone"; "type_code" ] ->
  _attribute_to_property key = name -> key = name.
Proof.
  intros Hnot. unfold _attribute_to_property. cbn [find fst snd].
  repeat match goal with
         | |- context [String.eqb ?a key] => destruct (String.eqb a key)
         end; cbn [snd]; intros H; try exact H;
    exfalso; apply Hnot; rewrite <- H; cbn; tauto.
Qed.

Lemma entry_effect_calls (status : json) (st st' : bulb_state) :
  entry_effect status st st' ->
  exists calls,
    new_calls st st' calls /\
    Forall (fun c => exists key, names_attribute key status /\
                                 fst c = _attribute_to_property key) calls.
Proof.
  intros [|key v Hty Hv Hfound|key v pv Hty Hv Hfound Hcb].
  - exists []. unfold new_calls. rewrite app_nil_r. split; [reflexivity | constructor].
  - exists []. unfold new_calls. cbn. rewrite app_nil_r. split; [reflexivity | constructor].
  - exists [(_attribute_to_property key, pv)]. split; [reflexivity|].
    constructor; [|constructor]. exists key. split; [exact Hty | reflexivity].
Qed.

Lemma for_each_entries_calls (entries : list json) (st : bulb_state) :
  exists calls,
    new_calls st (snd (for_each update_entry entries st)) calls /\
    Forall (fun c => exists entry key,
                       In entry entries /\ names_attribute key entry /\
                       fst c = _attribute_to_property key) calls.
Proof.
  revert st. induction entries as [|entry entries IH]; intros st; cbn [for_each].
  - exists []. unfold new_calls. cbn. rewrite app_nil_r. split; [reflexivity | constructor].
  - destruct (entry_effect_calls _ _ _ (update_entry_effect entry st))
      as (calls & Hcalls & Hall).
    assert (Hall' : Forall (fun c => exists entry0 key,
                                In entry0 (entry :: entries) /\
                                names_attribute key entry0 /\
                                fst c = _attribute_to_property key) calls).
    { eapply Forall_impl; [exact Hall|]. intros c (key & Hty & Hname).
      exists entry, key. split; [left; reflexivity | split; assumption]. }
    unfold bind. destruct (update_entry entry st) as [[[]|e] st1]; cbn [snd] in *.
    + destruct (IH st1) as (calls' & Hcalls' & Hrest).
      exists (calls ++ calls'). split.
      * unfold new_calls in *. rewrite Hcalls', Hcalls, app_assoc. reflexivity.
      * apply Forall_app. split; [exact Hall'|].
        eapply Forall_impl; [exact Hrest|]. intros c (entry0 & key & Hin & Hty & Hname).
        exists entry0, key. split; [right; exact Hin | split; assumption].
    + exists calls. split; [exact Hcalls | exact Hall'].
Qed.

(** X22.  From a status message to the gateway.  Whatever the message, and whether
    the handler returns or raises, the device that observes the bulb makes a
    gateway call only for an entry of the message that names [switch], which
    concerns the property [on], or [brightness], which concerns [level]: the
    observer's calls for every other attribute are dropped by the device, so
    a message that names neither attribute causes no gateway call at all. *)
Theorem gateway_hears_switch_and_brightness (E : environment) (message : string)
        (st : bulb_state) (device : string) :
  exists calls,
    new_calls st (snd (_update_status E message st)) calls /\
    (forall g, In g (gateway_reaction device calls) ->
       exists data entries entry,
         json_loads E message = Some data /\
         py_iter data = Return entries /\
         In entry entries /\
         ((concerns device "on" g /\ names_attribute "switch" entry) \/
          (concerns device "level" g /\ names_attribute "brightness" entry))) /\
    ((forall data entries entry,
        json_loads E message = Some data ->
        py_iter data = Return entries ->
        In entry entries ->
        ~ names_attribute "switch" entry /\ ~ names_attribute "brightness" entry) ->
     gateway_reaction device calls = []).
Proof.
  assert (Hmain : exists calls,
    new_calls st (snd (_update_status E message st)) calls /\
    (forall g, In g (gateway_reaction device calls) ->
       exists data entries entry,
         json_loads E message = Some data /\
         py_iter data = Return entries /\
         In entry entries /\
         ((concerns device "on" g /\ names_attribute "switch" entry) \/
          (concerns device "level" g /\ names_attribute "brightness" entry)))).
  { assert (Hnone : exists calls : list (string * pyvalue),
              new_calls st st calls /\
              (forall g, In g (gateway_reaction device calls) ->
                 exists data entries entry,
                   json_loads E message = Some data /\
                   py_iter data = Return entries /\
                   In entry entries /\
                   ((concerns device "on" g /\ names_attribute "switch" entry) \/
                    (concerns device "level" g /\ names_attribute "brightness" entry)))).
    { exists []. unfold new_calls. rewrite app_nil_r. split; [reflexivity|].
      intros g []. }
    unfold _update_status.
    destruct (json_loads E message) as [data|] eqn:Hloads; [|exact Hnone].
    unfold bind. unfold lift at 1.
    destruct (py_iter data) as [entries|e] eqn:Hiter; [|exact Hnone].
    destruct (for_each_entries_calls entries st) as (calls & Hcalls & Hall).
    exists calls. split; [exact Hcalls|].
    intros g Hg. unfold gateway_reaction in Hg. apply in_flat_map in Hg as (c & Hc & Hg).
    rewrite Forall_forall in Hall.
    destruct (Hall c (proj2 (list_elem_of_In _ _) Hc)) as (entry & key & Hin & Hty & Hname).
    exists data, entries, entry. split; [reflexivity|]. split; [exact Hiter|].
    split; [exact Hin|].
    unfold update_property in Hg.
    destruct (String.eqb_spec (fst c) "switch") as [Hsw | _].
    - left. split.
      + destruct Hg as [<- | [<- | []]]; [left; eexists; reflexivity | right; reflexivity].
      + rewrite Hname in Hsw.
        apply attribute_to_property_plain in Hsw; [subst key; exact Hty|].
        cbn. intuition discriminate.
    - destruct (String.eqb_spec (fst c) "brightness") as [Hbr | _]; [|destruct Hg].
      right. split.
      + destruct Hg as [<- | [<- | []]]; [left; eexists; reflexivity | right; reflexivity].
      + rewrite Hname in Hbr.
        apply attribute_to_property_plain in Hbr; [subst key; exact Hty|].
        cbn. intuition discriminate. }
  destruct Hmain as (calls & Hcalls & Hsource).
  exists calls. split; [exact Hcalls|]. split; [exact Hsource|].
  intros Hquiet. destruct (gateway_reaction device calls) as [|g rest] eqn:Hreact;
    [reflexivity|].
  exfalso.
  destruct (Hsource g (or_introl eq_refl))
    as (data & entries & entry & Hloads & Hiter & Hin & Hnamed).
  destruct (Hquiet data entries entry Hloads Hiter Hin) as [Hsw Hbr].
  destruct Hnamed as [[_ H] | [_ H]]; [exact (Hsw H) | exact (Hbr H)].
Qed.

Lemma gateway_hears_switch_and_brightness_witness :
  let E := example_environment (fun _ => None) (fun _ => 0) example_loads in
  let st := observed_bulb [ {| attr_name := "brightness"; attr_value := JStr "40" |};
                            {| attr_name := "switch"; attr_value := JStr "0" |} ] in
  exists calls,
    new_calls st (snd (_update_status E message_switch_on st)) calls /\
    gateway_reaction "sengled-B0CE1814039A" calls =
      [ set_cached_value "sengled-B0CE1814039A" "on" (PyBool true);
        notify_property_changed "sengled-B0CE1814039A" "on" ].
Proof.
  intros E st.
  destruct (gateway_hears_switch_and_brightness E message_switch_on st
              "sengled-B0CE1814039A") as (calls & Hcalls & _).
  exists calls. split; [exact Hcalls|].
  unfold new_calls in Hcalls. vm_compute in Hcalls. rewrite <- Hcalls. reflexivity.
Defined.

(** ** [int] on some texts

    Texts on which [int(text, 10)] is easily misjudged: the separators U+001C
    to U+001F are no white space to it, the no-break space is; digits of any
    script count; underscores stand between digits only; more than 4300
    digits are refused. *)
Example int_of_texts :
  parse_int10 (String "028" "5") = None /\
  parse_int10 (String "194" (String "160" "5")) = Some 5 /\
  parse_int10 "-٦٧" = Some (-67) /\
  parse_int10 " +1_000 " = Some 1000 /\
  parse_int10 "1__0" = None /\
  parse_int10 "_1" = None /\
  parse_int10 "+ 1" = None /\
  parse_int10 "" = None /\
  parse_int10 (string_of_list_ascii (repeat "0"%char 4300)) = Some 0 /\
  parse_int10 (string_of_list_ascii (repeat "0"%char 4301)) = None.
Proof. vm_compute. repeat split. Qed.
